(** * Case_SS: object-store gateway and CVM financial-statement pipeline

    A shallow embedding of [src/minio_handler.py] (the deduplicating
    object-store gateway) and of the financial-statement stages of
    [src/etls/cvm_etl.py] (reconciliation, enrichment, quarterly metrics),
    with the properties the specification states about them. *)

From Stdlib Require Import ZArith Lia List String Ascii Bool.
From stdpp Require Import gmap strings list fin_maps sorting.

Local Open Scope string_scope.
Local Open Scope Z_scope.

(** ** Python string primitives used by the sources *)

Module PyStr.

(** [s.startswith(pre)] *)
Fixpoint startswith (s pre : string) {struct pre} : bool :=
  match pre, s with
  | EmptyString, _ => true
  | String _ _, EmptyString => false
  | String a pre', String b s' => if Ascii.eqb a b then startswith s' pre' else false
  end.

(** [s.endswith(suf)] *)
Definition endswith (s suf : string) : bool :=
  startswith (String.rev s) (String.rev suf).

(** [sub in s] *)
Fixpoint contains (s sub : string) : bool :=
  if startswith s sub then true
  else match s with
       | EmptyString => false
       | String _ s' => contains s' sub
       end.

(** [s.split(sep)] for a one-character separator: [cur] holds the
    characters of the current field. *)
Fixpoint split_go (sep : ascii) (cur : string) (s : string) : list string :=
  match s with
  | EmptyString => [cur]
  | String c s' =>
      if Ascii.eqb c sep then cur :: split_go sep EmptyString s'
      else split_go sep (cur +:+ String c EmptyString) s'
  end.

Definition split (sep : ascii) (s : string) : list string :=
  split_go sep EmptyString s.

(** [sep.join(parts)] *)
Fixpoint join (sep : string) (parts : list string) : string :=
  match parts with
  | [] => EmptyString
  | [p] => p
  | p :: ps => p +:+ sep +:+ join sep ps
  end.

End PyStr.

(** ** [pathlib.PurePosixPath]: parsing, [parent] and [str] *)

Module PurePath.

Record t := mk { root : string; parts : list string }.

Definition nonempty (s : string) : bool :=
  match s with EmptyString => false | _ => true end.

(** A path keeps a leading "/" (exactly two leading slashes are kept as
    "//"), and drops empty and "." components. *)
Definition parse_root (s : string) : string :=
  if PyStr.startswith s "///" then "/"
  else if PyStr.startswith s "//" then "//"
  else if PyStr.startswith s "/" then "/"
  else "".

Definition keep_part (p : string) : bool :=
  nonempty p && negb (String.eqb p ".").

Definition parse (s : string) : t :=
  {| root := parse_root s;
     parts := List.filter keep_part (PyStr.split "/"%char s) |}.

(** [Path.parent]: the path without its last component; a path without
    components is its own parent. *)
Definition parent (p : t) : t :=
  {| root := root p; parts := removelast (parts p) |}.

(** [str(path)] *)
Definition to_string (p : t) : string :=
  match root p, parts p with
  | EmptyString, [] => "."
  | r, ps => r +:+ PyStr.join "/" ps
  end.

End PurePath.

(** Keys of the layered convention [<layer>/.../<file>]: the components
    of the folder and the file name are non-empty, are not "." and hold no
    "/". *)
Fixpoint slash_free (s : string) : bool :=
  match s with
  | EmptyString => true
  | String c s' => negb (Ascii.eqb c "/") && slash_free s'
  end.



(** ** Static catalog ([formats]): the enumerations the sources use *)

Inductive DocumentTypes :=
  | ITR | IPE | FRE | DFP
  | BALANCO_PATRIMONIAL_ATIVO | BALANCO_PATRIMONIAL_PASSIVO
  | FLUXO_DE_CAIXA_INDIRETO | DRE
  | FATO_RELEVANTE | COMUNICADOS_AO_MERCADO
  | ESCRITURAS_E_ADITAMENTO_DE_DEBENTURES
  | DEMONSTRATIVOS_FINANCEIROS_FINAL.

Inductive DataSources := CVM | SND | B3.

Inductive ContentTypes := PARQUET | PDF | TSV | XLSX | XML | ZIP.

Inductive CVMDocumentAggregationType := CONSOLIDADO | INDIVIDUAL.

Inductive MedallionLayer :=
  | BRONZE_LANDING | BRONZE_RAW | SILVER_CLEANED | SILVER_ENRICHED
  | GOLD_SERVING | GOLD_EXPORT | GOLD_DOCUMENTS.

Global Instance DocumentTypes_eq_dec : EqDecision DocumentTypes.
Proof. solve_decision. Defined.
Global Instance DataSources_eq_dec : EqDecision DataSources.
Proof. solve_decision. Defined.
Global Instance ContentTypes_eq_dec : EqDecision ContentTypes.
Proof. solve_decision. Defined.
Global Instance CVMDocumentAggregationType_eq_dec : EqDecision CVMDocumentAggregationType.
Proof. solve_decision. Defined.

(** Modelled from the spec: the [.value] of [CVMDocumentAggregationType]
    (the enumeration is declared in [formats], which is not among the
    sources); the glossary names the two aggregation types, the tests use
    "Consolidado". *)
Definition agg_value (a : CVMDocumentAggregationType) : string :=
  match a with
  | CONSOLIDADO => "Consolidado"
  | INDIVIDUAL => "Individual"
  end.

(** ** The object-store gateway ([MinioHandler]) *)

Module Minio.

(** Modelled from the spec: the metadata [create_put_obj_metadata] attaches
    to an artifact ([file_operations] is not among the sources): content
    hash, ingest timestamp, trace id, data source, document type, reference
    date and optional aggregation type. *)
Record metadata := {
  file_hash : string;
  ingest_ts : string;
  ref_date : string;
  trace_id : string;
  source : DataSources;
  document_type : DocumentTypes;
  aggregation_type : option CVMDocumentAggregationType
}.

(** A stored object; objects put without metadata (the layout
    placeholders) have none. *)
Record object := {
  data : list Byte.byte;
  content_type : option ContentTypes;
  obj_metadata : option metadata
}.

(** What the gateway logs on return. *)
Inductive outcome :=
  | AlreadyExists (path : string)
  | Uploaded (path : string).

Section Gateway.

(** The content digest computed by [create_put_obj_metadata]. *)
Variable digest : list Byte.byte → string.

Definition create_put_obj_metadata (ingest_ts ref_date trace_id : string)
    (source : DataSources) (document_type : DocumentTypes)
    (file_bytes : list Byte.byte)
    (aggregation_type : option CVMDocumentAggregationType) : metadata :=
  {| file_hash := digest file_bytes;
     ingest_ts := ingest_ts;
     ref_date := ref_date;
     trace_id := trace_id;
     source := source;
     document_type := document_type;
     aggregation_type := aggregation_type |}.

(** [client.list_objects(prefix=..., recursive=True)]: the names of all
    objects under the prefix, in key order. *)
Definition list_objects (s : gmap string object) (prefix : string) : list string :=
  merge_sort String.le
    (List.filter (λ name, PyStr.startswith name prefix) (map_to_list s).*1).

(** [client.stat_object(...).metadata.get(FILE_HASH, None)] *)
Definition stat_file_hash (s : gmap string object) (name : string) : option string :=
  match s !! name with
  | Some o => file_hash <$> obj_metadata o
  | None => None
  end.

(** The loop over [file_paths]: the first path whose stored hash equals
    the new one. *)
Fixpoint find_duplicate (s : gmap string object) (new_file_hash : string)
    (file_paths : list string) : option string :=
  match file_paths with
  | [] => None
  | curr :: rest =>
      if decide (Some new_file_hash = stat_file_hash s curr) then Some curr
      else find_duplicate s new_file_hash rest
  end.

Definition parent_folder (save_file_path : string) : string :=
  PurePath.to_string (PurePath.parent (PurePath.parse save_file_path)).

Definition folder_prefix (save_file_path : string) : string :=
  parent_folder save_file_path +:+ "/".

Definition file_paths (s : gmap string object) (save_file_path : string) : list string :=
  List.filter (λ name, negb (PyStr.endswith name "/"))
    (list_objects s (folder_prefix save_file_path)).

Definition save_file_to_bucket (s : gmap string object)
    (save_file_path : string) (file_bytes : list Byte.byte)
    (ingest_ts trace_id : string) (doc_type : DocumentTypes)
    (content_type : ContentTypes) (data_source : DataSources)
    (ref_date : option string) (agg_type : option CVMDocumentAggregationType)
    : gmap string object * outcome :=
  let ref_date := match ref_date with
                  | Some d => if PurePath.nonempty d then d else ""
                  | None => ""
                  end in
  let metadata := create_put_obj_metadata ingest_ts ref_date trace_id
                    data_source doc_type file_bytes agg_type in
  let new_file_hash := file_hash metadata in
  match find_duplicate s new_file_hash (file_paths s save_file_path) with
  | Some curr_file_in_parent_folder => (s, AlreadyExists curr_file_in_parent_folder)
  | None =>
      (<[save_file_path := {| data := file_bytes;
                              content_type := Some content_type;
                              obj_metadata := Some metadata |}]> s,
       Uploaded save_file_path)
  end.

(** The artifacts a scan of a folder prefix lists whose stored content
    hash is [h], and their number. *)
Definition artifacts_with_hash (s : gmap string object) (prefix h : string) : list string :=
  List.filter (λ name, bool_decide (stat_file_hash s name = Some h))
    (List.filter (λ name, negb (PyStr.endswith name "/")) (list_objects s prefix)).

Definition folder_hash_count (s : gmap string object) (prefix h : string) : nat :=
  length (artifacts_with_hash s prefix h).

(** [get_file_bytes_and_metadata]: a missing object is an error. *)
Definition get_file_bytes_and_metadata (s : gmap string object) (file_path : string)
    : option (list Byte.byte * option metadata) :=
  match s !! file_path with
  | Some o => Some (data o, obj_metadata o)
  | None => None
  end.

End Gateway.

End Minio.

(** ** Dates and the quarter rule *)

Record date := mk_date { year : Z; month : Z; day : Z }.

Global Instance date_eq_dec : EqDecision date.
Proof. solve_decision. Defined.

(** Order of [datetime.date] values. *)
Definition date_leb (a b : date) : bool :=
  (year a <? year b)
  || ((year a =? year b)
      && ((month a <? month b) || ((month a =? month b) && (day a <=? day b)))).

(** [Series.max()] of a date column; an empty column has no maximum. *)
Definition date_max (a b : date) : date := if date_leb a b then b else a.

Definition max_date (ds : list date) : option date :=
  match ds with
  | [] => None
  | d :: ds' => Some (fold_left date_max ds' d)
  end.

(** Modelled from the spec: [fmts.get_quarter] ([formats] is not among the
    sources): month <= 3 is quarter 1, <= 6 quarter 2, <= 9 quarter 3,
    otherwise quarter 4. *)
Definition get_quarter (d : date) : Z :=
  if month d <=? 3 then 1
  else if month d <=? 6 then 2
  else if month d <=? 9 then 3
  else 4.

(** ** Errors raised by the stages *)

Inductive error :=
  | S3Error (path : string)
  | ParserError (path : string)
  | AssertionError (message : option string)
  | KeyError (key : string)
  | ValueError (message : string).

Inductive result (A : Type) :=
  | Ok (a : A)
  | Err (e : error).
Arguments Ok {A} a.
Arguments Err {A} e.

Global Instance result_ret : MRet result := λ A a, Ok a.
Global Instance result_bind : MBind result := λ A B f m,
  match m with
  | Ok a => f a
  | Err e => Err e
  end.

Global Instance result_fmap : FMap result := λ A B f m,
  match m with
  | Ok a => Ok (f a)
  | Err e => Err e
  end.

Definition is_Ok {A} (r : result A) : bool :=
  match r with
  | Ok _ => true
  | Err _ => false
  end.

Definition of_option {A} (o : option A) (e : error) : result A :=
  match o with
  | Some a => Ok a
  | None => Err e
  end.

(** A [for] loop whose body may raise. *)
Fixpoint foldM {A S : Type} (body : S → A → result S) (acc : S) (l : list A) : result S :=
  match l with
  | [] => Ok acc
  | x :: l' => acc' ← body acc x; foldM body acc' l'
  end.

(** An insertion-ordered Python [dict]: assignment to an existing key
    replaces the value in place, a new key goes last. *)
Fixpoint dict_set {K V : Type} `{EqDecision K} (k : K) (v : V) (d : list (K * V))
    : list (K * V) :=
  match d with
  | [] => [(k, v)]
  | (k', v') :: d' =>
      if decide (k = k') then (k, v) :: d' else (k', v') :: dict_set k v d'
  end.

Fixpoint mapM {A B : Type} (f : A → result B) (l : list A) : result (list B) :=
  match l with
  | [] => Ok []
  | x :: l' => y ← f x; ys ← mapM f l'; mret (y :: ys)
  end.

(** ** Tables *)

(** A cell of a table parsed from CSV. *)
Inductive cell :=
  | CStr (s : string)
  | CDate (d : date)
  | CNaN.

Global Instance cell_eq_dec : EqDecision cell.
Proof. solve_decision. Defined.

(** A [pandas.DataFrame] with untyped cells: ordered column names and
    rows of cells in column order. *)
Module DataFrame.

Record t := mk { columns : list string; rows : list (list cell) }.

(** [pd.DataFrame()] *)
Definition empty : t := {| columns := []; rows := [] |}.

Fixpoint index_of (col : string) (cols : list string) : option nat :=
  match cols with
  | [] => None
  | c :: cols' => if String.eqb c col then Some O else S <$> index_of col cols'
  end.

Definition get_cell (i : nat) (row : list cell) : cell := nth i row CNaN.

(** [df[df[col] == value]]; an unknown column is a [KeyError]. *)
Definition filter_eq (df : t) (col value : string) : result t :=
  i ← of_option (index_of col (columns df)) (KeyError col);
  mret {| columns := columns df;
          rows := List.filter (λ row, bool_decide (get_cell i row = CStr value)) (rows df) |}.

(** [df[col] = f(df[col])], where [f] may raise *)
Definition convert_column (f : cell → result cell) (df : t) (col : string) : result t :=
  i ← of_option (index_of col (columns df)) (KeyError col);
  rows' ← mapM (λ row, c ← f (get_cell i row); mret (<[i := c]> row)) (rows df);
  mret {| columns := columns df; rows := rows' |}.

(** [df[col] = v] for a scalar [v]: an existing column is overwritten, a
    new one is appended. *)
Definition set_column (df : t) (col : string) (v : cell) : t :=
  match index_of col (columns df) with
  | Some i => {| columns := columns df; rows := (λ row, <[i := v]> row) <$> rows df |}
  | None => {| columns := (columns df ++ [col])%list;
              rows := (λ row, (row ++ [v])%list) <$> rows df |}
  end.

Definition reindex (cols : list string) (df : t) : list (list cell) :=
  (λ row, (λ c, match index_of c (columns df) with
                | Some i => get_cell i row
                | None => CNaN
                end) <$> cols) <$> rows df.

(** [pd.concat([a, b], ignore_index=True)]: the union of the columns in
    order of appearance, the rows of [a] followed by those of [b]. *)
Definition concat (a b : t) : t :=
  let cols := (columns a
               ++ List.filter (λ c, negb (bool_decide (c ∈ columns a))) (columns b))%list in
  {| columns := cols; rows := (reindex cols a ++ reindex cols b)%list |}.

End DataFrame.

(** A row of a cleaned financial statement, as the enrichment stage reads
    it: the columns of the CVM schema the stages use. [VL_CONTA] is a
    float column in the source; amounts are taken as exact integers here
    and [None] stands for NaN. *)
Module Statement.

Record t := mk {
  CNPJ_CIA : string;
  DT_REFER : date;
  ORDEM_EXERC : string;
  DT_FIM_EXERC : cell;
  CD_CONTA : string;
  VL_CONTA : option Z;
  ESCALA_MOEDA : string;
  ORIGIN_FILE : string
}.

End Statement.

Module Enriched.

Record t := mk {
  CNPJ_CIA : string;
  DT_REFER : date;
  ORDEM_EXERC : string;
  DT_FIM_EXERC : date;
  CD_CONTA : string;
  VL_CONTA : option Z;
  ESCALA_MOEDA : string;
  ORIGIN_FILE : string;
  enr_adjusted_account_value : option Z;
  enr_last_updated_date : string;
  enr_origin_document_type : DocumentTypes;
  enr_ingestion_trace_id : string;
  enr_source : DataSources;
  enr_aggregation_type : string;
  enr_quarter : Z;
  enr_year : Z;
  enr_account_type : option string
}.

End Enriched.

(** One row of the quarterly metrics table. *)
Module Quarterly.

Record t := mk {
  issuer_cnpj : string;
  date : date;
  quarter : Z;
  year : Z;
  revenue : Z;
  ebitda : Z;
  ebit : Z;
  depreciation : Z;
  net_debt : Z;
  total_debt : Z;
  debt_short_term : Z;
  debt_long_term : Z;
  cash : Z;
  interest_paid : Z;
  capex : Z;
  wc_change : Z
}.

End Quarterly.

(** ** The financial-statement stages of [CVMETL] *)

Module CVMETL.

Definition ITR_FILE_PART_TO_DOCUMENT_TYPE : list (string * DocumentTypes) :=
  [("BPA", BALANCO_PATRIMONIAL_ATIVO);
   ("BPP", BALANCO_PATRIMONIAL_PASSIVO);
   ("DFC_MI", FLUXO_DE_CAIXA_INDIRETO);
   ("DRE", DRE)].

Definition CNPJ_COLUMN_TO_FILTER : string := "CNPJ_CIA".
Definition ITR_END_OF_PERIOD_COLUMN_NAME : string := "DT_FIM_EXERC".
Definition ITR_EXERCISE_PERIOD_ORDER_COLUMN_NAME : string := "ORDEM_EXERC".
Definition REF_DATE_COLUMN_NAME : string := "DT_REFER".

Definition FINANCIAL_STATEMENTS_GROUPING : list (string * CVMDocumentAggregationType) :=
  [("_con_", CONSOLIDADO); ("_ind_", INDIVIDUAL)].

Definition EXERCISE_PERIOD_TO_CONSIDER : string := "ÚLTIMO".

Definition ESCALA_MOEDA_MAPPING : gmap string Z :=
  list_to_map [("UNIDADE", 1); ("MIL", 1000); ("MILHOES", 1000000); ("MILHÕES", 1000000)].

(** The message of the assertion on the company filter. *)
Definition filter_failure_message (curr_file_path formatted_cnpj : string) : string :=
  "Failure while filtering the DF for file '" +:+ curr_file_path
  +:+ "'. Please confirm the provided company CNPJ '" +:+ formatted_cnpj
  +:+ "' in the environment file.".

(** [path.split('/')[-1]] *)
Definition file_name (path : string) : string :=
  List.last (PyStr.split "/" path) "".

Section Stages.

(** The run configuration ([self.config]) and the collaborators that are
    not among the sources. *)
Variable digest : list Byte.byte → string.
Variable formatted_cnpj : string.
Variable trace_id : string.
Variable formatted_last_update_date : string.
(** [fmts.create_ingest_ts()], the clock reading *)
Variable ingest_ts : string.
Variable get_bucket_save_file_path :
  MedallionLayer → DataSources → DocumentTypes → CVMDocumentAggregationType → string → string.
(** The declared schema of a document type: its ordered column names. *)
Variable get_document_schema_from_doc_type : DocumentTypes → list string.
(** [pd.read_csv] with the schema as [dtype]; [None] when it raises. *)
Variable read_csv : list string → list Byte.byte → option DataFrame.t.
(** [pd.to_datetime(..., format=DATE_FORMAT).dt.date] on one cell; [None]
    when it raises. *)
Variable to_datetime : cell → option date.
Variable convert_pandas_df_to_parquet_bytes : DataFrame.t → list Byte.byte.
Variable read_parquet : list Byte.byte → option (list Statement.t).
Variable enriched_to_parquet_bytes : list Enriched.t → list Byte.byte.
Variable read_enriched_parquet : list Byte.byte → option (list Enriched.t).
Variable create_ref_date : date → string.

Definition data_source : DataSources := CVM.

(** *** Reconciliation: [FS_filter_and_clean] *)

(** The body of the loop over [selected_files], up to the table that is
    concatenated to [joined_df]. *)
Definition clean_file (s : gmap string Minio.object) (curr_document_schema : list string)
    (curr_file_path : string) : result DataFrame.t :=
  '(file_bytes, _) ← of_option (Minio.get_file_bytes_and_metadata s curr_file_path)
                       (S3Error curr_file_path);
  curr_file_df ← of_option (read_csv curr_document_schema file_bytes)
                   (ParserError curr_file_path);
  if negb (bool_decide (DataFrame.columns curr_file_df = curr_document_schema))
  then Err (AssertionError None)
  else
    curr_file_df ← DataFrame.filter_eq curr_file_df CNPJ_COLUMN_TO_FILTER formatted_cnpj;
    match DataFrame.rows curr_file_df with
    | [] => Err (AssertionError
                   (Some (filter_failure_message curr_file_path formatted_cnpj)))
    | _ :: _ =>
        curr_file_df ← DataFrame.filter_eq curr_file_df
                         ITR_EXERCISE_PERIOD_ORDER_COLUMN_NAME EXERCISE_PERIOD_TO_CONSIDER;
        curr_file_df ← DataFrame.convert_column
                         (λ c, CDate <$> of_option (to_datetime c)
                                           (ValueError REF_DATE_COLUMN_NAME))
                         curr_file_df REF_DATE_COLUMN_NAME;
        mret (DataFrame.set_column curr_file_df "ORIGIN_FILE"
                (CStr (if PyStr.contains curr_file_path "dfp_" then "DFP" else "ITR")))
    end.

Definition selected_files (files_path : list string)
    (curr_file_part curr_agg_part curr_year : string) : list string :=
  List.filter (λ file_path,
                 PyStr.contains file_path (curr_file_part +:+ curr_agg_part +:+ curr_year))
    files_path.

(** One (year, aggregation, document type) combination: join the selected
    files and save the result to silver/cleaned. *)
Definition clean_document_type (files_path : list string) (curr_year : string)
    (curr_agg_part : string) (curr_agg : CVMDocumentAggregationType)
    (st : gmap string Minio.object * list string)
    (doc : string * DocumentTypes) : result (gmap string Minio.object * list string) :=
  let '(s, parquet_files_paths) := st in
  let '(curr_file_part, curr_document_type) := doc in
  let curr_document_schema := get_document_schema_from_doc_type curr_document_type in
  joined_df ← foldM (λ joined_df curr_file_path,
                       curr_file_df ← clean_file s curr_document_schema curr_file_path;
                       mret (DataFrame.concat joined_df curr_file_df))
                 DataFrame.empty
                 (selected_files files_path curr_file_part curr_agg_part curr_year);
  let save_file_path := get_bucket_save_file_path SILVER_CLEANED data_source
                          curr_document_type curr_agg curr_year in
  let parquet_bytes := convert_pandas_df_to_parquet_bytes joined_df in
  let s' := fst (Minio.save_file_to_bucket digest s save_file_path parquet_bytes
                   ingest_ts trace_id curr_document_type PARQUET data_source
                   (Some curr_year) (Some curr_agg)) in
  mret (s', (parquet_files_paths ++ [save_file_path])%list).

Definition FS_filter_and_clean (s : gmap string Minio.object)
    (files_path : list string) (years_to_process : list string)
    : result (gmap string Minio.object * list string) :=
  foldM (λ st curr_year,
           foldM (λ st '(curr_agg_part, curr_agg),
                    foldM (clean_document_type files_path curr_year curr_agg_part curr_agg)
                      st ITR_FILE_PART_TO_DOCUMENT_TYPE)
             st FINANCIAL_STATEMENTS_GROUPING)
    (s, []) years_to_process.

(** *** Enrichment: [FS_enrich] *)

(** [VL_CONTA * ESCALA_MOEDA.map(ESCALA_MOEDA_MAPPING)]: [Series.map] with
    a dict gives NaN for a value that is not a key. *)
Definition adjusted_account_value (vl_conta : option Z) (escala_moeda : string) : option Z :=
  v ← vl_conta; m ← ESCALA_MOEDA_MAPPING !! escala_moeda; Some (v * m).

Definition enrich_row (document_type : DocumentTypes) (aggregation_type : string)
    (row : Statement.t) : result Enriched.t :=
  dt_fim_exerc ← of_option (to_datetime (Statement.DT_FIM_EXERC row))
                   (ValueError ITR_END_OF_PERIOD_COLUMN_NAME);
  mret {| Enriched.CNPJ_CIA := Statement.CNPJ_CIA row;
          Enriched.DT_REFER := Statement.DT_REFER row;
          Enriched.ORDEM_EXERC := Statement.ORDEM_EXERC row;
          Enriched.DT_FIM_EXERC := dt_fim_exerc;
          Enriched.CD_CONTA := Statement.CD_CONTA row;
          Enriched.VL_CONTA := Statement.VL_CONTA row;
          Enriched.ESCALA_MOEDA := Statement.ESCALA_MOEDA row;
          Enriched.ORIGIN_FILE := Statement.ORIGIN_FILE row;
          Enriched.enr_adjusted_account_value :=
            adjusted_account_value (Statement.VL_CONTA row) (Statement.ESCALA_MOEDA row);
          Enriched.enr_last_updated_date := formatted_last_update_date;
          Enriched.enr_origin_document_type := document_type;
          Enriched.enr_ingestion_trace_id := trace_id;
          Enriched.enr_source := data_source;
          Enriched.enr_aggregation_type := aggregation_type;
          Enriched.enr_quarter := get_quarter dt_fim_exerc;
          Enriched.enr_year := year dt_fim_exerc;
          Enriched.enr_account_type :=
            if decide (document_type = BALANCO_PATRIMONIAL_ATIVO) then Some "ATIVO"
            else if decide (document_type = BALANCO_PATRIMONIAL_PASSIVO) then Some "PASSIVO"
            else None |}.

(** The body of the loop over [silver_cleaned_files_path]; the state is
    the pair of dicts [(agg_consolidado_dfs, agg_individual_dfs)]. *)
Definition enrich_file (s : gmap string Minio.object)
    (dfs : list (string * list Enriched.t) * list (string * list Enriched.t))
    (curr_file_path : string)
    : result (list (string * list Enriched.t) * list (string * list Enriched.t)) :=
  let '(agg_consolidado_dfs, agg_individual_dfs) := dfs in
  '(parquet_file_bytes, file_metadata) ←
     of_option (Minio.get_file_bytes_and_metadata s curr_file_path) (S3Error curr_file_path);
  document_type ← of_option (Minio.document_type <$> file_metadata)
                    (KeyError "document_type");
  aggregation_type ← of_option (agg_value <$> (file_metadata ≫= Minio.aggregation_type))
                       (KeyError "aggregation_type");
  curr_file_df ← of_option (read_parquet parquet_file_bytes) (ParserError curr_file_path);
  curr_file_df ← mapM (enrich_row document_type aggregation_type) curr_file_df;
  let dict_key := file_name curr_file_path in
  if String.eqb aggregation_type (agg_value INDIVIDUAL)
  then mret (agg_consolidado_dfs, dict_set dict_key curr_file_df agg_individual_dfs)
  else if String.eqb aggregation_type (agg_value CONSOLIDADO)
  then mret (dict_set dict_key curr_file_df agg_consolidado_dfs, agg_individual_dfs)
  else mret (agg_consolidado_dfs, agg_individual_dfs).

(** [pd.concat(dfs, ignore_index=True)] of a dict of tables: the tables in
    the order of the dict; nothing to concatenate is a [ValueError]. *)
Definition pd_concat {A : Type} (dfs : list (string * list A)) : result (list A) :=
  match dfs with
  | [] => Err (ValueError "No objects to concatenate")
  | _ :: _ => Ok (List.concat (snd <$> dfs))
  end.

(** The two joined tables [(joined_individual_df, joined_consolidado_df)]. *)
Definition enrich_join (s : gmap string Minio.object)
    (silver_cleaned_files_path : list string)
    : result (list Enriched.t * list Enriched.t) :=
  '(agg_consolidado_dfs, agg_individual_dfs) ←
     foldM (enrich_file s) ([], []) silver_cleaned_files_path;
  joined_consolidado_df ← pd_concat agg_consolidado_dfs;
  joined_individual_df ← pd_concat agg_individual_dfs;
  mret (joined_individual_df, joined_consolidado_df).

(** The reference date and key under which a joined table is saved. *)
Definition enriched_ref_date (curr_df : list Enriched.t) : result string :=
  create_ref_date <$> of_option (max_date (Enriched.DT_FIM_EXERC <$> curr_df))
                        (ValueError "the maximum of an empty column is not a date").

Definition save_enriched (st : gmap string Minio.object * list string)
    (out : list Enriched.t * CVMDocumentAggregationType)
    : result (gmap string Minio.object * list string) :=
  let '(s, silver_enriched_file_paths) := st in
  let '(curr_df, curr_agg) := out in
  let document_type := DEMONSTRATIVOS_FINANCEIROS_FINAL in
  ref_date ← enriched_ref_date curr_df;
  let parquet_bytes := enriched_to_parquet_bytes curr_df in
  let save_file_path := get_bucket_save_file_path SILVER_ENRICHED data_source
                          document_type curr_agg ref_date in
  let s' := fst (Minio.save_file_to_bucket digest s save_file_path parquet_bytes
                   ingest_ts trace_id document_type PARQUET data_source
                   (Some ref_date) None) in
  mret (s', (silver_enriched_file_paths ++ [save_file_path])%list).

Definition FS_enrich (s : gmap string Minio.object)
    (silver_cleaned_files_path : list string)
    : result (gmap string Minio.object * list string) :=
  '(joined_individual_df, joined_consolidado_df) ← enrich_join s silver_cleaned_files_path;
  foldM save_enriched (s, [])
    [(joined_individual_df, INDIVIDUAL); (joined_consolidado_df, CONSOLIDADO)].

(** *** Quarterly metrics: [calculate_detailed_financials_quarterly] *)

(** [Series.sum()]: NaN values are skipped, the sum of nothing is 0. *)
Definition sum_skipna (values : list (option Z)) : Z :=
  foldr (λ v acc, from_option id 0 v + acc) 0 values.

Definition get_account_value (group_df : list Enriched.t) (account_code : string)
    (exact : bool) : Z :=
  let mask (r : Enriched.t) :=
    if exact then bool_decide (Enriched.CD_CONTA r = account_code)
    else PyStr.startswith (Enriched.CD_CONTA r) account_code in
  sum_skipna (Enriched.enr_adjusted_account_value <$> List.filter mask group_df).

(** The group keys of [df.groupby(['CNPJ_CIA', 'DT_REFER'])], in the
    sorted order in which pandas yields the groups. *)
Definition group_key (r : Enriched.t) : string * date :=
  (Enriched.CNPJ_CIA r, Enriched.DT_REFER r).

Definition key_le (a b : string * date) : Prop :=
  if decide (a.1 = b.1) then date_leb a.2 b.2 = true else String.le a.1 b.1.

Global Instance key_le_dec : RelDecision key_le.
Proof. intros a b. unfold key_le. destruct (decide (a.1 = b.1)); apply _. Defined.

Definition groupby (df : list Enriched.t) : list ((string * date) * list Enriched.t) :=
  (λ name, (name, List.filter (λ r, bool_decide (group_key r = name)) df))
    <$> merge_sort key_le (remove_dups (group_key <$> df)).

(** The body of the loop over the groups: one record per group. *)
Definition group_record (name : string * date) (group : list Enriched.t) : Quarterly.t :=
  let '(cnpj, dt_refer) := name in
  let revenue := get_account_value group "3.01" true in
  let ebit := get_account_value group "3.05" true in
  let depreciation := get_account_value group "3.04.04" true in
  let ebitda := ebit + depreciation in
  let debt_st := get_account_value group "2.01.04" false in
  let debt_lt := get_account_value group "2.02.01" false in
  let cash := get_account_value group "1.01.01" true in
  let total_debt := debt_st + debt_lt in
  let net_debt := total_debt - cash in
  let interest_cf := get_account_value group "6.01.02.02" false in
  let interest_is := get_account_value group "3.06.02" true in
  let interest_paid := if negb (interest_cf =? 0) then interest_cf else interest_is in
  let capex := get_account_value group "6.02.01" false in
  let wc_change := get_account_value group "6.01.02" false in
  {| Quarterly.issuer_cnpj := cnpj;
     Quarterly.date := dt_refer;
     Quarterly.quarter := get_quarter dt_refer;
     Quarterly.year := year dt_refer;
     Quarterly.revenue := revenue;
     Quarterly.ebitda := ebitda;
     Quarterly.ebit := ebit;
     Quarterly.depreciation := depreciation;
     Quarterly.net_debt := net_debt;
     Quarterly.total_debt := total_debt;
     Quarterly.debt_short_term := debt_st;
     Quarterly.debt_long_term := debt_lt;
     Quarterly.cash := cash;
     Quarterly.interest_paid := Z.abs interest_paid;
     Quarterly.capex := Z.abs capex;
     Quarterly.wc_change := wc_change |}.

(** [results], the rows of [curr_agg_quarterly_df] *)
Definition quarterly_results (df : list Enriched.t) : list Quarterly.t :=
  (λ '(name, group), group_record name group) <$> groupby df.

(** The loop over [silver_enriched_files_path] that fills [dfs_map]. The
    rest of the method writes each table of [dfs_map] to gold/serving, to
    the cache and to the spreadsheet without changing it. *)
Definition quarterly_file (s : gmap string Minio.object)
    (dfs_map : list (CVMDocumentAggregationType * list Quarterly.t))
    (curr_df_file_path : string)
    : result (list (CVMDocumentAggregationType * list Quarterly.t)) :=
  '(parquet_file_bytes, _) ←
     of_option (Minio.get_file_bytes_and_metadata s curr_df_file_path)
       (S3Error curr_df_file_path);
  df ← of_option (read_enriched_parquet parquet_file_bytes) (ParserError curr_df_file_path);
  let curr_agg_quarterly_df := quarterly_results df in
  let agg_type := if PyStr.contains curr_df_file_path "_INDIVIDUAL_"
                  then INDIVIDUAL else CONSOLIDADO in
  mret (dict_set agg_type curr_agg_quarterly_df dfs_map).

Definition calculate_detailed_financials_quarterly (s : gmap string Minio.object)
    (silver_enriched_files_path : list string)
    : result (list (CVMDocumentAggregationType * list Quarterly.t)) :=
  foldM (quarterly_file s) [] silver_enriched_files_path.

End Stages.

End CVMETL.

(** ** What the specification says about enrichment *)





(** The identity of a quarterly record: company and reference date. *)
Definition record_key (rec : Quarterly.t) : string * date :=
  (Quarterly.issuer_cnpj rec, Quarterly.date rec).

(** ** What the specification says about metric extraction *)

(** The amount a row contributes to a sum: NaN counts as nothing. *)
Definition row_amount (r : Enriched.t) : Z :=
  from_option id 0 (Enriched.enr_adjusted_account_value r).

(** [account_sum matches rows z]: [z] is the sum of the amounts of exactly
    the rows that match. *)
Inductive account_sum (matches : Enriched.t → Prop) : list Enriched.t → Z → Prop :=
  | account_sum_nil : account_sum matches [] 0
  | account_sum_match r rows z :
      matches r → account_sum matches rows z →
      account_sum matches (r :: rows) (row_amount r + z)
  | account_sum_skip r rows z :
      ¬ matches r → account_sum matches rows z →
      account_sum matches (r :: rows) z.

Definition code_equal (account_code : string) (r : Enriched.t) : Prop :=
  Enriched.CD_CONTA r = account_code.

Definition code_starts_with (account_code : string) (r : Enriched.t) : Prop :=
  ∃ rest, Enriched.CD_CONTA r = account_code +:+ rest.

(** ** The bucket layout ([MinioHandler.create_and_configure_bucket]) *)

Module PyStrip.



End PyStrip.

Module MinioLayout.





End MinioLayout.

(** ** The keys the reconciliation stage returns *)

(** One silver/cleaned key per (year, aggregation, statement type), in the
    order of the three loops of [FS_filter_and_clean]. *)
Definition cleaned_keys
    (get_bucket_save_file_path :
       MedallionLayer → DataSources → DocumentTypes → CVMDocumentAggregationType
       → string → string)
    (years_to_process : list string) : list string :=
  curr_year ← years_to_process;
  grouping ← CVMETL.FINANCIAL_STATEMENTS_GROUPING;
  doc ← CVMETL.ITR_FILE_PART_TO_DOCUMENT_TYPE;
  [get_bucket_save_file_path SILVER_CLEANED CVM doc.2 grouping.2 curr_year].

(** [row[col]] for a row of the table [df]. *)
Definition row_value (df : DataFrame.t) (row : list cell) (col : string) : option cell :=
  i ← DataFrame.index_of col (DataFrame.columns df); row !! i.

(** ** The cache ([RedisHandler]) *)

(** The one gold/serving table the financial-statement stages name; its
    string value is declared in [formats], which is not among the sources. *)
Inductive GoldServingTableNames := FINANCIALS_QUARTERLY.

Module Redis.

(** The value stored under a key. The source stores [json.dumps] of this
    dict; the entry is kept structured here. *)
Record entry (D : Type) := mk {
  data : D;
  file_bucket_path : string;
  ref_data : string;
  trace_id : string
}.
Arguments mk {D}.
Arguments data {D}.
Arguments file_bucket_path {D}.
Arguments ref_data {D}.
Arguments trace_id {D}.

Section Handler.

Context {D : Type}.
Variable gold_table_value : GoldServingTableNames → string.
(** [fmts.create_ref_date] on the clock reading it is passed. *)
Variable create_ref_date : date → string.

(** [client.set(gold_table.value, ...)]: the key is the table name alone;
    the aggregation type goes into [file_bucket_path] only. *)
Definition save_to_cache (cache : gmap string (entry D))
    (gold_table : GoldServingTableNames) (data_dict : D) (ref_date : date)
    (trace_id : string) (agg_type : option CVMDocumentAggregationType)
    : gmap string (entry D) :=
  let agg_type := match agg_type with
                  | Some a => "_" +:+ agg_value a +:+ "_"
                  | None => ""
                  end in
  let save_dict := {| data := data_dict;
                      file_bucket_path := "gold/serving/" +:+ gold_table_value gold_table
                                          +:+ agg_type +:+ ".parquet";
                      ref_data := create_ref_date ref_date;
                      trace_id := trace_id |} in
  <[gold_table_value gold_table := save_dict]> cache.

Definition get_from_cache (cache : gmap string (entry D))
    (gold_table : GoldServingTableNames) : option (entry D) :=
  cache !! gold_table_value gold_table.

End Handler.

End Redis.

(** ** Saving the quarterly tables: the rest of
    [calculate_detailed_financials_quarterly] *)

(** [d[k]] on an insertion-ordered dict *)
Fixpoint dict_get {K V : Type} `{EqDecision K} (k : K) (d : list (K * V)) : option V :=
  match d with
  | [] => None
  | (k', v) :: d' => if decide (k = k') then Some v else dict_get k d'
  end.

(** A [for] loop over effects that stay when the body raises: the state
    reached is returned together with the outcome. *)
Fixpoint for_each {S A : Type} (body : S → A → S * result unit) (st : S) (l : list A)
    : S * result unit :=
  match l with
  | [] => (st, Ok ())
  | x :: l' =>
      match body st x with
      | (st', Ok _) => for_each body st' l'
      | (st', Err e) => (st', Err e)
      end
  end.

Module GoldStage.

(** The bucket and the cache. *)
Definition state : Type :=
  gmap string Minio.object * gmap string (Redis.entry (list Quarterly.t)).

Section Stage.

Variable digest : list Byte.byte → string.
Variable trace_id : string.
Variable ingest_ts : string.
(** [config.get_bucket_save_file_path] with the keyword arguments this
    stage passes: layer, source, [doc_type], [curr_agg] (absent for the
    spreadsheet), [ref_date], [file_extension], [gold_serving_table_name]. *)
Variable get_bucket_save_file_path :
  MedallionLayer → DataSources → DocumentTypes → option CVMDocumentAggregationType
  → string → string → GoldServingTableNames → string.
Variable convert_pandas_df_to_parquet_bytes : list Quarterly.t → list Byte.byte.
(** The workbook with the sheets "DFS Consolidado" and "DFS Individual". *)
Variable to_excel : list Quarterly.t → list Quarterly.t → list Byte.byte.
Variable read_enriched_parquet : list Byte.byte → option (list Enriched.t).
Variable create_ref_date : date → string.
(** [datetime.today()] *)
Variable today : date.
Variable gold_table_value : GoldServingTableNames → string.

(** The body of the loop over [dfs_map.items()]. The table built from an
    empty list of records has no column, so [curr_df["date"]] raises. *)
Definition save_gold_serving (st : state)
    (item : CVMDocumentAggregationType * list Quarterly.t) : state * result unit :=
  let '(s, cache) := st in
  let '(curr_agg_type, curr_df) := item in
  let parquet_bytes := convert_pandas_df_to_parquet_bytes curr_df in
  match max_date (Quarterly.date <$> curr_df) with
  | None => (st, Err (KeyError "date"))
  | Some d =>
      let ref_date := create_ref_date d in
      let save_file_path :=
        get_bucket_save_file_path GOLD_SERVING CVMETL.data_source
          DEMONSTRATIVOS_FINANCEIROS_FINAL (Some curr_agg_type) ref_date "parquet"
          FINANCIALS_QUARTERLY in
      let s' := fst (Minio.save_file_to_bucket digest s save_file_path parquet_bytes
                       ingest_ts trace_id DEMONSTRATIVOS_FINANCEIROS_FINAL PARQUET
                       CVMETL.data_source (Some ref_date) (Some curr_agg_type)) in
      let cache' := Redis.save_to_cache gold_table_value create_ref_date cache
                      FINANCIALS_QUARTERLY curr_df today trace_id (Some curr_agg_type) in
      ((s', cache'), Ok ())
  end.

(** The spreadsheet: both tables are looked up in [dfs_map], the
    consolidated one first. *)
Definition export_excel (st : state)
    (dfs_map : list (CVMDocumentAggregationType * list Quarterly.t))
    : state * result (list string) :=
  let '(s, cache) := st in
  match dict_get CONSOLIDADO dfs_map with
  | None => (st, Err (KeyError (agg_value CONSOLIDADO)))
  | Some consolidado_df =>
      match dict_get INDIVIDUAL dfs_map with
      | None => (st, Err (KeyError (agg_value INDIVIDUAL)))
      | Some individual_df =>
          let excel_bytes := to_excel consolidado_df individual_df in
          match max_date (Quarterly.date <$> consolidado_df) with
          | None => (st, Err (KeyError "date"))
          | Some d =>
              let ref_date := create_ref_date d in
              let excel_file_path :=
                get_bucket_save_file_path GOLD_EXPORT CVMETL.data_source
                  DEMONSTRATIVOS_FINANCEIROS_FINAL None ref_date "xlsx"
                  FINANCIALS_QUARTERLY in
              let s' := fst (Minio.save_file_to_bucket digest s excel_file_path excel_bytes
                               ingest_ts trace_id DEMONSTRATIVOS_FINANCEIROS_FINAL XLSX
                               CVMETL.data_source None None) in
              ((s', cache), Ok [excel_file_path])
          end
      end
  end.

(** The whole method: the loop that fills [dfs_map], the loop that saves
    and caches each of its tables, the spreadsheet. *)
Definition calculate_detailed_financials_quarterly (st : state)
    (silver_enriched_files_path : list string) : state * result (list string) :=
  match CVMETL.calculate_detailed_financials_quarterly read_enriched_parquet st.1
          silver_enriched_files_path with
  | Err e => (st, Err e)
  | Ok dfs_map =>
      match for_each save_gold_serving st dfs_map with
      | (st', Err e) => (st', Err e)
      | (st', Ok _) => export_excel st' dfs_map
      end
  end.

End Stage.

End GoldStage.

(** ** Landing and unpacking: [CVM_startup] and
    [CVM_download_and_upload_to_bucket] *)

(** What these methods can raise besides the exceptions of the stages:
    a failed request ([session.get] or [raise_for_status]), an archive
    that cannot be read, the use of a local name that was never bound,
    and the [Exception] in which a full ETL wraps what its stages raise,
    with the text of the cause after a prefix. *)
Inductive exception :=
  | Raised (e : error)
  | HTTPError (url : string)
  | BadZipFile
  | UnboundLocalError (name : string)
  | Exception (message_prefix : string) (cause : exception).

(** How a call ends; the bucket it leaves is returned beside it. *)
Inductive completion (A : Type) :=
  | Returned (a : A)
  | Raises (e : exception).
Arguments Returned {A}.
Arguments Raises {A}.

(** A [for] loop that stops at the first exception and keeps the state
    reached. *)
Fixpoint for_each_raising {S A : Type} (body : S → A → S * option exception) (st : S)
    (l : list A) : S * option exception :=
  match l with
  | [] => (st, None)
  | x :: l' =>
      match body st x with
      | (st', None) => for_each_raising body st' l'
      | (st', Some e) => (st', Some e)
      end
  end.

Module CVMLanding.

Definition FILE_NAME_PART_MAPPING : list (DocumentTypes * string) :=
  [(ITR, "cvm_itr"); (IPE, "ipe_cia_aberta"); (FRE, "fre_cia_aberta");
   (DFP, "dfp_cia_aberta")].

Section Landing.

Variable digest : list Byte.byte → string.
Variable trace_id : string.
Variable ingest_ts : string.
(** [fmts.MedallionLayer.X.path] and [fmts.DataSources.X.value] *)
Variable layer_path : MedallionLayer → string.
Variable source_value : DataSources → string.
(** [session.get(url)] followed by [raise_for_status()]: the body of the
    response, or [None] when either raises. *)
Variable http_get : string → option (list Byte.byte).
(** [ZipFile(data).namelist()], [None] when the bytes are no archive, and
    [zip_ref.read(member)], [None] when the member cannot be read. *)
Variable zip_namelist : list Byte.byte → option (list string).
Variable zip_read : list Byte.byte → string → option (list Byte.byte).
(** [CVM_check_for_updates]: the last update date shown on the landing
    page, [None] when the page shows none. *)
Variable CVM_check_for_updates : string → completion (option string).

(** The body of the loop over [zip_ref.namelist()]; the state is the
    bucket and [uploaded_keys]. *)
Definition upload_member (zip_data : list Byte.byte) (doc_type : DocumentTypes)
    (st : gmap string Minio.object * list string) (member : string)
    : (gmap string Minio.object * list string) * option exception :=
  let '(s, uploaded_keys) := st in
  let file_name := CVMETL.file_name member in
  if negb (PurePath.nonempty file_name) then (st, None)
  else
    match zip_read zip_data member with
    | None => (st, Some BadZipFile)
    | Some file_bytes =>
        let dest_key := layer_path BRONZE_RAW +:+ file_name in
        let s' := fst (Minio.save_file_to_bucket digest s dest_key file_bytes ingest_ts
                         trace_id doc_type PARQUET CVMETL.data_source None None) in
        ((s', (uploaded_keys ++ [dest_key])%list), None)
    end.

(** [last_update_date] is [self.config.last_update_date]. *)
Definition CVM_download_and_upload_to_bucket (last_update_date : option string)
    (s : gmap string Minio.object) (url bronze_landing_obj_name : string)
    (doc_type : DocumentTypes) : gmap string Minio.object * completion (list string) :=
  match http_get url with
  | None => (s, Raises (HTTPError url))
  | Some content =>
      let s1 := fst (Minio.save_file_to_bucket digest s bronze_landing_obj_name content
                       ingest_ts trace_id doc_type ZIP CVMETL.data_source
                       last_update_date None) in
      match Minio.get_file_bytes_and_metadata s1 bronze_landing_obj_name with
      | None => (s1, Raises (Raised (S3Error bronze_landing_obj_name)))
      | Some (zip_data, _) =>
          match zip_namelist zip_data with
          | None => (s1, Raises BadZipFile)
          | Some members =>
              match for_each_raising (upload_member zip_data doc_type) (s1, []) members with
              | ((s2, _), Some e) => (s2, Raises e)
              | ((s2, uploaded_keys), None) => (s2, Returned uploaded_keys)
              end
          end
      end
  end.

(** The key of the landing archive; [None] is formatted as "None". *)
Definition file_name_in_bucket (part file_year : string) (last_update_date : option string)
    : string :=
  layer_path BRONZE_LANDING +:+ source_value CVM +:+ "/" +:+ part +:+ "-" +:+ file_year
  +:+ "-" +:+ from_option id "None" last_update_date +:+ ".zip".

(** [found_files] lists [client.list_objects(prefix=file_name_in_bucket)];
    that listing, which is not recursive, is empty exactly when no key
    starts with the prefix. The method returns [None] when the archive of
    this update is there already. *)
Definition CVM_startup (s : gmap string Minio.object)
    (landing_url download_zip_url : string) (doc_type : DocumentTypes) (file_year : string)
    : gmap string Minio.object * completion (option (list string)) :=
  match CVM_check_for_updates landing_url with
  | Raises e => (s, Raises e)
  | Returned last_update_date =>
      match dict_get doc_type FILE_NAME_PART_MAPPING with
      | None => (s, Raises (Raised (KeyError "doc_type")))
      | Some part =>
          let file_name_in_bucket := file_name_in_bucket part file_year last_update_date in
          match Minio.list_objects s file_name_in_bucket with
          | _ :: _ => (s, Returned None)
          | [] =>
              match CVM_download_and_upload_to_bucket last_update_date s download_zip_url
                      file_name_in_bucket doc_type with
              | (s', Returned uploaded_csv_keys) => (s', Returned (Some uploaded_csv_keys))
              | (s', Raises e) => (s', Raises e)
              end
          end
      end
  end.

End Landing.

End CVMLanding.

(** ** The whole financial-statement ETL: [FS_full_etl] *)

Module FullETL.

(** How the loop over years and URL pairs ends: it runs to its end, or
    it hits the [return] for a start-up without new data, or a start-up
    raises. *)
Inductive fetched :=
  | Fetched (s : gmap string Minio.object) (all_years_uploaded_csv_keys : list string)
      (uploaded_csv_keys : option (list string)) (last_update_date : option string)
  | NoNewData (s : gmap string Minio.object)
  | FetchRaises (e : exception).

Section ETL.

Variable digest : list Byte.byte → string.
Variable formatted_cnpj : string.
Variable trace_id : string.
Variable ingest_ts : string.
(** [config.get_formatted_last_update_date()], from the date that
    [CVM_startup] stored with [config.set_last_update_date] *)
Variable get_formatted_last_update_date : option string → string.
(** [config.get_bucket_save_file_path] with the keyword arguments the
    stages of this ETL pass; [file_extension] and
    [gold_serving_table_name] are left out by the silver stages. *)
Variable get_bucket_save_file_path :
  MedallionLayer → DataSources → DocumentTypes → option CVMDocumentAggregationType
  → string → option string → option GoldServingTableNames → string.
Variable get_document_schema_from_doc_type : DocumentTypes → list string.
Variable read_csv : list string → list Byte.byte → option DataFrame.t.
Variable to_datetime : cell → option date.
(** [config.convert_pandas_df_to_parquet_bytes] on the three kinds of
    table, and the readers of the two kinds that are read back *)
Variable convert_pandas_df_to_parquet_bytes : DataFrame.t → list Byte.byte.
Variable enriched_to_parquet_bytes : list Enriched.t → list Byte.byte.
Variable quarterly_to_parquet_bytes : list Quarterly.t → list Byte.byte.
Variable read_parquet : list Byte.byte → option (list Statement.t).
Variable read_enriched_parquet : list Byte.byte → option (list Enriched.t).
Variable to_excel : list Quarterly.t → list Quarterly.t → list Byte.byte.
Variable create_ref_date : date → string.
Variable today : date.
(** [str] on a year *)
Variable str : Z → string.
Variable gold_table_value : GoldServingTableNames → string.
Variable layer_path : MedallionLayer → string.
Variable source_value : DataSources → string.
Variable http_get : string → option (list Byte.byte).
Variable zip_namelist : list Byte.byte → option (list string).
Variable zip_read : list Byte.byte → string → option (list Byte.byte).
Variable CVM_check_for_updates : string → completion (option string).
(** The four environment variables, taken as set, and
    [url.replace(fmts.PLACEHOLDER_VALUE, year)] *)
Variable CVM_ITR_LANDING_URL CVM_ITR_DOWNLOAD_RAW_URL : string.
Variable CVM_DFP_LANDING_URL CVM_DFP_DOWNLOAD_RAW_URL : string.
Variable replace_placeholder : string → string → string.

Definition ITR_AMT_OF_YEARS_TO_FETCH : nat := 3.

Definition years_to_fetch_data : list string :=
  (λ i, str (year today - Z.of_nat i)) <$> seq 0 ITR_AMT_OF_YEARS_TO_FETCH.

Definition urls_tuple : list (string * string) :=
  [(CVM_ITR_LANDING_URL, CVM_ITR_DOWNLOAD_RAW_URL);
   (CVM_DFP_LANDING_URL, CVM_DFP_DOWNLOAD_RAW_URL)].

Definition CVM_startup :=
  CVMLanding.CVM_startup digest trace_id ingest_ts layer_path source_value http_get
    zip_namelist zip_read CVM_check_for_updates.

(** The two nested loops, over the pairs (year, URL pair) in loop order.
    [continue] goes on with the next pair, [return] leaves both loops.
    The date in the last component is the one the start-up has set in
    the configuration. *)
Fixpoint fetch (iterations : list (string * (string * string)))
    (s : gmap string Minio.object) (all_years_uploaded_csv_keys : list string)
    (uploaded_csv_keys : option (list string)) (last_update_date : option string)
    : fetched :=
  match iterations with
  | [] => Fetched s all_years_uploaded_csv_keys uploaded_csv_keys last_update_date
  | (curr_year, (curr_landing_url, curr_raw_download_url)) :: rest =>
      let doc_type := if PyStr.contains curr_raw_download_url "ITR" then ITR else DFP in
      if String.eqb curr_year (str (year today)) && bool_decide (doc_type = DFP)
      then fetch rest s all_years_uploaded_csv_keys uploaded_csv_keys last_update_date
      else
        let treated_download_url := replace_placeholder curr_raw_download_url curr_year in
        match CVM_startup s curr_landing_url treated_download_url doc_type curr_year with
        | (_, Raises e) => FetchRaises e
        | (s', Returned uploaded_csv_keys) =>
            let last_update_date :=
              match CVM_check_for_updates curr_landing_url with
              | Returned d => d
              | Raises _ => last_update_date
              end in
            match uploaded_csv_keys with
            | None | Some [] => NoNewData s'
            | Some ((_ :: _) as keys) =>
                fetch rest s' (all_years_uploaded_csv_keys ++ keys)%list (Some keys)
                  last_update_date
            end
        end
  end.

Definition FS_filter_and_clean :=
  CVMETL.FS_filter_and_clean digest formatted_cnpj trace_id ingest_ts
    (λ layer source doc_type curr_agg ref_date,
       get_bucket_save_file_path layer source doc_type (Some curr_agg) ref_date None None)
    get_document_schema_from_doc_type read_csv to_datetime
    convert_pandas_df_to_parquet_bytes.

Definition FS_enrich (last_update_date : option string) :=
  CVMETL.FS_enrich digest trace_id (get_formatted_last_update_date last_update_date)
    ingest_ts
    (λ layer source doc_type curr_agg ref_date,
       get_bucket_save_file_path layer source doc_type (Some curr_agg) ref_date None None)
    to_datetime read_parquet enriched_to_parquet_bytes create_ref_date.

Definition calculate_detailed_financials_quarterly :=
  GoldStage.calculate_detailed_financials_quarterly digest trace_id ingest_ts
    (λ layer source doc_type curr_agg ref_date file_extension gold_serving_table_name,
       get_bucket_save_file_path layer source doc_type curr_agg ref_date
         (Some file_extension) (Some gold_serving_table_name))
    quarterly_to_parquet_bytes to_excel read_enriched_parquet create_ref_date today
    gold_table_value.

(** The method returns [None] when a start-up had no new data and the
    list of the gold stage otherwise. What a stage raises is wrapped; the
    state a raise leaves behind is not part of the result. *)
Definition FS_full_etl (st : GoldStage.state)
    : completion (GoldStage.state * option (list string)) :=
  let '(s, cache) := st in
  let wrap := Exception "CVMETL:FS_full_etl: " in
  match fetch (curr_year ← years_to_fetch_data; urls ← urls_tuple; [(curr_year, urls)])
          s [] None None with
  | FetchRaises e => Raises (wrap e)
  | NoNewData s' => Returned ((s', cache), None)
  | Fetched s' all_years_uploaded_csv_keys uploaded_csv_keys last_update_date =>
      match uploaded_csv_keys with
      | None => Raises (wrap (UnboundLocalError "uploaded_csv_keys"))
      | Some [] => Returned ((s', cache), None)
      | Some (_ :: _) =>
          match FS_filter_and_clean s' all_years_uploaded_csv_keys years_to_fetch_data with
          | Err e => Raises (wrap (Raised e))
          | Ok (s', silver_cleaned_files_path) =>
              match FS_enrich last_update_date s' silver_cleaned_files_path with
              | Err e => Raises (wrap (Raised e))
              | Ok (s', silver_enriched_file_paths) =>
                  match calculate_detailed_financials_quarterly (s', cache)
                          silver_enriched_file_paths with
                  | (_, Err e) => Raises (wrap (Raised e))
                  | (st', Ok uploaded_file_paths) => Returned (st', Some uploaded_file_paths)
                  end
              end
          end
      end
  end.

End ETL.

End FullETL.

(** [s'] still stores every key that [s] stores. *)
Definition keeps_objects (s s' : gmap string Minio.object) : Prop :=
  ∀ k, is_Some (s !! k) → is_Some (s' !! k).

(** ** Data for the worked examples *)

Definition example_row (cnpj : string) (dt_refer : date) (cd_conta : string)
    (amount : option Z) : Enriched.t :=
  {| Enriched.CNPJ_CIA := cnpj;
     Enriched.DT_REFER := dt_refer;
     Enriched.ORDEM_EXERC := "ÚLTIMO";
     Enriched.DT_FIM_EXERC := dt_refer;
     Enriched.CD_CONTA := cd_conta;
     Enriched.VL_CONTA := amount;
     Enriched.ESCALA_MOEDA := "UNIDADE";
     Enriched.ORIGIN_FILE := "ITR";
     Enriched.enr_adjusted_account_value := amount;
     Enriched.enr_last_updated_date := "2025-01-01";
     Enriched.enr_origin_document_type := DRE;
     Enriched.enr_ingestion_trace_id := "run-1";
     Enriched.enr_source := CVM;
     Enriched.enr_aggregation_type := "Consolidado";
     Enriched.enr_quarter := get_quarter dt_refer;
     Enriched.enr_year := year dt_refer;
     Enriched.enr_account_type := None |}.

Definition example_cnpj : string := "00.000.000/0001-91".

(** The group of the specification's matching example. *)
Definition example_group : list Enriched.t :=
  [example_row example_cnpj (mk_date 2024 3 31) "3.01" (Some 100);
   example_row example_cnpj (mk_date 2024 3 31) "3.010" (Some 999)].

(** A group with no cash-flow interest line and an income-statement
    interest of -50. *)
Definition example_interest_group : list Enriched.t :=
  [example_row example_cnpj (mk_date 2024 6 30) "3.01" (Some 700);
   example_row example_cnpj (mk_date 2024 6 30) "3.06.02" (Some (-50));
   example_row example_cnpj (mk_date 2024 6 30) "6.01.02.01" (Some 12)].

(** A stand-in for the digest: the payload read as a string. *)
Definition example_digest (file_bytes : list Byte.byte) : string :=
  string_of_list_byte file_bytes.

Definition example_bytes : list Byte.byte := list_byte_of_string "CNPJ_CIA;VL_CONTA".

Definition example_bucket : gmap string Minio.object :=
  (Minio.save_file_to_bucket example_digest ∅ "silver/cleaned/cvm/2024/dre.parquet"
     example_bytes "2025-01-01T10:00:00" "run-1" DRE PARQUET CVM (Some "2024")
     (Some CONSOLIDADO)).1.

(** A reader for dates written as YYYY-MM-DD. *)
Definition example_digit (a : ascii) : option Z := Z.of_nat <$> Ascii.is_nat a.

Definition example_to_datetime (c : cell) : option date :=
  match c with
  | CDate d => Some d
  | CStr (String y1 (String y2 (String y3 (String y4 (String "-"
      (String m1 (String m2 (String "-" (String d1 (String d2 "")))))))))) =>
      y1 ← example_digit y1; y2 ← example_digit y2;
      y3 ← example_digit y3; y4 ← example_digit y4;
      m1 ← example_digit m1; m2 ← example_digit m2;
      d1 ← example_digit d1; d2 ← example_digit d2;
      Some (mk_date (1000 * y1 + 100 * y2 + 10 * y3 + y4) (10 * m1 + m2) (10 * d1 + d2))
  | _ => None
  end.

Definition example_statement (dt_fim_exerc cd_conta : string) (vl_conta : Z)
    (escala_moeda : string) : Statement.t :=
  {| Statement.CNPJ_CIA := example_cnpj;
     Statement.DT_REFER := mk_date 2024 3 31;
     Statement.ORDEM_EXERC := "ÚLTIMO";
     Statement.DT_FIM_EXERC := CStr dt_fim_exerc;
     Statement.CD_CONTA := cd_conta;
     Statement.VL_CONTA := Some vl_conta;
     Statement.ESCALA_MOEDA := escala_moeda;
     Statement.ORIGIN_FILE := "ITR" |}.

(** A stand-in for the parquet reader: the payload names its table. *)
Definition example_read_parquet (file_bytes : list Byte.byte) : option (list Statement.t) :=
  let name := string_of_list_byte file_bytes in
  if String.eqb name "table-mil"
  then Some [example_statement "2024-03-31" "3.01" 1000 "MIL"]
  else if String.eqb name "table-unidade"
  then Some [example_statement "2023-12-31" "1.01.01" 1000 "UNIDADE"]
  else if String.eqb name "table-bilhao"
  then Some [example_statement "2024-03-31" "3.01" 1000 "BILHAO"]
  else None.

Definition example_cleaned_object (table : string) (doc : DocumentTypes)
    (agg : CVMDocumentAggregationType) : Minio.object :=
  {| Minio.data := list_byte_of_string table;
     Minio.content_type := Some PARQUET;
     Minio.obj_metadata :=
       Some (Minio.create_put_obj_metadata example_digest "2025-01-01T10:00:00" "2024"
               "run-1" CVM doc (list_byte_of_string table) (Some agg)) |}.

Definition example_doc_name (doc : DocumentTypes) : string :=
  match doc with
  | BALANCO_PATRIMONIAL_ATIVO => "balanco_patrimonial_ativo"
  | BALANCO_PATRIMONIAL_PASSIVO => "balanco_patrimonial_passivo"
  | FLUXO_DE_CAIXA_INDIRETO => "fluxo_de_caixa_indireto"
  | DRE => "dre"
  | DEMONSTRATIVOS_FINANCEIROS_FINAL => "demonstrativos_financeiros"
  | _ => "documents"
  end.

Definition example_save_file_path (layer : MedallionLayer) (src : DataSources)
    (doc : DocumentTypes) (agg : CVMDocumentAggregationType) (ref_date : string) : string :=
  (match layer with
   | SILVER_CLEANED => "silver/cleaned/"
   | SILVER_ENRICHED => "silver/enriched/"
   | _ => "gold/serving/"
   end) +:+ "cvm/" +:+ example_doc_name doc +:+ "/" +:+ example_doc_name doc
  +:+ "_" +:+ agg_value agg +:+ "_" +:+ ref_date +:+ ".parquet".

Definition example_create_ref_date (d : date) : string :=
  if decide (d = mk_date 2024 3 31) then "2024-03-31"
  else if decide (d = mk_date 2023 12 31) then "2023-12-31"
  else "other".

Definition example_enriched_to_parquet_bytes (df : list Enriched.t) : list Byte.byte :=
  list_byte_of_string (String.concat ";" (Enriched.CD_CONTA <$> df)).

Definition example_enrich_join :=
  CVMETL.enrich_join "run-1" "2025-01-01" example_to_datetime example_read_parquet.

Definition example_FS_enrich :=
  CVMETL.FS_enrich example_digest "run-1" "2025-01-01" "2025-01-01T11:00:00"
    example_save_file_path example_to_datetime example_read_parquet
    example_enriched_to_parquet_bytes example_create_ref_date.

(** A silver/cleaned layer whose individual income statement carries a
    currency-scale unit that the lookup table does not know. *)
Definition example_unmapped_bucket : gmap string Minio.object :=
  <["silver/cleaned/cvm/dre_ind_2024.parquet" :=
      example_cleaned_object "table-bilhao" DRE INDIVIDUAL]>
  (<["silver/cleaned/cvm/bpa_con_2023.parquet" :=
      example_cleaned_object "table-unidade" BALANCO_PATRIMONIAL_ATIVO CONSOLIDADO]> ∅).

Definition example_unmapped_paths : list string :=
  ["silver/cleaned/cvm/dre_ind_2024.parquet"; "silver/cleaned/cvm/bpa_con_2023.parquet"].



Definition example_schema (doc : DocumentTypes) : list string :=
  ["CNPJ_CIA"; "DT_REFER"; "ORDEM_EXERC"; "DT_FIM_EXERC"; "CD_CONTA"; "VL_CONTA";
   "ESCALA_MOEDA"].

Definition example_csv_row (cnpj : string) : list cell :=
  [CStr cnpj; CStr "2024-03-31"; CStr "ÚLTIMO"; CStr "2024-03-31"; CStr "3.01";
   CStr "1000.00"; CStr "MIL"].

(** A stand-in for the CSV reader: the payload names its table. *)
Definition example_read_csv (schema : list string) (file_bytes : list Byte.byte)
    : option DataFrame.t :=
  let name := string_of_list_byte file_bytes in
  if String.eqb name "csv-company"
  then Some {| DataFrame.columns := schema;
               DataFrame.rows := [example_csv_row example_cnpj] |}
  else if String.eqb name "csv-other-company"
  then Some {| DataFrame.columns := schema;
               DataFrame.rows := [example_csv_row "11.111.111/0001-11"] |}
  else if String.eqb name "csv-extra-column"
  then Some {| DataFrame.columns := (schema ++ ["VERSAO"])%list;
               DataFrame.rows := [(example_csv_row example_cnpj ++ [CStr "1"])%list] |}
  else None.

Definition example_raw_object (table : string) : Minio.object :=
  {| Minio.data := list_byte_of_string table;
     Minio.content_type := Some PARQUET;
     Minio.obj_metadata :=
       Some (Minio.create_put_obj_metadata example_digest "2025-01-01T09:00:00" ""
               "run-1" CVM ITR (list_byte_of_string table) None) |}.

Definition example_df_to_parquet_bytes (df : DataFrame.t) : list Byte.byte :=
  list_byte_of_string (String.concat ";" (DataFrame.columns df)).

Definition example_clean_file :=
  CVMETL.clean_file example_cnpj example_read_csv example_to_datetime.

Definition example_FS_filter_and_clean :=
  CVMETL.FS_filter_and_clean example_digest example_cnpj "run-1" "2025-01-01T10:00:00"
    example_save_file_path example_schema example_read_csv example_to_datetime
    example_df_to_parquet_bytes.

(** A bronze/raw layer: the consolidated income statement of 2024 has no
    row of the configured company, the individual asset side of 2024 has
    a column the schema does not declare. *)
Definition example_raw_bucket : gmap string Minio.object :=
  <["bronze/raw/itr_cia_aberta_BPA_con_2024.csv" := example_raw_object "csv-company"]>
  (<["bronze/raw/itr_cia_aberta_DRE_con_2024.csv" :=
       example_raw_object "csv-other-company"]>
  (<["bronze/raw/itr_cia_aberta_BPA_ind_2024.csv" :=
       example_raw_object "csv-extra-column"]> ∅)).

Definition example_raw_paths : list string :=
  ["bronze/raw/itr_cia_aberta_BPA_con_2024.csv";
   "bronze/raw/itr_cia_aberta_DRE_con_2024.csv";
   "bronze/raw/itr_cia_aberta_BPA_ind_2024.csv"].

(** A silver/enriched layer with one table per aggregation type, and the
    collaborators of the gold stage. *)
Definition example_read_enriched_parquet (file_bytes : list Byte.byte)
    : option (list Enriched.t) :=
  let name := string_of_list_byte file_bytes in
  if String.eqb name "enriched-individual" then Some example_group
  else if String.eqb name "enriched-consolidado" then Some example_interest_group
  else None.

Definition example_enriched_object (table : string) : Minio.object :=
  {| Minio.data := list_byte_of_string table;
     Minio.content_type := Some PARQUET;
     Minio.obj_metadata :=
       Some (Minio.create_put_obj_metadata example_digest "2025-01-01T11:00:00" "2024-06-30"
               "run-1" CVM DEMONSTRATIVOS_FINANCEIROS_FINAL (list_byte_of_string table)
               None) |}.

Definition example_enriched_bucket : gmap string Minio.object :=
  <["silver/enriched/cvm/fs_INDIVIDUAL_2024-03-31.parquet" :=
      example_enriched_object "enriched-individual"]>
  (<["silver/enriched/cvm/fs_CONSOLIDADO_2024-06-30.parquet" :=
      example_enriched_object "enriched-consolidado"]> ∅).

Definition example_gold_path (layer : MedallionLayer) (src : DataSources)
    (doc : DocumentTypes) (agg : option CVMDocumentAggregationType)
    (ref_date file_extension : string) (table : GoldServingTableNames) : string :=
  (match layer with
   | GOLD_EXPORT => "gold/export/"
   | _ => "gold/serving/"
   end) +:+ "cvm/financials_quarterly"
  +:+ from_option (λ a, "_" +:+ agg_value a) "" agg
  +:+ "_" +:+ ref_date +:+ "." +:+ file_extension.

Definition example_quarterly_to_bytes (df : list Quarterly.t) : list Byte.byte :=
  list_byte_of_string (String.concat ";" (Quarterly.issuer_cnpj <$> df)).

Definition example_to_excel (con ind : list Quarterly.t) : list Byte.byte :=
  (example_quarterly_to_bytes con ++ example_quarterly_to_bytes ind)%list.

Definition example_ref_date (d : date) : string :=
  if decide (d = mk_date 2024 3 31) then "2024-03-31"
  else if decide (d = mk_date 2024 6 30) then "2024-06-30"
  else "2025-02-01".

Definition example_gold_stage :=
  GoldStage.calculate_detailed_financials_quarterly example_digest "run-1"
    "2025-02-01T12:00:00" example_gold_path example_quarterly_to_bytes example_to_excel
    example_read_enriched_parquet example_ref_date (mk_date 2025 2 1)
    (λ _, "financials_quarterly").

(** A landing page, an archive server and an archive reader for the
    landing stage. The archive "zip-itr" holds a directory entry and two
    CSV files in a folder. *)
Definition example_layer_path (layer : MedallionLayer) : string :=
  match layer with
  | BRONZE_LANDING => "bronze/landing/"
  | BRONZE_RAW => "bronze/raw/"
  | SILVER_CLEANED => "silver/cleaned/"
  | SILVER_ENRICHED => "silver/enriched/"
  | GOLD_SERVING => "gold/serving/"
  | GOLD_EXPORT => "gold/export/"
  | GOLD_DOCUMENTS => "gold/documents/"
  end.

Definition example_source_value (src : DataSources) : string :=
  match src with CVM => "cvm" | SND => "snd" | B3 => "b3" end.

Definition example_http_get (url : string) : option (list Byte.byte) :=
  if String.eqb url "https://example.org/itr_2024.zip"
  then Some (list_byte_of_string "zip-itr")
  else None.

Definition example_zip_namelist (zip_data : list Byte.byte) : option (list string) :=
  if String.eqb (string_of_list_byte zip_data) "zip-itr"
  then Some ["itr/"; "itr/itr_cia_aberta_BPA_con_2024.csv";
             "itr/itr_cia_aberta_DRE_con_2024.csv"]
  else None.

Definition example_zip_read (zip_data : list Byte.byte) (member : string)
    : option (list Byte.byte) :=
  if String.eqb member "itr/itr_cia_aberta_BPA_con_2024.csv"
  then Some (list_byte_of_string "csv-company")
  else if String.eqb member "itr/itr_cia_aberta_DRE_con_2024.csv"
  then Some (list_byte_of_string "csv-other-company")
  else None.

Definition example_check_for_updates (url : string) : completion (option string) :=
  Returned (Some "2025-01-01 09:00:00").

Definition example_CVM_startup :=
  CVMLanding.CVM_startup example_digest "run-1" "2025-01-01T09:00:00" example_layer_path
    example_source_value example_http_get example_zip_namelist example_zip_read
    example_check_for_updates.

Definition example_CVM_download :=
  CVMLanding.CVM_download_and_upload_to_bucket example_digest "run-1"
    "2025-01-01T09:00:00" example_layer_path example_http_get example_zip_namelist
    example_zip_read.

(** A landing layer that already holds the archive of an earlier update. *)
Definition example_landing_bucket : gmap string Minio.object :=
  (Minio.save_file_to_bucket example_digest ∅
     "bronze/landing/cvm/cvm_itr-2024-2024-12-01 09:00:00.zip"
     (list_byte_of_string "zip-itr") "2024-12-01T09:00:00" "run-0" ITR ZIP CVM
     (Some "2024-12-01 09:00:00") None).1.


(** The environment of a run of the whole ETL in 2024: the archive
    server has the ITR archive of 2024 only. *)
Definition example_str (n : Z) : string :=
  if decide (n = 2024) then "2024"
  else if decide (n = 2023) then "2023"
  else if decide (n = 2022) then "2022"
  else "0".

Definition example_replace_placeholder (url curr_year : string) : string :=
  if PyStr.contains url "ITR" then "https://example.org/itr_" +:+ curr_year +:+ ".zip"
  else "https://example.org/dfp_" +:+ curr_year +:+ ".zip".

Definition example_full_path (layer : MedallionLayer) (src : DataSources)
    (doc : DocumentTypes) (agg : option CVMDocumentAggregationType) (ref_date : string)
    (file_extension : option string) (table : option GoldServingTableNames) : string :=
  example_layer_path layer +:+ "cvm/" +:+ example_doc_name doc
  +:+ from_option (λ a, "_" +:+ agg_value a) "" agg
  +:+ "_" +:+ ref_date +:+ "." +:+ default "parquet" file_extension.

Definition example_FS_full_etl :=
  FullETL.FS_full_etl example_digest example_cnpj "run-1" "2025-01-01T09:00:00"
    (default "") example_full_path example_schema example_read_csv example_to_datetime
    example_df_to_parquet_bytes example_enriched_to_parquet_bytes
    example_quarterly_to_bytes example_read_parquet example_read_enriched_parquet
    example_to_excel example_ref_date (mk_date 2024 7 1) example_str
    (λ _, "financials_quarterly") example_layer_path example_source_value
    example_http_get example_zip_namelist example_zip_read example_check_for_updates
    "https://example.org/itr" "https://example.org/ITR/{year}.zip"
    "https://example.org/dfp" "https://example.org/DFP/{year}.zip"
    example_replace_placeholder.

(** A bucket in which the ITR archive of 2023 for the current update is
    landed already. *)
Definition example_landed_2023 : gmap string Minio.object :=
  (Minio.save_file_to_bucket example_digest ∅
     "bronze/landing/cvm/cvm_itr-2023-2025-01-01 09:00:00.zip"
     (list_byte_of_string "zip-itr-2023") "2025-01-01T08:00:00" "run-0" ITR ZIP CVM
     (Some "2025-01-01 09:00:00") None).1.

(** * Properties *)

(** ** Python strings *)

Lemma app_cons (a : ascii) (s t : string) : String a s +:+ t = String a (s +:+ t).
Proof. reflexivity. Qed.

Lemma app_empty_l (t : string) : "" +:+ t = t.
Proof. reflexivity. Qed.

Lemma string_app_assoc (s1 s2 s3 : string) :
  s1 +:+ s2 +:+ s3 = (s1 +:+ s2) +:+ s3.
Proof.
  induction s1 as [|a s1 IH]; [done|]. by rewrite !app_cons, IH.
Qed.

Lemma startswith_app (s t : string) : PyStr.startswith (s +:+ t) s = true.
Proof.
  induction s as [|a s IH]; [done|].
  rewrite app_cons. simpl. by rewrite Ascii.eqb_refl.
Qed.

Lemma startswith_inv (s p : string) :
  PyStr.startswith s p = true → ∃ t, s = p +:+ t.
Proof.
  revert s. induction p as [|a p IH]; intros s H.
  - by exists s.
  - destruct s as [|b s]; simpl in H; [done|].
    destruct (Ascii.eqb a b) eqn:E; [|done].
    apply Ascii.eqb_eq in E as ->.
    destruct (IH _ H) as [t ->]. exists t. by rewrite app_cons.
Qed.

Lemma startswith_spec (s p : string) :
  PyStr.startswith s p = true ↔ ∃ t, s = p +:+ t.
Proof.
  split; [apply startswith_inv|]. intros [t ->]. apply startswith_app.
Qed.

Lemma contains_app (a s b : string) : PyStr.contains (a +:+ s +:+ b) s = true.
Proof.
  induction a as [|c a IH].
  - rewrite app_empty_l.
    assert (PyStr.startswith (s +:+ b) s = true) as H by apply startswith_app.
    destruct (s +:+ b); simpl; by rewrite H.
  - rewrite app_cons. cbn [PyStr.contains]. rewrite IH.
    by destruct (PyStr.startswith _ _).
Qed.

Lemma app_empty_r (s : string) : s +:+ "" = s.
Proof. induction s as [|a s IH]; [done|]. by rewrite app_cons, IH. Qed.








Lemma elem_of_List_filter {A} (f : A → bool) (l : list A) (x : A) :
  x ∈ List.filter f l ↔ x ∈ l ∧ f x = true.
Proof. rewrite !list_elem_of_In. apply filter_In. Qed.

Lemma NoDup_List_filter {A} (f : A → bool) (l : list A) :
  NoDup l → NoDup (List.filter f l).
Proof. rewrite !NoDup_ListNoDup. apply List.NoDup_filter. Qed.


(** ** Keys of the layered convention *)





Example parent_folder_nested :
  Minio.parent_folder "silver/cleaned/cvm/f.parquet" = "silver/cleaned/cvm".
Proof. reflexivity. Qed.

Example parent_folder_normalises :
  Minio.parent_folder "silver//cleaned/./f.parquet" = "silver/cleaned".
Proof. reflexivity. Qed.

(** A key without a folder has the parent "." and is not under the prefix
    "./" that is scanned for it. *)
Example parent_folder_top_level :
  Minio.parent_folder "f.parquet" = "."
  ∧ PyStr.startswith "f.parquet" (Minio.folder_prefix "f.parquet") = false.
Proof. split; reflexivity. Qed.

(** ** The object-store gateway *)

Section GatewayProperties.

Variable digest : list Byte.byte → string.

Lemma elem_of_list_objects (s : gmap string Minio.object) (prefix name : string) :
  name ∈ Minio.list_objects s prefix
  ↔ is_Some (s !! name) ∧ PyStr.startswith name prefix = true.
Proof.
  unfold Minio.list_objects. rewrite merge_sort_Permutation, elem_of_List_filter.
  rewrite list_elem_of_fmap. split.
  - intros [[[k o] [-> Hin%elem_of_map_to_list]] Hp]. simpl in *. eauto.
  - intros [[o Ho] Hp]. split; [|done]. exists (name, o). split; [done|].
    by apply elem_of_map_to_list.
Qed.

Lemma NoDup_list_objects (s : gmap string Minio.object) (prefix : string) :
  NoDup (Minio.list_objects s prefix).
Proof.
  unfold Minio.list_objects. rewrite merge_sort_Permutation.
  apply NoDup_List_filter, NoDup_fst_map_to_list.
Qed.

Lemma elem_of_file_paths (s : gmap string Minio.object) (path name : string) :
  name ∈ Minio.file_paths s path
  ↔ is_Some (s !! name)
    ∧ PyStr.startswith name (Minio.folder_prefix path) = true
    ∧ PyStr.endswith name "/" = false.
Proof.
  unfold Minio.file_paths. rewrite elem_of_List_filter, elem_of_list_objects.
  rewrite negb_true_iff. tauto.
Qed.

Lemma find_duplicate_Some (s : gmap string Minio.object) h l p :
  Minio.find_duplicate s h l = Some p → p ∈ l ∧ Minio.stat_file_hash s p = Some h.
Proof.
  induction l as [|x l IH]; simpl; [done|].
  case_decide as E.
  - intros [= <-]. split; [left|done].
  - intros [??]%IH. split; [by right|done].
Qed.

Lemma find_duplicate_None (s : gmap string Minio.object) h l :
  Minio.find_duplicate s h l = None ↔ ∀ p, p ∈ l → Minio.stat_file_hash s p ≠ Some h.
Proof.
  induction l as [|x l IH]; simpl.
  - split; [|done]. intros _ p Hp. by apply not_elem_of_nil in Hp.
  - case_decide as E.
    + split; [done|]. intros H. exfalso. eapply H; [left|done].
    + rewrite IH. split.
      * intros H p [->|?]%elem_of_cons; [congruence|auto].
      * intros H p ?. apply H. by right.
Qed.

Lemma elem_of_artifacts s prefix h name :
  name ∈ Minio.artifacts_with_hash s prefix h
  ↔ PyStr.startswith name prefix = true
    ∧ PyStr.endswith name "/" = false
    ∧ Minio.stat_file_hash s name = Some h.
Proof.
  unfold Minio.artifacts_with_hash. rewrite !elem_of_List_filter, elem_of_list_objects.
  rewrite negb_true_iff, bool_decide_eq_true. split; [tauto|].
  intros (?&?&Hh). repeat split; try done.
  unfold Minio.stat_file_hash in Hh. destruct (s !! name); [eauto|done].
Qed.

Lemma NoDup_artifacts s prefix h : NoDup (Minio.artifacts_with_hash s prefix h).
Proof.
  unfold Minio.artifacts_with_hash. do 2 apply NoDup_List_filter.
  apply NoDup_list_objects.
Qed.



Lemma file_paths_artifacts s path h name :
  name ∈ Minio.file_paths s path ∧ Minio.stat_file_hash s name = Some h
  ↔ name ∈ Minio.artifacts_with_hash s (Minio.folder_prefix path) h.
Proof.
  rewrite elem_of_file_paths, elem_of_artifacts. split; [tauto|].
  intros (?&?&Hh). repeat split; try done.
  unfold Minio.stat_file_hash in Hh. destruct (s !! name); [eauto|done].
Qed.

(** The two ways [save_file_to_bucket] returns. *)
Lemma save_skips s path file_bytes ts tr dt ct src rd ag name :
  name ∈ Minio.artifacts_with_hash s (Minio.folder_prefix path) (digest file_bytes) →
  ∃ dup, Minio.save_file_to_bucket digest s path file_bytes ts tr dt ct src rd ag
         = (s, Minio.AlreadyExists dup)
         ∧ dup ∈ Minio.artifacts_with_hash s (Minio.folder_prefix path) (digest file_bytes).
Proof.
  intros [Hin Hh]%file_paths_artifacts. unfold Minio.save_file_to_bucket. simpl.
  destruct (Minio.find_duplicate _ _ _) as [dup|] eqn:E.
  - exists dup. split; [done|]. apply file_paths_artifacts.
    by apply find_duplicate_Some in E.
  - exfalso. eapply find_duplicate_None in E; eauto.
Qed.

Lemma save_writes s path file_bytes ts tr dt ct src rd ag :
  Minio.artifacts_with_hash s (Minio.folder_prefix path) (digest file_bytes) = [] →
  ∃ o, Minio.save_file_to_bucket digest s path file_bytes ts tr dt ct src rd ag
       = (<[path := o]> s, Minio.Uploaded path)
       ∧ Minio.data o = file_bytes
       ∧ Minio.file_hash <$> Minio.obj_metadata o = Some (digest file_bytes).
Proof.
  intros Hnone. unfold Minio.save_file_to_bucket. simpl.
  destruct (Minio.find_duplicate _ _ _) as [dup|] eqn:E.
  - apply find_duplicate_Some in E. apply file_paths_artifacts in E.
    rewrite Hnone in E. by apply not_elem_of_nil in E.
  - eexists. split; [done|]. done.
Qed.

Lemma stat_file_hash_insert s path o name :
  Minio.stat_file_hash (<[path := o]> s) name
  = if decide (path = name) then Minio.file_hash <$> Minio.obj_metadata o
    else Minio.stat_file_hash s name.
Proof.
  unfold Minio.stat_file_hash. rewrite lookup_insert. by case_decide.
Qed.



(** C10. When the destination folder already holds an artifact with the
    hash of the new payload, [save_file_to_bucket] returns the bucket as it
    was: nothing is stored under the requested key, no stored object or
    metadata changes, and whatever provenance is passed is dropped. *)
Theorem duplicate_returns_without_writing
    (s : gmap string Minio.object) (path : string) (file_bytes : list Byte.byte)
    (existing : string) :
  existing ∈ Minio.file_paths s path →
  Minio.stat_file_hash s existing = Some (digest file_bytes) →
  ∀ (ts tr : string) (dt : DocumentTypes) (ct : ContentTypes) (src : DataSources)
    (rd : option string) (ag : option CVMDocumentAggregationType),
  ∃ dup,
    Minio.save_file_to_bucket digest s path file_bytes ts tr dt ct src rd ag
    = (s, Minio.AlreadyExists dup)
    ∧ dup ∈ Minio.file_paths s path
    ∧ Minio.stat_file_hash s dup = Some (digest file_bytes)
    ∧ (Minio.save_file_to_bucket digest s path file_bytes ts tr dt ct src rd ag).1 !! path
      = s !! path
    ∧ (Minio.save_file_to_bucket digest s path file_bytes ts tr dt ct src rd ag).1 !! dup
      = s !! dup.
Proof.
  intros Hin Hh ts tr dt ct src rd ag.
  destruct (save_skips s path file_bytes ts tr dt ct src rd ag existing)
    as (dup & Heq & Hdup); [by apply file_paths_artifacts|].
  exists dup. split; [done|]. rewrite Heq.
  apply file_paths_artifacts in Hdup as [??]. done.
Qed.


End GatewayProperties.


Lemma duplicate_returns_without_writing_witness :
  let path := "silver/cleaned/cvm/2024/other.parquet" in
  ∃ dup,
    Minio.save_file_to_bucket example_digest example_bucket path example_bytes
      "2025-02-02T10:00:00" "run-2" DRE PARQUET CVM (Some "2025") (Some INDIVIDUAL)
    = (example_bucket, Minio.AlreadyExists dup)
    ∧ example_bucket !! path = None.
Proof.
  destruct (duplicate_returns_without_writing example_digest example_bucket
              "silver/cleaned/cvm/2024/other.parquet" example_bytes
              "silver/cleaned/cvm/2024/dre.parquet")
    with (ts := "2025-02-02T10:00:00") (tr := "run-2") (dt := DRE) (ct := PARQUET)
         (src := CVM) (rd := Some "2025") (ag := Some INDIVIDUAL)
    as (dup & Heq & _).
  - vm_compute. left.
  - vm_compute. reflexivity.
  - exists dup. split; [exact Heq|]. vm_compute. reflexivity.
Defined.



(** ** Quarterly metrics *)

Section MetricsProperties.

Lemma get_account_value_cons (r : Enriched.t) (group : list Enriched.t)
    (account_code : string) (exact : bool) :
  CVMETL.get_account_value (r :: group) account_code exact
  = (if (if exact then bool_decide (Enriched.CD_CONTA r = account_code)
         else PyStr.startswith (Enriched.CD_CONTA r) account_code)
     then row_amount r else 0)
    + CVMETL.get_account_value group account_code exact.
Proof.
  unfold CVMETL.get_account_value. cbn [List.filter].
  destruct (if exact then _ else _); [|lia].
  rewrite fmap_cons. reflexivity.
Qed.

Lemma get_account_value_exact_sum group account_code :
  account_sum (code_equal account_code) group
    (CVMETL.get_account_value group account_code true).
Proof.
  induction group as [|r group IH]; [constructor|].
  rewrite get_account_value_cons. case_bool_decide as E.
  - by constructor.
  - rewrite Z.add_0_l. by apply account_sum_skip.
Qed.

Lemma get_account_value_prefix_sum group account_code :
  account_sum (code_starts_with account_code) group
    (CVMETL.get_account_value group account_code false).
Proof.
  induction group as [|r group IH]; [constructor|].
  rewrite get_account_value_cons.
  destruct (PyStr.startswith _ _) eqn:E.
  - constructor; [|done]. by apply startswith_spec.
  - rewrite Z.add_0_l. apply account_sum_skip; [|done].
    intros H%startswith_spec. congruence.
Qed.

Lemma account_sum_none matches group z :
  Forall (λ r, ¬ matches r) group → account_sum matches group z → z = 0.
Proof.
  intros Hnone Hsum. induction Hsum as [|r rows z Hm _ IH|r rows z _ _ IH].
  - done.
  - by apply Forall_cons in Hnone as [? _].
  - apply IH. by apply Forall_cons in Hnone as [_ ?].
Qed.

(** C3. Exact-match mode sums exactly the rows whose account code equals
    the requested one, prefix-match mode exactly those whose code starts
    with it; on the group { "3.01": 100, "3.010": 999 } an exact match on
    "3.01" gives 100 (the prefix match gives 1099); a group without a
    matching row gives 0. *)
Theorem get_account_value_match_modes (group : list Enriched.t) (account_code : string) :
  account_sum (code_equal account_code) group
    (CVMETL.get_account_value group account_code true)
  ∧ account_sum (code_starts_with account_code) group
      (CVMETL.get_account_value group account_code false)
  ∧ (Forall (λ r, ¬ code_equal account_code r) group →
     CVMETL.get_account_value group account_code true = 0)
  ∧ (Forall (λ r, ¬ code_starts_with account_code r) group →
     CVMETL.get_account_value group account_code false = 0)
  ∧ CVMETL.get_account_value example_group "3.01" true = 100
  ∧ CVMETL.get_account_value example_group "3.01" false = 1099.
Proof.
  split; [apply get_account_value_exact_sum|].
  split; [apply get_account_value_prefix_sum|].
  split; [|split].
  - intros H. eapply account_sum_none; [done|]. apply get_account_value_exact_sum.
  - intros H. eapply account_sum_none; [done|]. apply get_account_value_prefix_sum.
  - split; reflexivity.
Qed.

Lemma elem_of_group_keys (df : list Enriched.t) (name : string * date) :
  name ∈ merge_sort CVMETL.key_le (remove_dups (CVMETL.group_key <$> df))
  ↔ ∃ r, r ∈ df ∧ CVMETL.group_key r = name.
Proof.
  rewrite merge_sort_Permutation, elem_of_remove_dups, list_elem_of_fmap.
  split.
  - intros (r & -> & Hr). eauto.
  - intros (r & Hr & <-). eauto.
Qed.

Lemma NoDup_group_keys (df : list Enriched.t) :
  NoDup (merge_sort CVMETL.key_le (remove_dups (CVMETL.group_key <$> df))).
Proof. rewrite merge_sort_Permutation. apply NoDup_remove_dups. Qed.

Lemma record_key_group_record name group :
  record_key (CVMETL.group_record name group) = name.
Proof. by destruct name. Qed.

Lemma quarterly_results_keys (df : list Enriched.t) :
  record_key <$> CVMETL.quarterly_results df
  = merge_sort CVMETL.key_le (remove_dups (CVMETL.group_key <$> df)).
Proof.
  unfold CVMETL.quarterly_results, CVMETL.groupby.
  rewrite <- !list_fmap_compose.
  rewrite <- (list_fmap_id (merge_sort _ _)) at 2.
  apply list_fmap_ext. intros _ name _. simpl. apply record_key_group_record.
Qed.

Lemma elem_of_quarterly_results (df : list Enriched.t) (rec : Quarterly.t) :
  rec ∈ CVMETL.quarterly_results df
  ↔ ∃ name, (∃ r, r ∈ df ∧ CVMETL.group_key r = name)
            ∧ rec = CVMETL.group_record name
                      (List.filter (λ r, bool_decide (CVMETL.group_key r = name)) df).
Proof.
  unfold CVMETL.quarterly_results, CVMETL.groupby.
  rewrite <- list_fmap_compose, list_elem_of_fmap.
  setoid_rewrite elem_of_group_keys. split.
  - intros (name & -> & Hname). exists name. by split.
  - intros (name & Hname & ->). exists name. by split.
Qed.





(** C4. The interest paid of the record of a group is the absolute value
    of the prefix sum over 6.01.02.02 when that sum is not zero, and the
    absolute value of the exact value of 3.06.02 otherwise; with a
    cash-flow sum of 0 and an income-statement value of -50 it is 50. *)
Theorem interest_paid_fallback (df : list Enriched.t) (rec : Quarterly.t) :
  rec ∈ CVMETL.quarterly_results df →
  let group := List.filter (λ r, bool_decide (CVMETL.group_key r = record_key rec)) df in
  let interest_cf := CVMETL.get_account_value group "6.01.02.02" false in
  let interest_is := CVMETL.get_account_value group "3.06.02" true in
  (interest_cf ≠ 0 → Quarterly.interest_paid rec = Z.abs interest_cf)
  ∧ (interest_cf = 0 → Quarterly.interest_paid rec = Z.abs interest_is)
  ∧ (interest_cf = 0 → interest_is = -50 → Quarterly.interest_paid rec = 50).
Proof.
  intros (name & _ & ->)%elem_of_quarterly_results.
  rewrite record_key_group_record. destruct name as [cnpj dt]. simpl.
  set (group := List.filter _ df).
  repeat split.
  - intros Hcf. by apply Z.eqb_neq in Hcf as ->.
  - intros ->. done.
  - intros -> ->. done.
Qed.

(** The stage on the two tables of the enrichment stage: the table of
    each aggregation type is the derivation of its own input. *)
Lemma quarterly_tables_of_two_inputs
    (read_enriched_parquet : list Byte.byte → option (list Enriched.t))
    (s : gmap string Minio.object) (path_ind path_con : string)
    (o_ind o_con : Minio.object) (df_ind df_con : list Enriched.t) :
  s !! path_ind = Some o_ind →
  s !! path_con = Some o_con →
  read_enriched_parquet (Minio.data o_ind) = Some df_ind →
  read_enriched_parquet (Minio.data o_con) = Some df_con →
  PyStr.contains path_ind "_INDIVIDUAL_" = true →
  PyStr.contains path_con "_INDIVIDUAL_" = false →
  CVMETL.calculate_detailed_financials_quarterly read_enriched_parquet s
    [path_ind; path_con]
  = Ok [(INDIVIDUAL, CVMETL.quarterly_results df_ind);
        (CONSOLIDADO, CVMETL.quarterly_results df_con)].
Proof.
  intros Hi Hc Hri Hrc Hpi Hpc.
  unfold CVMETL.calculate_detailed_financials_quarterly. cbn [foldM].
  unfold CVMETL.quarterly_file, Minio.get_file_bytes_and_metadata.
  rewrite Hi, Hc. simpl. rewrite Hri, Hrc, Hpi, Hpc. reflexivity.
Qed.

End MetricsProperties.

Lemma get_account_value_match_modes_witness :
  CVMETL.get_account_value example_group "3.02" true = 0
  ∧ CVMETL.get_account_value example_group "3.02" false = 0.
Proof.
  destruct (get_account_value_match_modes example_group "3.02")
    as (_ & _ & Hexact & Hprefix & _).
  split.
  - apply Hexact. repeat constructor; discriminate.
  - apply Hprefix. repeat constructor; intros [rest H]; discriminate.
Defined.


Lemma interest_paid_fallback_witness :
  Quarterly.interest_paid
    (CVMETL.group_record (example_cnpj, mk_date 2024 6 30) example_interest_group) = 50.
Proof.
  destruct (interest_paid_fallback example_interest_group
              (CVMETL.group_record (example_cnpj, mk_date 2024 6 30) example_interest_group))
    as (_ & _ & H).
  - vm_compute. left.
  - apply H; vm_compute; reflexivity.
Defined.

(** ** Enrichment *)

Section EnrichProperties.

Variable trace_id formatted_last_update_date : string.
Variable to_datetime : cell → option date.

Lemma ESCALA_MOEDA_MAPPING_lookup (unit : string) :
  CVMETL.ESCALA_MOEDA_MAPPING !! unit
  = if decide (unit = "UNIDADE") then Some 1
    else if decide (unit = "MIL") then Some 1000
    else if decide (unit = "MILHOES") then Some 1000000
    else if decide (unit = "MILHÕES") then Some 1000000
    else None.
Proof.
  unfold CVMETL.ESCALA_MOEDA_MAPPING. cbn [list_to_map foldr uncurry].
  repeat (rewrite lookup_insert; case_decide; [by subst|rewrite ?decide_False by done]).
  apply lookup_empty.
Qed.

(** C2 (amended). The adjusted account value of an enriched row is
    VL_CONTA times the constant of the currency-scale lookup (UNIDADE 1,
    MIL 1000, MILHOES and MILHÕES 1000000): 1000 in MIL gives 1000000 and
    in UNIDADE 1000. A unit that is not in the lookup raises nothing: the
    row is enriched all the same and its adjusted value is null. *)
Theorem adjusted_value_follows_scale_lookup
    (document_type : DocumentTypes) (aggregation_type : string)
    (row : Statement.t) (dt_fim_exerc : date) :
  to_datetime (Statement.DT_FIM_EXERC row) = Some dt_fim_exerc →
  ∃ e, CVMETL.enrich_row trace_id formatted_last_update_date to_datetime
         document_type aggregation_type row = Ok e
    ∧ (∀ v m, Statement.VL_CONTA row = Some v →
              CVMETL.ESCALA_MOEDA_MAPPING !! Statement.ESCALA_MOEDA row = Some m →
              Enriched.enr_adjusted_account_value e = Some (v * m))
    ∧ (CVMETL.ESCALA_MOEDA_MAPPING !! Statement.ESCALA_MOEDA row = None →
       Enriched.enr_adjusted_account_value e = None)
    ∧ (∀ unit m, CVMETL.ESCALA_MOEDA_MAPPING !! unit = Some m ↔
                 (unit = "UNIDADE" ∧ m = 1) ∨ (unit = "MIL" ∧ m = 1000)
                 ∨ (unit = "MILHOES" ∧ m = 1000000) ∨ (unit = "MILHÕES" ∧ m = 1000000))
    ∧ CVMETL.adjusted_account_value (Some 1000) "MIL" = Some 1000000
    ∧ CVMETL.adjusted_account_value (Some 1000) "UNIDADE" = Some 1000.
Proof.
  intros Hdate. unfold CVMETL.enrich_row. rewrite Hdate. simpl.
  eexists. split; [reflexivity|]. simpl. unfold CVMETL.adjusted_account_value.
  split; [|split; [|split]].
  - intros v m -> ->. reflexivity.
  - intros ->. by destruct (Statement.VL_CONTA row).
  - intros unit m. rewrite ESCALA_MOEDA_MAPPING_lookup.
    repeat case_decide; subst; split;
      try (intros [= <-]; tauto);
      try (intros [[? ?]|[[? ?]|[[? ?]|[? ?]]]]; congruence).
  - split; reflexivity.
Qed.

End EnrichProperties.

Lemma adjusted_value_follows_scale_lookup_witness :
  ∃ e, CVMETL.enrich_row "run-1" "2025-01-01" example_to_datetime DRE "Consolidado"
         (example_statement "2024-03-31" "3.01" 1000 "MIL") = Ok e
    ∧ Enriched.enr_adjusted_account_value e = Some 1000000.
Proof.
  destruct (adjusted_value_follows_scale_lookup "run-1" "2025-01-01" example_to_datetime
              DRE "Consolidado" (example_statement "2024-03-31" "3.01" 1000 "MIL")
              (mk_date 2024 3 31))
    as (e & He & Hknown & _).
  - vm_compute. reflexivity.
  - exists e. split; [exact He|].
    apply (Hknown 1000 1000); vm_compute; reflexivity.
Defined.

(** C2, as stated, fails: a row whose unit ("BILHAO") is not in the lookup
    does not make the stage raise; the stage writes its two tables and the
    row is kept with a null adjusted value. *)
Lemma unmapped_scale_unit_is_not_an_error :
  is_Ok (example_FS_enrich example_unmapped_bucket example_unmapped_paths) = true
  ∧ match example_enrich_join example_unmapped_bucket example_unmapped_paths with
    | Ok (joined_individual_df, _) =>
        (λ e : Enriched.t,
           (Enriched.ESCALA_MOEDA e, Enriched.VL_CONTA e,
            Enriched.enr_adjusted_account_value e)) <$> joined_individual_df
        = [("BILHAO", Some 1000, None)]
    | Err _ => False
    end
  ∧ CVMETL.ESCALA_MOEDA_MAPPING !! "BILHAO" = None.
Proof. vm_compute. done. Qed.


(** ** The enrichment stage as a whole *)

Lemma date_leb_spec (a b : date) :
  date_leb a b = true
  ↔ year a < year b
    ∨ (year a = year b
       ∧ (month a < month b ∨ (month a = month b ∧ day a ≤ day b))).
Proof.
  unfold date_leb.
  rewrite !orb_true_iff, !andb_true_iff, !orb_true_iff, !andb_true_iff.
  rewrite !Z.ltb_lt, !Z.eqb_eq, Z.leb_le. tauto.
Qed.


Lemma date_leb_trans (a b c : date) :
  date_leb a b = true → date_leb b c = true → date_leb a c = true.
Proof. rewrite !date_leb_spec. lia. Qed.

Lemma date_leb_total (a b : date) : date_leb a b = true ∨ date_leb b a = true.
Proof. rewrite !date_leb_spec. lia. Qed.




Lemma max_date_is_Some (l : list date) : l ≠ [] → is_Some (max_date l).
Proof. destruct l; [done|]. simpl. eauto. Qed.





Section EnrichStageProperties.

Variable digest : list Byte.byte → string.
Variable trace_id formatted_last_update_date ingest_ts : string.
Variable get_bucket_save_file_path :
  MedallionLayer → DataSources → DocumentTypes → CVMDocumentAggregationType → string → string.
Variable to_datetime : cell → option date.
Variable read_parquet : list Byte.byte → option (list Statement.t).
Variable enriched_to_parquet_bytes : list Enriched.t → list Byte.byte.
Variable create_ref_date : date → string.

Local Abbreviation enrich_row :=
  (CVMETL.enrich_row trace_id formatted_last_update_date to_datetime).
Local Abbreviation enrich_file :=
  (CVMETL.enrich_file trace_id formatted_last_update_date to_datetime read_parquet).
Local Abbreviation enrich_join :=
  (CVMETL.enrich_join trace_id formatted_last_update_date to_datetime read_parquet).
Local Abbreviation FS_enrich :=
  (CVMETL.FS_enrich digest trace_id formatted_last_update_date ingest_ts
     get_bucket_save_file_path to_datetime read_parquet enriched_to_parquet_bytes
     create_ref_date).
Local Abbreviation enriched_from agg :=
  (λ (x : DocumentTypes * Statement.t) (e : Enriched.t),
     enrich_row x.1 (agg_value agg) x.2 = Ok e).
Local Abbreviation dates_readable :=
  (Forall (λ row, is_Some (to_datetime (Statement.DT_FIM_EXERC row)))).








End EnrichStageProperties.


(** ** Reconciliation *)

Lemma foldM_Err {A S} (I : S → Prop) (body : S → A → result S) (l : list A) (x : A) :
  (∀ acc a acc', I acc → body acc a = Ok acc' → I acc') →
  (∀ acc, I acc → ∃ e, body acc x = Err e) →
  x ∈ l → ∀ acc, I acc → ∃ e, foldM body acc l = Err e.
Proof.
  intros Hpres Hfail. induction l as [|a l IH]; intros Hin acc HI.
  - by apply not_elem_of_nil in Hin.
  - cbn [foldM]. apply elem_of_cons in Hin as [<-|Hin].
    + destruct (Hfail acc HI) as [e ->]. eauto.
    + destruct (body acc a) as [acc'|e] eqn:E; [|eauto].
      cbn [mbind result_bind]. apply IH; eauto.
Qed.

Lemma foldM_preserves {A S} (I : S → Prop) (body : S → A → result S) (l : list A) :
  (∀ acc a acc', I acc → body acc a = Ok acc' → I acc') →
  ∀ acc acc', I acc → foldM body acc l = Ok acc' → I acc'.
Proof.
  intros Hpres. induction l as [|a l IH]; intros acc acc' HI; cbn [foldM].
  - by intros [= <-].
  - destruct (body acc a) as [acc1|e] eqn:E; [|done].
    cbn [mbind result_bind]. apply IH. eauto.
Qed.

Section ReconciliationProperties.

Variable digest : list Byte.byte → string.
Variable formatted_cnpj trace_id ingest_ts : string.
Variable get_bucket_save_file_path :
  MedallionLayer → DataSources → DocumentTypes → CVMDocumentAggregationType → string → string.
Variable get_document_schema_from_doc_type : DocumentTypes → list string.
Variable read_csv : list string → list Byte.byte → option DataFrame.t.
Variable to_datetime : cell → option date.
Variable convert_pandas_df_to_parquet_bytes : DataFrame.t → list Byte.byte.

Local Abbreviation clean_file := (CVMETL.clean_file formatted_cnpj read_csv to_datetime).
Local Abbreviation clean_document_type :=
  (CVMETL.clean_document_type digest formatted_cnpj trace_id ingest_ts
     get_bucket_save_file_path get_document_schema_from_doc_type read_csv to_datetime
     convert_pandas_df_to_parquet_bytes).
Local Abbreviation FS_filter_and_clean :=
  (CVMETL.FS_filter_and_clean digest formatted_cnpj trace_id ingest_ts
     get_bucket_save_file_path get_document_schema_from_doc_type read_csv to_datetime
     convert_pandas_df_to_parquet_bytes).

(** The stage writes to silver/cleaned keys only: none of them is one of
    the raw files it reads. *)
Local Abbreviation writes_new_keys files_path :=
  (∀ doc agg curr_year,
     get_bucket_save_file_path SILVER_CLEANED CVM doc agg curr_year ∉ files_path).

(** The raw files are as they were in the bucket [s0]. *)
Local Abbreviation raw_files_kept s0 files_path :=
  (λ st : gmap string Minio.object * list string,
     ∀ f, f ∈ files_path → st.1 !! f = s0 !! f).

Lemma save_file_to_bucket_other s path file_bytes ts tr dt ct src rd ag f :
  path ≠ f →
  (Minio.save_file_to_bucket digest s path file_bytes ts tr dt ct src rd ag).1 !! f
  = s !! f.
Proof.
  intros Hne. unfold Minio.save_file_to_bucket. simpl.
  destruct (Minio.find_duplicate _ _ _); simpl; [done|].
  by rewrite lookup_insert_ne.
Qed.

Lemma clean_file_lookup s1 s2 schema f :
  s1 !! f = s2 !! f → clean_file s1 schema f = clean_file s2 schema f.
Proof.
  intros H. unfold CVMETL.clean_file, Minio.get_file_bytes_and_metadata.
  by rewrite H.
Qed.

Lemma clean_document_type_keeps (s0 : gmap string Minio.object) files_path
    curr_year curr_agg_part curr_agg st doc st' :
  writes_new_keys files_path →
  raw_files_kept s0 files_path st →
  clean_document_type files_path curr_year curr_agg_part curr_agg st doc = Ok st' →
  raw_files_kept s0 files_path st'.
Proof.
  intros Hnew Hkept. destruct st as [s paths], doc as [part doc].
  unfold CVMETL.clean_document_type.
  destruct (foldM _ _ _) as [joined_df|e]; [|done].
  cbn [mbind result_bind mret result_ret]. intros [= <-] f Hf. simpl.
  rewrite save_file_to_bucket_other; [by apply Hkept|].
  intros Heq. apply (Hnew doc curr_agg curr_year).
  unfold CVMETL.data_source in Heq. by rewrite Heq.
Qed.

Lemma clean_document_type_fails (s0 : gmap string Minio.object) files_path
    curr_year curr_agg_part curr_agg st part doc f :
  raw_files_kept s0 files_path st →
  f ∈ files_path →
  PyStr.contains f (part +:+ curr_agg_part +:+ curr_year) = true →
  (∃ e, clean_file s0 (get_document_schema_from_doc_type doc) f = Err e) →
  ∃ e, clean_document_type files_path curr_year curr_agg_part curr_agg st (part, doc)
       = Err e.
Proof.
  intros Hkept Hf Hsel [e He]. destruct st as [s paths].
  unfold CVMETL.clean_document_type.
  destruct (foldM_Err (λ _, True)
              (λ joined_df curr_file_path,
                 curr_file_df ← clean_file s (get_document_schema_from_doc_type doc)
                                  curr_file_path;
                 mret (DataFrame.concat joined_df curr_file_df))
              (CVMETL.selected_files files_path part curr_agg_part curr_year) f)
    with (acc := DataFrame.empty) as [e' He']; try done.
  - intros acc _. exists e.
    rewrite (clean_file_lookup s s0) by (by apply (Hkept f)). by rewrite He.
  - unfold CVMETL.selected_files. by apply elem_of_List_filter.
  - rewrite He'. eauto.
Qed.

Lemma FS_filter_and_clean_fails (s : gmap string Minio.object) files_path years_to_process
    curr_year curr_agg_part curr_agg part doc f :
  writes_new_keys files_path →
  curr_year ∈ years_to_process →
  (curr_agg_part, curr_agg) ∈ CVMETL.FINANCIAL_STATEMENTS_GROUPING →
  (part, doc) ∈ CVMETL.ITR_FILE_PART_TO_DOCUMENT_TYPE →
  f ∈ files_path →
  PyStr.contains f (part +:+ curr_agg_part +:+ curr_year) = true →
  (∃ e, clean_file s (get_document_schema_from_doc_type doc) f = Err e) →
  ∃ e, FS_filter_and_clean s files_path years_to_process = Err e.
Proof.
  intros Hnew Hyear Hagg Hdoc Hf Hsel Hfail. unfold CVMETL.FS_filter_and_clean.
  assert (∀ y ap a st st',
            raw_files_kept s files_path st →
            foldM (clean_document_type files_path y ap a) st
              CVMETL.ITR_FILE_PART_TO_DOCUMENT_TYPE = Ok st' →
            raw_files_kept s files_path st') as Hdocs.
  { intros y ap a st st'. apply (foldM_preserves (raw_files_kept s files_path)).
    intros acc d acc'. by apply clean_document_type_keeps. }
  assert (∀ y st st',
            raw_files_kept s files_path st →
            foldM (λ st '(ap, a),
                     foldM (clean_document_type files_path y ap a) st
                       CVMETL.ITR_FILE_PART_TO_DOCUMENT_TYPE)
              st CVMETL.FINANCIAL_STATEMENTS_GROUPING = Ok st' →
            raw_files_kept s files_path st') as Haggs.
  { intros y st st'. apply (foldM_preserves (raw_files_kept s files_path)).
    intros acc [ap a] acc'. apply Hdocs. }
  apply (foldM_Err (raw_files_kept s files_path)) with (x := curr_year);
    [by intros acc y acc'; apply Haggs| |done|done].
  intros st Hst.
  apply (foldM_Err (raw_files_kept s files_path)) with (x := (curr_agg_part, curr_agg));
    [by intros acc [ap a] acc'; apply Hdocs| |done|done].
  intros st1 Hst1.
  apply (foldM_Err (raw_files_kept s files_path)) with (x := (part, doc));
    [by intros acc d acc'; apply clean_document_type_keeps| |done|done].
  intros st2 Hst2. by eapply clean_document_type_fails.
Qed.

Lemma clean_file_schema_mismatch (s : gmap string Minio.object) schema f o df :
  s !! f = Some o →
  read_csv schema (Minio.data o) = Some df →
  DataFrame.columns df ≠ schema →
  clean_file s schema f = Err (AssertionError None).
Proof.
  intros Hs Hread Hcols. unfold CVMETL.clean_file, Minio.get_file_bytes_and_metadata.
  rewrite Hs. simpl. rewrite Hread. simpl. by rewrite bool_decide_false.
Qed.

Lemma clean_file_empty_filter (s : gmap string Minio.object) schema f o df df' :
  s !! f = Some o →
  read_csv schema (Minio.data o) = Some df →
  DataFrame.columns df = schema →
  DataFrame.filter_eq df CVMETL.CNPJ_COLUMN_TO_FILTER formatted_cnpj = Ok df' →
  DataFrame.rows df' = [] →
  clean_file s schema f
  = Err (AssertionError (Some (CVMETL.filter_failure_message f formatted_cnpj))).
Proof.
  intros Hs Hread Hcols Hfilter Hrows.
  unfold CVMETL.clean_file, Minio.get_file_bytes_and_metadata.
  rewrite Hs. simpl. rewrite Hread. simpl. rewrite bool_decide_true by done. simpl.
  rewrite Hfilter. simpl. by rewrite Hrows.
Qed.

(** C7. A raw file that the stage selects, whose parsed table has the
    declared columns and no row of the configured CNPJ, makes the stage
    fail: cleaning the file raises the assertion whose message names the
    file and the CNPJ, and [FS_filter_and_clean] returns an error instead
    of going on with an empty table. *)
Theorem empty_company_filter_is_fatal
    (s : gmap string Minio.object) (files_path years_to_process : list string)
    (curr_year curr_agg_part : string) (curr_agg : CVMDocumentAggregationType)
    (part : string) (doc : DocumentTypes) (f : string)
    (o : Minio.object) (df df' : DataFrame.t) :
  writes_new_keys files_path →
  curr_year ∈ years_to_process →
  (curr_agg_part, curr_agg) ∈ CVMETL.FINANCIAL_STATEMENTS_GROUPING →
  (part, doc) ∈ CVMETL.ITR_FILE_PART_TO_DOCUMENT_TYPE →
  f ∈ files_path →
  PyStr.contains f (part +:+ curr_agg_part +:+ curr_year) = true →
  s !! f = Some o →
  read_csv (get_document_schema_from_doc_type doc) (Minio.data o) = Some df →
  DataFrame.columns df = get_document_schema_from_doc_type doc →
  DataFrame.filter_eq df CVMETL.CNPJ_COLUMN_TO_FILTER formatted_cnpj = Ok df' →
  DataFrame.rows df' = [] →
  let message := CVMETL.filter_failure_message f formatted_cnpj in
  clean_file s (get_document_schema_from_doc_type doc) f
  = Err (AssertionError (Some message))
  ∧ PyStr.contains message f = true
  ∧ PyStr.contains message formatted_cnpj = true
  ∧ ∃ e, FS_filter_and_clean s files_path years_to_process = Err e.
Proof.
  intros Hnew Hyear Hagg Hdoc Hf Hsel Hs Hread Hcols Hfilter Hrows message.
  assert (clean_file s (get_document_schema_from_doc_type doc) f
          = Err (AssertionError (Some message))) as Hfile
    by by eapply clean_file_empty_filter.
  split; [done|]. split; [|split].
  - apply contains_app.
  - unfold message, CVMETL.filter_failure_message.
    rewrite 2!string_app_assoc. apply contains_app.
  - eapply FS_filter_and_clean_fails; eauto.
Qed.

(** C8. A raw file that the stage selects and whose parsed column list
    differs from the declared schema of its document type (in names or in
    order) makes the stage fail: cleaning the file raises the schema
    assertion, and [FS_filter_and_clean] returns an error. *)
Theorem schema_mismatch_is_fatal
    (s : gmap string Minio.object) (files_path years_to_process : list string)
    (curr_year curr_agg_part : string) (curr_agg : CVMDocumentAggregationType)
    (part : string) (doc : DocumentTypes) (f : string)
    (o : Minio.object) (df : DataFrame.t) :
  writes_new_keys files_path →
  curr_year ∈ years_to_process →
  (curr_agg_part, curr_agg) ∈ CVMETL.FINANCIAL_STATEMENTS_GROUPING →
  (part, doc) ∈ CVMETL.ITR_FILE_PART_TO_DOCUMENT_TYPE →
  f ∈ files_path →
  PyStr.contains f (part +:+ curr_agg_part +:+ curr_year) = true →
  s !! f = Some o →
  read_csv (get_document_schema_from_doc_type doc) (Minio.data o) = Some df →
  DataFrame.columns df ≠ get_document_schema_from_doc_type doc →
  clean_file s (get_document_schema_from_doc_type doc) f = Err (AssertionError None)
  ∧ ∃ e, FS_filter_and_clean s files_path years_to_process = Err e.
Proof.
  intros Hnew Hyear Hagg Hdoc Hf Hsel Hs Hread Hcols.
  assert (clean_file s (get_document_schema_from_doc_type doc) f
          = Err (AssertionError None)) as Hfile
    by by eapply clean_file_schema_mismatch.
  split; [done|]. eapply FS_filter_and_clean_fails; eauto.
Qed.

End ReconciliationProperties.

Lemma example_writes_new_keys doc agg curr_year :
  example_save_file_path SILVER_CLEANED CVM doc agg curr_year ∉ example_raw_paths.
Proof.
  unfold example_raw_paths. intros Hin.
  repeat (apply elem_of_cons in Hin as [Hin|Hin]; [discriminate Hin|]).
  by apply not_elem_of_nil in Hin.
Qed.

Lemma empty_company_filter_is_fatal_witness :
  let f := "bronze/raw/itr_cia_aberta_DRE_con_2024.csv" in
  let message := CVMETL.filter_failure_message f example_cnpj in
  example_clean_file example_raw_bucket (example_schema DRE) f
  = Err (AssertionError (Some message))
  ∧ PyStr.contains message f = true
  ∧ PyStr.contains message example_cnpj = true
  ∧ ∃ e, example_FS_filter_and_clean example_raw_bucket example_raw_paths ["2024"]
         = Err e.
Proof.
  apply (empty_company_filter_is_fatal example_digest example_cnpj "run-1"
           "2025-01-01T10:00:00" example_save_file_path example_schema example_read_csv
           example_to_datetime example_df_to_parquet_bytes
           example_raw_bucket example_raw_paths ["2024"] "2024" "_con_" CONSOLIDADO
           "DRE" DRE "bronze/raw/itr_cia_aberta_DRE_con_2024.csv"
           (example_raw_object "csv-other-company")
           {| DataFrame.columns := example_schema DRE;
              DataFrame.rows := [example_csv_row "11.111.111/0001-11"] |}
           {| DataFrame.columns := example_schema DRE; DataFrame.rows := [] |}).
  - apply example_writes_new_keys.
  - left.
  - left.
  - do 3 right. left.
  - right. left.
  - vm_compute. reflexivity.
  - vm_compute. reflexivity.
  - vm_compute. reflexivity.
  - reflexivity.
  - vm_compute. reflexivity.
  - reflexivity.
Defined.

Lemma schema_mismatch_is_fatal_witness :
  example_clean_file example_raw_bucket (example_schema BALANCO_PATRIMONIAL_ATIVO)
    "bronze/raw/itr_cia_aberta_BPA_ind_2024.csv"
  = Err (AssertionError None)
  ∧ ∃ e, example_FS_filter_and_clean example_raw_bucket example_raw_paths ["2024"]
         = Err e.
Proof.
  apply (schema_mismatch_is_fatal example_digest example_cnpj "run-1"
           "2025-01-01T10:00:00" example_save_file_path example_schema example_read_csv
           example_to_datetime example_df_to_parquet_bytes
           example_raw_bucket example_raw_paths ["2024"] "2024" "_ind_" INDIVIDUAL
           "BPA" BALANCO_PATRIMONIAL_ATIVO "bronze/raw/itr_cia_aberta_BPA_ind_2024.csv"
           (example_raw_object "csv-extra-column")
           {| DataFrame.columns :=
                (example_schema BALANCO_PATRIMONIAL_ATIVO ++ ["VERSAO"])%list;
              DataFrame.rows := [(example_csv_row example_cnpj ++ [CStr "1"])%list] |}).
  - apply example_writes_new_keys.
  - left.
  - right. left.
  - left.
  - do 2 right. left.
  - vm_compute. reflexivity.
  - vm_compute. reflexivity.
  - vm_compute. reflexivity.
  - vm_compute. discriminate.
Defined.

(** The run on the example bronze/raw layer stops at the first defect, the
    income statement without a row of the company. *)
Example example_run_stops_at_empty_filter :
  example_FS_filter_and_clean example_raw_bucket example_raw_paths ["2024"]
  = Err (AssertionError
           (Some ("Failure while filtering the DF for file "
                  +:+ "'bronze/raw/itr_cia_aberta_DRE_con_2024.csv'. "
                  +:+ "Please confirm the provided company CNPJ '00.000.000/0001-91' "
                  +:+ "in the environment file."))).
Proof. vm_compute. reflexivity. Qed.

(** With the sound file only, every combination of aggregation and
    statement type yields one silver/cleaned key. *)
Example example_run_on_sound_file :
  snd <$> example_FS_filter_and_clean example_raw_bucket
            ["bronze/raw/itr_cia_aberta_BPA_con_2024.csv"] ["2024"]
  = Ok ((λ '(agg, doc), example_save_file_path SILVER_CLEANED CVM doc agg "2024")
          <$> [(CONSOLIDADO, BALANCO_PATRIMONIAL_ATIVO);
               (CONSOLIDADO, BALANCO_PATRIMONIAL_PASSIVO);
               (CONSOLIDADO, FLUXO_DE_CAIXA_INDIRETO);
               (CONSOLIDADO, DRE);
               (INDIVIDUAL, BALANCO_PATRIMONIAL_ATIVO);
               (INDIVIDUAL, BALANCO_PATRIMONIAL_PASSIVO);
               (INDIVIDUAL, FLUXO_DE_CAIXA_INDIRETO);
               (INDIVIDUAL, DRE)]).
Proof. vm_compute. reflexivity. Qed.

(** * Further properties of the code *)

(** ** The gateway: what a put touches *)

Lemma length_NoDup_subseteq {A} (l k : list A) :
  NoDup l → (∀ x, x ∈ l → x ∈ k) → (length l ≤ length k)%nat.
Proof. intros Hl Hsub. apply submseteq_length. by apply NoDup_submseteq. Qed.


Section GatewayExtras.

Variable digest : list Byte.byte → string.

Lemma save_cases s path file_bytes ts tr dt ct src rd ag :
  (Minio.artifacts_with_hash s (Minio.folder_prefix path) (digest file_bytes) ≠ []
   ∧ ∃ dup, Minio.save_file_to_bucket digest s path file_bytes ts tr dt ct src rd ag
            = (s, Minio.AlreadyExists dup))
  ∨ (Minio.artifacts_with_hash s (Minio.folder_prefix path) (digest file_bytes) = []
     ∧ ∃ o, Minio.save_file_to_bucket digest s path file_bytes ts tr dt ct src rd ag
            = (<[path := o]> s, Minio.Uploaded path)
            ∧ Minio.data o = file_bytes
            ∧ Minio.file_hash <$> Minio.obj_metadata o = Some (digest file_bytes)).
Proof.
  destruct (Minio.artifacts_with_hash s (Minio.folder_prefix path) (digest file_bytes))
    as [|name l] eqn:E.
  - right. split; [done|]. by apply save_writes.
  - left. split; [done|].
    destruct (save_skips digest s path file_bytes ts tr dt ct src rd ag name)
      as (dup & Heq & _); [rewrite E; left|]. eauto.
Qed.

(** X1. A put touches at most the requested key and removes nothing:
    without the requested key the bucket is as before, and every key that
    was stored is still stored. *)
Theorem save_file_to_bucket_frame
    (s : gmap string Minio.object) (path : string) (file_bytes : list Byte.byte)
    (ts tr : string) (dt : DocumentTypes) (ct : ContentTypes) (src : DataSources)
    (rd : option string) (ag : option CVMDocumentAggregationType) :
  let s' := (Minio.save_file_to_bucket digest s path file_bytes ts tr dt ct src rd ag).1 in
  delete path s' = delete path s ∧ dom s ⊆ dom s'.
Proof.
  destruct (save_cases s path file_bytes ts tr dt ct src rd ag)
    as [(_ & dup & ->)|(_ & o & -> & _)]; simpl.
  - done.
  - split; [apply delete_insert_eq|]. rewrite dom_insert. set_solver.
Qed.


Lemma artifacts_after_insert (s : gmap string Minio.object) path o prefix h name :
  name ∈ Minio.artifacts_with_hash (<[path := o]> s) prefix h →
  name ≠ path →
  name ∈ Minio.artifacts_with_hash s prefix h.
Proof.
  rewrite !elem_of_artifacts. intros (? & ? & Hh) Hne.
  rewrite stat_file_hash_insert, decide_False in Hh by done. done.
Qed.

(** X3. The folder invariant is kept: if the scan of the target folder
    listed no content hash twice before a put, it lists none twice after
    it, whatever the payload and the key. *)
Theorem save_keeps_folder_invariant
    (s : gmap string Minio.object) (path : string) (file_bytes : list Byte.byte)
    (ts tr : string) (dt : DocumentTypes) (ct : ContentTypes) (src : DataSources)
    (rd : option string) (ag : option CVMDocumentAggregationType) :
  (∀ h, (Minio.folder_hash_count s (Minio.folder_prefix path) h ≤ 1)%nat) →
  ∀ h,
    (Minio.folder_hash_count
       (Minio.save_file_to_bucket digest s path file_bytes ts tr dt ct src rd ag).1
       (Minio.folder_prefix path) h ≤ 1)%nat.
Proof.
  intros Hinv h.
  destruct (save_cases s path file_bytes ts tr dt ct src rd ag)
    as [(_ & dup & ->)|(Hnone & o & -> & _ & Hhash)]; simpl; [done|].
  unfold Minio.folder_hash_count.
  destruct (decide (h = digest file_bytes)) as [->|Hh].
  - (* the new hash: only the new key can carry it *)
    transitivity (length [path]); [|done].
    apply length_NoDup_subseteq; [apply NoDup_artifacts|].
    intros name Hname. apply list_elem_of_singleton.
    destruct (decide (name = path)) as [|Hne]; [done|]. exfalso.
    apply artifacts_after_insert in Hname; [|done].
    rewrite Hnone in Hname. by apply not_elem_of_nil in Hname.
  - (* another hash: nothing new carries it *)
    etrans; [|apply (Hinv h)].
    apply length_NoDup_subseteq; [apply NoDup_artifacts|].
    intros name Hname.
    destruct (decide (name = path)) as [->|Hne]; [|by eapply artifacts_after_insert].
    exfalso. apply elem_of_artifacts in Hname as (_ & _ & Hname).
    rewrite stat_file_hash_insert, decide_True in Hname by done. congruence.
Qed.





End GatewayExtras.


Lemma save_keeps_folder_invariant_witness :
  (Minio.folder_hash_count
     (Minio.save_file_to_bucket example_digest example_bucket
        "silver/cleaned/cvm/2024/bpa.parquet" (list_byte_of_string "other payload")
        "2025-03-01T08:00:00" "run-3" BALANCO_PATRIMONIAL_ATIVO PARQUET CVM
        (Some "2024") (Some CONSOLIDADO)).1
     (Minio.folder_prefix "silver/cleaned/cvm/2024/bpa.parquet")
     (example_digest (list_byte_of_string "other payload")) ≤ 1)%nat.
Proof.
  apply (save_keeps_folder_invariant example_digest example_bucket
           "silver/cleaned/cvm/2024/bpa.parquet").
  intros h. unfold Minio.folder_hash_count, Minio.artifacts_with_hash.
  etrans; [apply filter_length_le|]. vm_compute. lia.
Defined.


(** ** Reconciliation: what the stage returns and writes *)

(** A loop that threads the bucket and the list of returned keys, where
    every pass appends its keys and writes to no other key. *)
Lemma foldM_appends {A} (body : gmap string Minio.object * list string → A
                               → result (gmap string Minio.object * list string))
    (keys : A → list string) (l : list A) :
  (∀ s ps a s' ps',
     body (s, ps) a = Ok (s', ps') →
     ps' = (ps ++ keys a)%list ∧ ∀ k, k ∉ keys a → s' !! k = s !! k) →
  ∀ s ps s' ps',
    foldM body (s, ps) l = Ok (s', ps') →
    ps' = (ps ++ (l ≫= keys))%list ∧ ∀ k, k ∉ l ≫= keys → s' !! k = s !! k.
Proof.
  intros Hbody. induction l as [|a l IH]; intros s ps s' ps'; cbn [foldM].
  - intros [= <- <-]. by rewrite app_nil_r.
  - destruct (body (s, ps) a) as [[s1 ps1]|e] eqn:E; [|done].
    cbn [mbind result_bind]. intros Hrest.
    apply Hbody in E as [-> Hs1]. apply IH in Hrest as [-> Hs'].
    rewrite bind_cons, app_assoc. split; [done|].
    intros k Hk. apply not_elem_of_app in Hk as [??].
    rewrite Hs' by done. by apply Hs1.
Qed.


Section ReconciliationExtras.

Variable digest : list Byte.byte → string.
Variable formatted_cnpj trace_id ingest_ts : string.
Variable get_bucket_save_file_path :
  MedallionLayer → DataSources → DocumentTypes → CVMDocumentAggregationType → string → string.
Variable get_document_schema_from_doc_type : DocumentTypes → list string.
Variable read_csv : list string → list Byte.byte → option DataFrame.t.
Variable to_datetime : cell → option date.
Variable convert_pandas_df_to_parquet_bytes : DataFrame.t → list Byte.byte.

Local Abbreviation clean_file := (CVMETL.clean_file formatted_cnpj read_csv to_datetime).
Local Abbreviation clean_document_type :=
  (CVMETL.clean_document_type digest formatted_cnpj trace_id ingest_ts
     get_bucket_save_file_path get_document_schema_from_doc_type read_csv to_datetime
     convert_pandas_df_to_parquet_bytes).
Local Abbreviation FS_filter_and_clean :=
  (CVMETL.FS_filter_and_clean digest formatted_cnpj trace_id ingest_ts
     get_bucket_save_file_path get_document_schema_from_doc_type read_csv to_datetime
     convert_pandas_df_to_parquet_bytes).

Lemma clean_document_type_appends files_path curr_year curr_agg_part curr_agg
    (s : gmap string Minio.object) ps doc s' ps' :
  clean_document_type files_path curr_year curr_agg_part curr_agg (s, ps) doc
  = Ok (s', ps') →
  ps' = (ps ++ [get_bucket_save_file_path SILVER_CLEANED CVM doc.2 curr_agg curr_year])%list
  ∧ ∀ k, k ∉ [get_bucket_save_file_path SILVER_CLEANED CVM doc.2 curr_agg curr_year] →
         s' !! k = s !! k.
Proof.
  destruct doc as [part doc]. unfold CVMETL.clean_document_type.
  destruct (foldM _ _ _) as [joined_df|e]; [|done].
  cbn [mbind result_bind mret result_ret]. intros [= <- <-]. split; [done|].
  intros k Hk. apply (save_file_to_bucket_other digest).
  intros <-. apply Hk. left.
Qed.

Lemma FS_filter_and_clean_appends (s : gmap string Minio.object)
    files_path years_to_process s' paths :
  FS_filter_and_clean s files_path years_to_process = Ok (s', paths) →
  paths = cleaned_keys get_bucket_save_file_path years_to_process
  ∧ ∀ k, k ∉ cleaned_keys get_bucket_save_file_path years_to_process →
         s' !! k = s !! k.
Proof.
  unfold CVMETL.FS_filter_and_clean. intros H.
  eapply (foldM_appends _
            (λ curr_year,
               grouping ← CVMETL.FINANCIAL_STATEMENTS_GROUPING;
               doc ← CVMETL.ITR_FILE_PART_TO_DOCUMENT_TYPE;
               [get_bucket_save_file_path SILVER_CLEANED CVM doc.2 grouping.2 curr_year]))
    in H; [exact H|].
  intros s0 ps0 curr_year s1 ps1 Hyear.
  eapply (foldM_appends _
            (λ grouping : string * CVMDocumentAggregationType,
               doc ← CVMETL.ITR_FILE_PART_TO_DOCUMENT_TYPE;
               [get_bucket_save_file_path SILVER_CLEANED CVM doc.2 grouping.2 curr_year]))
    in Hyear; [exact Hyear|].
  intros s2 ps2 [curr_agg_part curr_agg] s3 ps3 Hagg.
  eapply (foldM_appends _
            (λ doc : string * DocumentTypes,
               [get_bucket_save_file_path SILVER_CLEANED CVM doc.2 curr_agg curr_year]))
    in Hagg; [exact Hagg|].
  intros s4 ps4 doc s5 ps5. apply clean_document_type_appends.
Qed.

(** X6. When the reconciliation stage succeeds it returns exactly one key
    per (year, aggregation, statement type) combination, in loop order:
    eight keys per year, whether or not a raw file matched the
    combination. *)
Theorem FS_filter_and_clean_returns_one_key_per_combination
    (s s' : gmap string Minio.object) (files_path years_to_process paths : list string) :
  FS_filter_and_clean s files_path years_to_process = Ok (s', paths) →
  paths = cleaned_keys get_bucket_save_file_path years_to_process
  ∧ length paths = (8 * length years_to_process)%nat.
Proof.
  intros [-> _]%FS_filter_and_clean_appends. split; [done|].
  unfold cleaned_keys. induction years_to_process as [|y ys IH]; [done|].
  rewrite bind_cons, length_app, IH. simpl. lia.
Qed.

(** X7. The reconciliation stage writes new keys only: every object whose
    key is not among the silver/cleaned keys it returns is left as it was,
    the raw files it read included. *)
Theorem FS_filter_and_clean_writes_only_returned_keys
    (s s' : gmap string Minio.object) (files_path years_to_process paths : list string)
    (k : string) :
  FS_filter_and_clean s files_path years_to_process = Ok (s', paths) →
  k ∉ paths →
  s' !! k = s !! k.
Proof.
  intros [-> Hframe]%FS_filter_and_clean_appends Hk. by apply Hframe.
Qed.


End ReconciliationExtras.

Lemma FS_filter_and_clean_returns_one_key_per_combination_witness :
  ∃ s' paths,
    example_FS_filter_and_clean example_raw_bucket
      ["bronze/raw/itr_cia_aberta_BPA_con_2024.csv"] ["2024"] = Ok (s', paths)
    ∧ paths = cleaned_keys example_save_file_path ["2024"]
    ∧ length paths = 8%nat.
Proof.
  assert (is_Ok (example_FS_filter_and_clean example_raw_bucket
                   ["bronze/raw/itr_cia_aberta_BPA_con_2024.csv"] ["2024"]) = true) as Hok
    by (vm_compute; reflexivity).
  destruct (example_FS_filter_and_clean example_raw_bucket
              ["bronze/raw/itr_cia_aberta_BPA_con_2024.csv"] ["2024"])
    as [[s' paths]|e] eqn:E; [|discriminate Hok].
  - exists s', paths. split; [reflexivity|].
    exact (FS_filter_and_clean_returns_one_key_per_combination
             example_digest example_cnpj "run-1" "2025-01-01T10:00:00"
             example_save_file_path example_schema example_read_csv example_to_datetime
             example_df_to_parquet_bytes _ _ _ _ _ E).
Defined.

Lemma FS_filter_and_clean_writes_only_returned_keys_witness :
  ∃ s' paths,
    example_FS_filter_and_clean example_raw_bucket
      ["bronze/raw/itr_cia_aberta_BPA_con_2024.csv"] ["2024"] = Ok (s', paths)
    ∧ s' !! "bronze/raw/itr_cia_aberta_BPA_con_2024.csv"
      = Some (example_raw_object "csv-company").
Proof.
  assert (is_Ok (example_FS_filter_and_clean example_raw_bucket
                   ["bronze/raw/itr_cia_aberta_BPA_con_2024.csv"] ["2024"]) = true) as Hok
    by (vm_compute; reflexivity).
  destruct (example_FS_filter_and_clean example_raw_bucket
              ["bronze/raw/itr_cia_aberta_BPA_con_2024.csv"] ["2024"])
    as [[s' paths]|e] eqn:E; [|discriminate Hok].
  - exists s', paths. split; [reflexivity|].
    rewrite (FS_filter_and_clean_writes_only_returned_keys
               example_digest example_cnpj "run-1" "2025-01-01T10:00:00"
               example_save_file_path example_schema example_read_csv example_to_datetime
               example_df_to_parquet_bytes _ _ _ _ _
               "bronze/raw/itr_cia_aberta_BPA_con_2024.csv" E).
    + vm_compute. reflexivity.
    + pose proof E as [-> _]%FS_filter_and_clean_appends.
      apply (bool_decide_unpack _). vm_compute. exact I.
Defined.

(** ** Reconciliation: the rows a cleaned file keeps *)

Lemma index_of_Some col cols i :
  DataFrame.index_of col cols = Some i → cols !! i = Some col.
Proof.
  revert i. induction cols as [|c cols IH]; intros i; cbn [DataFrame.index_of]; [done|].
  destruct (String.eqb_spec c col) as [->|Hne].
  - by intros [= <-].
  - destruct (DataFrame.index_of col cols) as [j|]; [|done].
    intros [= <-]. by apply IH.
Qed.

Lemma index_of_app col cols more i :
  DataFrame.index_of col cols = Some i →
  DataFrame.index_of col (cols ++ more)%list = Some i.
Proof.
  revert i. induction cols as [|c cols IH]; intros i; cbn [DataFrame.index_of app]; [done|].
  destruct (String.eqb c col); [done|].
  destruct (DataFrame.index_of col cols) as [j|]; [|done].
  intros [= <-]. by rewrite (IH j).
Qed.

Lemma index_of_new col cols :
  DataFrame.index_of col cols = None →
  DataFrame.index_of col (cols ++ [col])%list = Some (length cols).
Proof.
  induction cols as [|c cols IH]; cbn [DataFrame.index_of app length].
  - by rewrite String.eqb_refl.
  - destruct (String.eqb c col); [done|].
    destruct (DataFrame.index_of col cols); [done|]. intros _. by rewrite IH.
Qed.

Lemma get_cell_lookup i (row : list cell) :
  (i < length row)%nat → row !! i = Some (DataFrame.get_cell i row).
Proof.
  intros Hi. unfold DataFrame.get_cell. rewrite nth_lookup.
  by destruct (lookup_lt_is_Some_2 row i Hi) as [c ->].
Qed.

Lemma mapM_Ok_Forall2 {A B} (f : A → result B) (l : list A) (ys : list B) :
  mapM f l = Ok ys → Forall2 (λ x y, f x = Ok y) l ys.
Proof.
  revert ys. induction l as [|x l IH]; intros ys; cbn [mapM].
  - intros [= <-]. constructor.
  - destruct (f x) as [y|] eqn:Hy; [|done]. cbn [mbind result_bind].
    destruct (mapM f l) as [ys'|]; [|done]. cbn [mbind result_bind mret result_ret].
    intros [= <-]. constructor; [done|]. by apply IH.
Qed.

Section CleanFileExtras.

Variable formatted_cnpj : string.
Variable read_csv : list string → list Byte.byte → option DataFrame.t.
Variable to_datetime : cell → option date.

Local Abbreviation clean_file := (CVMETL.clean_file formatted_cnpj read_csv to_datetime).

(** X9. Every row of a table that [clean_file] returns belongs to the
    configured company, is of the latest exercise, has its reference date
    parsed to a date, and carries the origin tag of its file: DFP when
    the key contains dfp_, ITR otherwise. The parsed CSV is rectangular:
    each of its rows has one cell per column. *)
Theorem clean_file_rows
    (s : gmap string Minio.object) (curr_document_schema : list string)
    (curr_file_path : string) (df : DataFrame.t) :
  (∀ file_bytes file_metadata raw,
     Minio.get_file_bytes_and_metadata s curr_file_path = Some (file_bytes, file_metadata) →
     read_csv curr_document_schema file_bytes = Some raw →
     Forall (λ row, length row = length (DataFrame.columns raw)) (DataFrame.rows raw)) →
  clean_file s curr_document_schema curr_file_path = Ok df →
  Forall (λ row,
            row_value df row "CNPJ_CIA" = Some (CStr formatted_cnpj)
            ∧ row_value df row "ORDEM_EXERC" = Some (CStr "ÚLTIMO")
            ∧ (∃ d, row_value df row "DT_REFER" = Some (CDate d))
            ∧ row_value df row "ORIGIN_FILE"
              = Some (CStr (if PyStr.contains curr_file_path "dfp_" then "DFP" else "ITR")))
    (DataFrame.rows df).
Proof.
  intros Hrect. unfold CVMETL.clean_file.
  destruct (Minio.get_file_bytes_and_metadata s curr_file_path)
    as [[file_bytes file_metadata]|] eqn:Hget; [|done].
  cbn [of_option mbind result_bind].
  destruct (read_csv curr_document_schema file_bytes) as [raw|] eqn:Hread; [|done].
  cbn [of_option mbind result_bind].
  specialize (Hrect _ _ _ eq_refl Hread).
  destruct (bool_decide (DataFrame.columns raw = curr_document_schema)) eqn:Hcols; [|done].
  apply bool_decide_eq_true in Hcols. cbn [negb].
  unfold DataFrame.filter_eq, DataFrame.convert_column.
  destruct (DataFrame.index_of CVMETL.CNPJ_COLUMN_TO_FILTER (DataFrame.columns raw))
    as [i1|] eqn:H1; [|done].
  cbn [of_option mbind result_bind mret result_ret DataFrame.rows DataFrame.columns].
  destruct (List.filter _ (DataFrame.rows raw)) as [|r0 rs0] eqn:Hrows1; [done|].
  rewrite <- Hrows1. clear r0 rs0 Hrows1.
  destruct (DataFrame.index_of CVMETL.ITR_EXERCISE_PERIOD_ORDER_COLUMN_NAME
              (DataFrame.columns raw)) as [i2|] eqn:H2; [|done].
  cbn [of_option mbind result_bind mret result_ret DataFrame.rows DataFrame.columns].
  destruct (DataFrame.index_of CVMETL.REF_DATE_COLUMN_NAME (DataFrame.columns raw))
    as [i3|] eqn:H3; [|done].
  cbn [of_option mbind result_bind mret result_ret].
  destruct (mapM _ _) as [rows3|] eqn:Hmap; [|done].
  cbn [mbind result_bind mret result_ret]. intros [= <-].
  apply mapM_Ok_Forall2 in Hmap.
  set (tag := CStr (if PyStr.contains curr_file_path "dfp_" then "DFP" else "ITR")).
  (* what the two filters and the date conversion leave in each row *)
  assert (Forall (λ row3, length row3 = length (DataFrame.columns raw)
                          ∧ row3 !! i1 = Some (CStr formatted_cnpj)
                          ∧ row3 !! i2 = Some (CStr "ÚLTIMO")
                          ∧ ∃ d, row3 !! i3 = Some (CDate d)) rows3) as Hrows3.
  { pose proof (index_of_Some _ _ _ H1) as Hc1.
    pose proof (index_of_Some _ _ _ H2) as Hc2.
    pose proof (index_of_Some _ _ _ H3) as Hc3.
    assert (i1 ≠ i3) as H13 by (intros ->; rewrite Hc1 in Hc3; discriminate).
    assert (i2 ≠ i3) as H23 by (intros ->; rewrite Hc2 in Hc3; discriminate).
    apply Forall_forall. intros row3 Hin.
    destruct (proj1 (list_elem_of_lookup _ _) Hin) as [n Hn].
    destruct (Forall2_lookup_r _ _ _ _ _ Hmap Hn) as (row2 & Hn2 & Hconv).
    apply list_elem_of_lookup_2 in Hn2.
    apply list_elem_of_In, filter_In in Hn2 as [Hn2 Hord].
    apply filter_In in Hn2 as [Hn2 Hcnpj].
    apply bool_decide_eq_true in Hord, Hcnpj.
    apply list_elem_of_In in Hn2.
    pose proof (proj1 (Forall_forall _ _) Hrect row2 Hn2) as Hlen. simpl in Hlen.
    destruct (to_datetime (DataFrame.get_cell i3 row2)) as [d|]; [|done].
    cbn in Hconv. injection Hconv as <-.
    rewrite length_insert. split; [done|].
    rewrite !list_lookup_insert_ne by done.
    rewrite !get_cell_lookup, Hord, Hcnpj
      by (rewrite Hlen; eapply lookup_lt_Some; eassumption).
    split; [done|]. split; [done|]. exists d.
    apply list_lookup_insert_eq. rewrite Hlen. by eapply lookup_lt_Some. }
  clear Hmap. unfold DataFrame.set_column. cbn [DataFrame.columns DataFrame.rows].
  destruct (DataFrame.index_of "ORIGIN_FILE" (DataFrame.columns raw)) as [i4|] eqn:H4.
  - pose proof (index_of_Some _ _ _ H1) as Hc1.
    pose proof (index_of_Some _ _ _ H2) as Hc2.
    pose proof (index_of_Some _ _ _ H3) as Hc3.
    pose proof (index_of_Some _ _ _ H4) as Hc4.
    assert (i1 ≠ i4) as H14 by (intros ->; rewrite Hc1 in Hc4; discriminate).
    assert (i2 ≠ i4) as H24 by (intros ->; rewrite Hc2 in Hc4; discriminate).
    assert (i3 ≠ i4) as H34 by (intros ->; rewrite Hc3 in Hc4; discriminate).
    apply Forall_fmap. eapply Forall_impl; [exact Hrows3|].
    intros row3 (Hlen & Hv1 & Hv2 & d & Hv3). unfold row_value, compose.
    cbn [DataFrame.columns].
    change (DataFrame.index_of "CNPJ_CIA" (DataFrame.columns raw))
      with (DataFrame.index_of CVMETL.CNPJ_COLUMN_TO_FILTER (DataFrame.columns raw)).
    change (DataFrame.index_of "ORDEM_EXERC" (DataFrame.columns raw))
      with (DataFrame.index_of CVMETL.ITR_EXERCISE_PERIOD_ORDER_COLUMN_NAME
              (DataFrame.columns raw)).
    change (DataFrame.index_of "DT_REFER" (DataFrame.columns raw))
      with (DataFrame.index_of CVMETL.REF_DATE_COLUMN_NAME (DataFrame.columns raw)).
    rewrite H1, H2, H3, H4. cbn [mbind option_bind].
    rewrite !list_lookup_insert_ne by done.
    split; [done|]. split; [done|]. split; [by exists d|].
    apply list_lookup_insert_eq. rewrite Hlen. by eapply lookup_lt_Some.
  - apply Forall_fmap. eapply Forall_impl; [exact Hrows3|].
    intros row3 (Hlen & Hv1 & Hv2 & d & Hv3). unfold row_value, compose.
    cbn [DataFrame.columns].
    change (DataFrame.index_of "CNPJ_CIA")
      with (DataFrame.index_of CVMETL.CNPJ_COLUMN_TO_FILTER).
    change (DataFrame.index_of "ORDEM_EXERC")
      with (DataFrame.index_of CVMETL.ITR_EXERCISE_PERIOD_ORDER_COLUMN_NAME).
    change (DataFrame.index_of "DT_REFER")
      with (DataFrame.index_of CVMETL.REF_DATE_COLUMN_NAME).
    rewrite (index_of_app _ _ _ _ H1), (index_of_app _ _ _ _ H2),
      (index_of_app _ _ _ _ H3), (index_of_new _ _ H4).
    cbn [mbind option_bind].
    rewrite !lookup_app_l by (eapply lookup_lt_Some; eassumption).
    split; [done|]. split; [done|]. split; [by exists d|].
    rewrite <- Hlen. by rewrite list_lookup_middle.
Qed.

End CleanFileExtras.

Lemma clean_file_rows_witness :
  ∃ df,
    example_clean_file example_raw_bucket (example_schema BALANCO_PATRIMONIAL_ATIVO)
      "bronze/raw/itr_cia_aberta_BPA_con_2024.csv" = Ok df
    ∧ DataFrame.rows df ≠ []
    ∧ Forall (λ row,
                row_value df row "CNPJ_CIA" = Some (CStr example_cnpj)
                ∧ row_value df row "ORDEM_EXERC" = Some (CStr "ÚLTIMO")
                ∧ (∃ d, row_value df row "DT_REFER" = Some (CDate d))
                ∧ row_value df row "ORIGIN_FILE" = Some (CStr "ITR"))
        (DataFrame.rows df).
Proof.
  assert (match example_clean_file example_raw_bucket
                  (example_schema BALANCO_PATRIMONIAL_ATIVO)
                  "bronze/raw/itr_cia_aberta_BPA_con_2024.csv" with
          | Ok df => DataFrame.rows df ≠ []
          | Err _ => False
          end) as Hok by (vm_compute; discriminate).
  destruct (example_clean_file example_raw_bucket (example_schema BALANCO_PATRIMONIAL_ATIVO)
              "bronze/raw/itr_cia_aberta_BPA_con_2024.csv") as [df|e] eqn:E; [|done].
  - exists df. split; [reflexivity|]. split; [exact Hok|].
    + refine (clean_file_rows example_cnpj example_read_csv example_to_datetime
                example_raw_bucket _ _ df _ E).
      intros file_bytes file_metadata raw Hget Hread.
      vm_compute in Hget. injection Hget as <- <-.
      vm_compute in Hread. injection Hread as <-.
      repeat constructor.
Defined.

(** ** Enrichment and metrics: rows with an unknown scale unit *)

Section MetricsExtras.

Variable trace_id formatted_last_update_date : string.
Variable to_datetime : cell → option date.

Local Abbreviation enrich_row :=
  (CVMETL.enrich_row trace_id formatted_last_update_date to_datetime).

Lemma unmapped_rows_fold doc agg rows enriched :
  mapM (enrich_row doc agg) rows = Ok enriched →
  ∃ enriched',
    mapM (enrich_row doc agg)
      (List.filter (λ row, bool_decide (is_Some (CVMETL.ESCALA_MOEDA_MAPPING
                                                   !! Statement.ESCALA_MOEDA row)))
         rows) = Ok enriched'
    ∧ ∀ account_code exact,
        CVMETL.get_account_value enriched account_code exact
        = CVMETL.get_account_value enriched' account_code exact.
Proof.
  revert enriched. induction rows as [|row rows IH]; intros enriched; cbn [mapM List.filter].
  - intros [= <-]. by exists [].
  - destruct (enrich_row doc agg row) as [e|] eqn:He; [|done]. cbn [mbind result_bind].
    destruct (mapM _ rows) as [es|]; [|done]. cbn [mbind result_bind mret result_ret].
    intros [= <-]. destruct (IH es eq_refl) as (es' & Hes' & Hsame).
    destruct (bool_decide _) eqn:Hunit.
    + exists (e :: es'). cbn [mapM]. rewrite He, Hes'. split; [done|].
      intros account_code exact. by rewrite !get_account_value_cons, Hsame.
    + exists es'. split; [done|]. intros account_code exact.
      rewrite get_account_value_cons, Hsame.
      apply bool_decide_eq_false in Hunit.
      assert (Enriched.enr_adjusted_account_value e = None) as Hnan.
      { unfold CVMETL.enrich_row in He.
        destruct (to_datetime _); [|done]. cbn in He. injection He as <-.
        cbn [Enriched.enr_adjusted_account_value]. unfold CVMETL.adjusted_account_value.
        destruct (CVMETL.ESCALA_MOEDA_MAPPING !! Statement.ESCALA_MOEDA row) eqn:E.
        { exfalso. apply Hunit. eauto. }
        by destruct (Statement.VL_CONTA row). }
      unfold row_amount. rewrite Hnan. by destruct (if exact then _ else _).
Qed.

(** X10. Rows whose scale unit is not in the scale table are enriched
    without an error and then count for nothing: every metric of a group
    is the same as if those rows had been removed before enrichment. *)
Theorem unmapped_scale_rows_do_not_count
    (document_type : DocumentTypes) (aggregation_type : string)
    (rows : list Statement.t) (enriched : list Enriched.t) :
  mapM (enrich_row document_type aggregation_type) rows = Ok enriched →
  ∃ enriched',
    mapM (enrich_row document_type aggregation_type)
      (List.filter (λ row, bool_decide (is_Some (CVMETL.ESCALA_MOEDA_MAPPING
                                                   !! Statement.ESCALA_MOEDA row)))
         rows) = Ok enriched'
    ∧ ∀ name, CVMETL.group_record name enriched = CVMETL.group_record name enriched'.
Proof.
  intros (enriched' & Hok & Hsame)%unmapped_rows_fold.
  exists enriched'. split; [done|]. intros [cnpj dt_refer].
  unfold CVMETL.group_record. by rewrite !Hsame.
Qed.

End MetricsExtras.

Lemma unmapped_scale_rows_do_not_count_witness :
  ∃ enriched enriched',
    mapM (CVMETL.enrich_row "run-1" "2025-01-01" example_to_datetime DRE "Consolidado")
      [example_statement "2024-03-31" "3.01" 7 "BILHAO";
       example_statement "2024-03-31" "3.01" 5 "MIL"] = Ok enriched
    ∧ mapM (CVMETL.enrich_row "run-1" "2025-01-01" example_to_datetime DRE "Consolidado")
        [example_statement "2024-03-31" "3.01" 5 "MIL"] = Ok enriched'
    ∧ Quarterly.revenue (CVMETL.group_record (example_cnpj, mk_date 2024 3 31) enriched)
      = 5000.
Proof.
  destruct (mapM (CVMETL.enrich_row "run-1" "2025-01-01" example_to_datetime DRE
                    "Consolidado")
              [example_statement "2024-03-31" "3.01" 7 "BILHAO";
               example_statement "2024-03-31" "3.01" 5 "MIL"]) as [enriched|e] eqn:E;
    [|vm_compute in E; discriminate].
  destruct (unmapped_scale_rows_do_not_count "run-1" "2025-01-01" example_to_datetime
              DRE "Consolidado" _ enriched E) as (enriched' & Hok & Hsame).
  exists enriched, enriched'. split; [reflexivity|]. split; [exact Hok|].
  rewrite Hsame. vm_compute in Hok. injection Hok as <-. vm_compute. reflexivity.
Defined.

(** ** Metrics: sums by prefix *)



(** ** Metrics: the order of the records *)

Global Instance key_le_total : Total CVMETL.key_le.
Proof.
  intros a b. unfold CVMETL.key_le.
  destruct (decide (a.1 = b.1)) as [E|E].
  - rewrite decide_True by done. apply date_leb_total.
  - rewrite decide_False by done. apply (total String.le).
Qed.

Global Instance key_le_trans : Transitive CVMETL.key_le.
Proof.
  intros a b c. unfold CVMETL.key_le.
  destruct (decide (a.1 = b.1)) as [Hab|Hab], (decide (b.1 = c.1)) as [Hbc|Hbc].
  - rewrite decide_True by congruence. apply date_leb_trans.
  - rewrite decide_False by congruence. rewrite Hab. by intros _ ?.
  - rewrite <- Hbc. rewrite decide_False by done. by intros ? _.
  - intros H1 H2. destruct (decide (a.1 = c.1)) as [Hac|Hac].
    + exfalso. rewrite Hac in H1. apply Hbc. by apply (anti_symm String.le).
    + by etrans.
Qed.

(** X12. The quarterly records come in ascending order of company and
    reference date, whatever the order of the rows of the input table,
    and no two records have the same company and date. *)
Theorem quarterly_results_sorted (df : list Enriched.t) :
  StronglySorted CVMETL.key_le (record_key <$> CVMETL.quarterly_results df)
  ∧ NoDup (record_key <$> CVMETL.quarterly_results df).
Proof.
  rewrite quarterly_results_keys. split.
  - apply (StronglySorted_merge_sort _).
  - apply NoDup_group_keys.
Qed.

(** ** Enrichment: inputs it rejects, objects it writes *)

Section EnrichStageExtras.

Variable digest : list Byte.byte → string.
Variable trace_id formatted_last_update_date ingest_ts : string.
Variable get_bucket_save_file_path :
  MedallionLayer → DataSources → DocumentTypes → CVMDocumentAggregationType → string → string.
Variable to_datetime : cell → option date.
Variable read_parquet : list Byte.byte → option (list Statement.t).
Variable enriched_to_parquet_bytes : list Enriched.t → list Byte.byte.
Variable create_ref_date : date → string.

Local Abbreviation enrich_file :=
  (CVMETL.enrich_file trace_id formatted_last_update_date to_datetime read_parquet).
Local Abbreviation enrich_join :=
  (CVMETL.enrich_join trace_id formatted_last_update_date to_datetime read_parquet).
Local Abbreviation save_enriched :=
  (CVMETL.save_enriched digest trace_id ingest_ts get_bucket_save_file_path
     enriched_to_parquet_bytes create_ref_date).
Local Abbreviation FS_enrich :=
  (CVMETL.FS_enrich digest trace_id formatted_last_update_date ingest_ts
     get_bucket_save_file_path to_datetime read_parquet enriched_to_parquet_bytes
     create_ref_date).
(** What the stage puts on an object it writes. *)
Local Abbreviation enriched_object :=
  (λ o : Minio.object,
     Minio.content_type o = Some PARQUET
     ∧ ∃ md, Minio.obj_metadata o = Some md
             ∧ Minio.document_type md = DEMONSTRATIVOS_FINANCEIROS_FINAL
             ∧ Minio.aggregation_type md = None
             ∧ Minio.source md = CVM
             ∧ Minio.trace_id md = trace_id).

(** X13. Every input of the enrichment stage must be stored and carry an
    aggregation type in its metadata: one key of the input list without
    an object, or whose object has no aggregation type, makes the whole
    stage fail, whatever the other inputs are. *)
Theorem FS_enrich_needs_typed_inputs
    (s : gmap string Minio.object) (silver_cleaned_files_path : list string)
    (curr_file_path : string) :
  curr_file_path ∈ silver_cleaned_files_path →
  (s !! curr_file_path = None
   ∨ ∃ o, s !! curr_file_path = Some o
          ∧ Minio.obj_metadata o ≫= Minio.aggregation_type = None) →
  ∃ e, FS_enrich s silver_cleaned_files_path = Err e.
Proof.
  intros Hin Hbad.
  destruct (foldM_Err (λ _, True) (enrich_file s) silver_cleaned_files_path curr_file_path)
    with (acc := ([], []) : list (string * list Enriched.t) * list (string * list Enriched.t))
    as [e He]; [done| |done|done|].
  - intros [con ind] _. unfold CVMETL.enrich_file, Minio.get_file_bytes_and_metadata.
    destruct Hbad as [->|(o & -> & Hagg)]; [by eexists|].
    cbn [of_option mbind result_bind].
    destruct (Minio.document_type <$> Minio.obj_metadata o); [|by eexists].
    cbn [of_option mbind result_bind]. rewrite Hagg. by eexists.
  - exists e. unfold CVMETL.FS_enrich, CVMETL.enrich_join. by rewrite He.
Qed.

Lemma save_enriched_step (s1 s2 : gmap string Minio.object) ps ps2 curr_df curr_agg :
  save_enriched (s1, ps) (curr_df, curr_agg) = Ok (s2, ps2) →
  ∃ key, ps2 = (ps ++ [key])%list
         ∧ (∀ k, k ≠ key → s2 !! k = s1 !! k)
         ∧ (s2 !! key = s1 !! key ∨ ∃ o, s2 !! key = Some o ∧ enriched_object o).
Proof.
  unfold CVMETL.save_enriched.
  destruct (CVMETL.enriched_ref_date create_ref_date curr_df) as [ref_date|]; [|done].
  cbn [mbind result_bind mret result_ret]. intros [= <- <-].
  eexists. split; [done|]. split.
  - intros k Hk. by apply (save_file_to_bucket_other digest).
  - unfold Minio.save_file_to_bucket.
    destruct (Minio.find_duplicate _ _ _); cbn [fst]; [by left|].
    right. eexists. rewrite lookup_insert_eq. split; [done|].
    split; [done|]. eexists. split; [done|]. done.
Qed.

(** X14. A successful enrichment returns two keys and touches nothing
    else; every object it wrote or replaced is a parquet object of
    document type [DEMONSTRATIVOS_FINANCEIROS_FINAL] from source CVM with
    the trace id of the run and with no aggregation type in its metadata:
    the aggregation is recorded in the key only. *)
Theorem FS_enrich_output_objects
    (s s' : gmap string Minio.object)
    (silver_cleaned_files_path silver_enriched_file_paths : list string) :
  FS_enrich s silver_cleaned_files_path = Ok (s', silver_enriched_file_paths) →
  length silver_enriched_file_paths = 2%nat
  ∧ (∀ k, k ∉ silver_enriched_file_paths → s' !! k = s !! k)
  ∧ (∀ k o, s' !! k = Some o → s !! k ≠ Some o →
            k ∈ silver_enriched_file_paths ∧ enriched_object o).
Proof.
  unfold CVMETL.FS_enrich.
  destruct (enrich_join s silver_cleaned_files_path) as [[ind con]|]; [|done].
  cbn [mbind result_bind foldM].
  destruct (save_enriched (s, []) (ind, INDIVIDUAL)) as [[s1 ps1]|] eqn:H1; [|done].
  cbn [mbind result_bind].
  destruct (save_enriched (s1, ps1) (con, CONSOLIDADO)) as [[s2 ps2]|] eqn:H2; [|done].
  cbn [mbind result_bind]. intros [= <- <-].
  apply save_enriched_step in H1 as (k1 & -> & Hother1 & Hkey1).
  apply save_enriched_step in H2 as (k2 & -> & Hother2 & Hkey2).
  cbn [app]. split; [done|].
  assert (∀ k, k ≠ k1 → k ≠ k2 → s2 !! k = s !! k) as Hframe.
  { intros k ??. rewrite Hother2 by done. by apply Hother1. }
  split.
  { intros k Hk. apply not_elem_of_cons in Hk as [? Hk].
    apply not_elem_of_cons in Hk as [? _]. by apply Hframe. }
  intros k o Hk Hnew.
  assert (k ∈ [k1; k2]) as Hin.
  { destruct (decide (k = k1)) as [->|]; [left|].
    destruct (decide (k = k2)) as [->|]; [right; left|].
    exfalso. apply Hnew. by rewrite <- Hframe. }
  split; [done|].
  assert (s1 !! k = Some o → enriched_object o) as Hfirst.
  { intros Hs1. destruct (decide (k = k1)) as [->|Hne].
    - destruct Hkey1 as [Heq|(o' & Ho' & Hgood)].
      + exfalso. apply Hnew. by rewrite <- Heq.
      + rewrite Ho' in Hs1. by injection Hs1 as <-.
    - exfalso. apply Hnew. by rewrite <- Hother1. }
  destruct (decide (k = k2)) as [->|Hne].
  - destruct Hkey2 as [Heq|(o' & Ho' & Hgood)].
    + apply Hfirst. by rewrite <- Heq.
    + rewrite Ho' in Hk. by injection Hk as <-.
  - apply Hfirst. by rewrite <- Hother2.
Qed.

End EnrichStageExtras.

Lemma FS_enrich_needs_typed_inputs_witness :
  ∃ e, example_FS_enrich example_unmapped_bucket
         ["silver/cleaned/cvm/dre_ind_2024.parquet";
          "silver/cleaned/cvm/dre_con_2024.parquet"] = Err e.
Proof.
  apply (FS_enrich_needs_typed_inputs
           example_digest "run-1" "2025-01-01" "2025-01-01T11:00:00"
           example_save_file_path example_to_datetime example_read_parquet
           example_enriched_to_parquet_bytes example_create_ref_date
           example_unmapped_bucket _ "silver/cleaned/cvm/dre_con_2024.parquet").
  - right. left.
  - left. vm_compute. reflexivity.
Defined.

Lemma FS_enrich_output_objects_witness :
  ∃ s' paths,
    example_FS_enrich example_unmapped_bucket example_unmapped_paths = Ok (s', paths)
    ∧ length paths = 2%nat
    ∧ s' !! "silver/cleaned/cvm/dre_ind_2024.parquet"
      = example_unmapped_bucket !! "silver/cleaned/cvm/dre_ind_2024.parquet".
Proof.
  assert (is_Ok (example_FS_enrich example_unmapped_bucket example_unmapped_paths) = true)
    as Hok by (vm_compute; reflexivity).
  destruct (example_FS_enrich example_unmapped_bucket example_unmapped_paths)
    as [[s' paths]|e] eqn:E; [|discriminate Hok].
  destruct (FS_enrich_output_objects
              example_digest "run-1" "2025-01-01" "2025-01-01T11:00:00"
              example_save_file_path example_to_datetime example_read_parquet
              example_enriched_to_parquet_bytes example_create_ref_date
              example_unmapped_bucket s' example_unmapped_paths paths E)
    as (Hlen & Hframe & _).
  exists s', paths. split; [reflexivity|]. split; [exact Hlen|].
  apply Hframe. clear Hframe Hlen Hok.
  assert (snd <$> example_FS_enrich example_unmapped_bucket example_unmapped_paths
          = Ok [example_save_file_path SILVER_ENRICHED CVM DEMONSTRATIVOS_FINANCEIROS_FINAL
                  INDIVIDUAL "2024-03-31";
                example_save_file_path SILVER_ENRICHED CVM DEMONSTRATIVOS_FINANCEIROS_FINAL
                  CONSOLIDADO "2023-12-31"]) as Hp.
  { vm_compute. reflexivity. }
  rewrite E in Hp. injection Hp as ->.
  apply (bool_decide_unpack _). vm_compute. exact I.
Defined.

(** ** Saving the quarterly tables *)

Lemma dict_set_keys {K V} `{EqDecision K} (k : K) (v : V) (d : list (K * V)) :
  (dict_set k v d).*1 = if decide (k ∈ d.*1) then d.*1 else (d.*1 ++ [k])%list.
Proof.
  induction d as [|[k' v'] d IH]; cbn [dict_set fmap list_fmap fst app].
  - rewrite decide_False; [done|]. apply not_elem_of_nil.
  - destruct (decide (k = k')) as [->|Hne].
    + rewrite decide_True; [done|]. left.
    + cbn [fmap list_fmap fst]. fold (fmap (M:=list) (@fst K V)). rewrite IH.
      destruct (decide (k ∈ d.*1)) as [Hin|Hin].
      * rewrite decide_True; [done|]. by right.
      * rewrite decide_False; [done|]. by intros [?|?]%elem_of_cons.
Qed.

Lemma dict_set_NoDup {K V} `{EqDecision K} (k : K) (v : V) (d : list (K * V)) :
  NoDup d.*1 → NoDup (dict_set k v d).*1.
Proof.
  intros Hd. rewrite dict_set_keys. case_decide; [done|].
  apply NoDup_app. split; [done|]. split.
  - by intros x Hx ->%list_elem_of_singleton.
  - apply NoDup_singleton.
Qed.

Lemma dict_get_Some_key {K V} `{EqDecision K} (k : K) (v : V) (d : list (K * V)) :
  dict_get k d = Some v → k ∈ d.*1.
Proof.
  induction d as [|[k' v'] d IH]; cbn [dict_get]; [done|].
  case_decide as Hk; [subst; left|]. intros ?. right. by apply IH.
Qed.

Lemma dict_get_is_Some {K V} `{EqDecision K} (k : K) (d : list (K * V)) :
  k ∈ d.*1 → is_Some (dict_get k d).
Proof.
  induction d as [|[k' v'] d IH]; cbn [dict_get].
  - by intros ?%not_elem_of_nil.
  - intros Hin. case_decide as Hk; [eauto|].
    apply elem_of_cons in Hin as [?|?]; [done|]. by apply IH.
Qed.

(** A dict with the two aggregation types as keys has two items. *)
Lemma two_aggregation_types {V} (d : list (CVMDocumentAggregationType * V)) :
  NoDup d.*1 → CONSOLIDADO ∈ d.*1 → INDIVIDUAL ∈ d.*1 →
  ∃ a1 v1 a2 v2, d = [(a1, v1); (a2, v2)] ∧ a1 ≠ a2.
Proof.
  intros Hnd Hc Hi.
  destruct d as [|[a1 v1] [|[a2 v2] [|[a3 v3] d]]].
  - by apply not_elem_of_nil in Hc.
  - exfalso. apply list_elem_of_singleton in Hc, Hi. simpl in *. congruence.
  - exists a1, v1, a2, v2. split; [done|].
    apply NoDup_cons in Hnd as [Hnd _]. intros ->. apply Hnd. left.
  - exfalso. cbn in Hnd.
    apply NoDup_cons in Hnd as [H1 Hnd]. apply NoDup_cons in Hnd as [H2 _].
    apply not_elem_of_cons in H1 as [H12 H1]. apply not_elem_of_cons in H1 as [H13 _].
    apply not_elem_of_cons in H2 as [H23 _].
    by destruct a1, a2, a3.
Qed.

Section GoldStageExtras.

Variable digest : list Byte.byte → string.
Variable trace_id ingest_ts : string.
Variable get_bucket_save_file_path :
  MedallionLayer → DataSources → DocumentTypes → option CVMDocumentAggregationType
  → string → string → GoldServingTableNames → string.
Variable convert_pandas_df_to_parquet_bytes : list Quarterly.t → list Byte.byte.
Variable to_excel : list Quarterly.t → list Quarterly.t → list Byte.byte.
Variable read_enriched_parquet : list Byte.byte → option (list Enriched.t).
Variable create_ref_date : date → string.
Variable today : date.
Variable gold_table_value : GoldServingTableNames → string.

Local Abbreviation save_gold_serving :=
  (GoldStage.save_gold_serving digest trace_id ingest_ts get_bucket_save_file_path
     convert_pandas_df_to_parquet_bytes create_ref_date today gold_table_value).
Local Abbreviation export_excel :=
  (GoldStage.export_excel digest trace_id ingest_ts get_bucket_save_file_path to_excel
     create_ref_date).
Local Abbreviation gold_stage :=
  (GoldStage.calculate_detailed_financials_quarterly digest trace_id ingest_ts
     get_bucket_save_file_path convert_pandas_df_to_parquet_bytes to_excel
     read_enriched_parquet create_ref_date today gold_table_value).
Local Abbreviation fill_dfs_map :=
  (CVMETL.calculate_detailed_financials_quarterly read_enriched_parquet).
Local Abbreviation cached cache curr_df curr_agg_type :=
  (Redis.save_to_cache gold_table_value create_ref_date cache FINANCIALS_QUARTERLY
     curr_df today trace_id (Some curr_agg_type)).
Local Abbreviation aggregation_of curr_df_file_path :=
  (if PyStr.contains curr_df_file_path "_INDIVIDUAL_" then INDIVIDUAL else CONSOLIDADO).

Lemma dfs_map_keys (s : gmap string Minio.object) paths :
  ∀ acc dfs_map,
    foldM (CVMETL.quarterly_file read_enriched_parquet s) acc paths = Ok dfs_map →
    NoDup acc.*1 →
    NoDup dfs_map.*1
    ∧ (∀ a, a ∈ dfs_map.*1 → a ∈ acc.*1 ∨ ∃ p, p ∈ paths ∧ aggregation_of p = a)
    ∧ (∀ a, a ∈ acc.*1 → a ∈ dfs_map.*1)
    ∧ (∀ p, p ∈ paths → aggregation_of p ∈ dfs_map.*1).
Proof.
  induction paths as [|p paths IH]; intros acc dfs_map; cbn [foldM].
  - intros [= <-] Hnd. split; [done|]. split; [by left|]. split; [done|].
    by intros p ?%not_elem_of_nil.
  - destruct (CVMETL.quarterly_file read_enriched_parquet s acc p) as [acc1|] eqn:Hp;
      [|done].
    cbn [mbind result_bind]. intros Hrest Hnd.
    unfold CVMETL.quarterly_file in Hp.
    destruct (Minio.get_file_bytes_and_metadata s p) as [[file_bytes md]|]; [|done].
    cbn [of_option mbind result_bind] in Hp.
    destruct (read_enriched_parquet file_bytes) as [df|]; [|done].
    cbn [of_option mbind result_bind mret result_ret] in Hp. injection Hp as <-.
    apply IH in Hrest as (Hnd' & Hkeys & Hgrow & Hall); [|by apply dict_set_NoDup].
    split; [done|]. split; [|split].
    + intros a Ha. destruct (Hkeys a Ha) as [Hin|(p' & Hp' & Hagg)].
      * rewrite dict_set_keys in Hin. case_decide; [by left|].
        apply elem_of_app in Hin as [?| ->%list_elem_of_singleton]; [by left|].
        right. exists p. split; [left|done].
      * right. exists p'. split; [by right|done].
    + intros a Ha. apply Hgrow. rewrite dict_set_keys. case_decide; [done|].
      apply elem_of_app. by left.
    + intros p' [->|Hp']%elem_of_cons; [|by apply Hall].
      apply Hgrow. rewrite dict_set_keys. case_decide; [done|].
      apply elem_of_app. right. left.
Qed.

(** The second loop: the cache ends with the last table of [dfs_map]. *)
Lemma for_each_save_gold_serving dfs_map :
  ∀ (st st' : GoldStage.state) u,
    for_each save_gold_serving st dfs_map = (st', Ok u) →
    Forall (λ item, item.2 ≠ []) dfs_map
    ∧ match last dfs_map with
      | Some (curr_agg_type, curr_df) => st'.2 = cached st.2 curr_df curr_agg_type
      | None => st' = st
      end.
Proof.
  induction dfs_map as [|[a df] dfs_map IH]; intros st st' u; cbn [for_each].
  - intros [= <-]. by split.
  - destruct (save_gold_serving st (a, df)) as [st1 [[]|e]] eqn:Hbody; [|done].
    intros Hrest. apply IH in Hrest as [Hne Hlast].
    unfold GoldStage.save_gold_serving in Hbody. destruct st as [s cache].
    destruct (max_date (Quarterly.date <$> df)) as [d|] eqn:Hd; [|done].
    injection Hbody as <-. split.
    + constructor; [|done]. simpl. intros ->. done.
    + destruct dfs_map as [|item dfs_map]; cbn [last].
      * by rewrite Hlast.
      * destruct (last (item :: dfs_map)) as [[a' df']|] eqn:E.
        -- rewrite Hlast. unfold Redis.save_to_cache. cbn [snd].
           by rewrite insert_insert_eq.
        -- by apply last_None in E.
Qed.

Lemma export_excel_Ok (st st' : GoldStage.state) dfs_map out :
  export_excel st dfs_map = (st', Ok out) →
  st'.2 = st.2
  ∧ ∃ consolidado_df d,
      dict_get CONSOLIDADO dfs_map = Some consolidado_df
      ∧ is_Some (dict_get INDIVIDUAL dfs_map)
      ∧ max_date (Quarterly.date <$> consolidado_df) = Some d
      ∧ out = [get_bucket_save_file_path GOLD_EXPORT CVM DEMONSTRATIVOS_FINANCEIROS_FINAL
                 None (create_ref_date d) "xlsx" FINANCIALS_QUARTERLY].
Proof.
  unfold GoldStage.export_excel. destruct st as [s cache].
  destruct (dict_get CONSOLIDADO dfs_map) as [con|]; [|done].
  destruct (dict_get INDIVIDUAL dfs_map) as [ind|]; [|done].
  destruct (max_date _) as [d|] eqn:Hd; [|done].
  intros [= <- <-]. split; [done|]. exists con, d. eauto.
Qed.

Lemma gold_stage_Ok (st st' : GoldStage.state) paths out :
  gold_stage st paths = (st', Ok out) →
  ∃ dfs_map st1 u,
    fill_dfs_map st.1 paths = Ok dfs_map
    ∧ for_each save_gold_serving st dfs_map = (st1, Ok u)
    ∧ export_excel st1 dfs_map = (st', Ok out).
Proof.
  unfold GoldStage.calculate_detailed_financials_quarterly.
  destruct (fill_dfs_map st.1 paths) as [dfs_map|]; [|done].
  destruct (for_each save_gold_serving st dfs_map) as [st1 [u|]] eqn:E; [|done].
  intros H. by exists dfs_map, st1, u.
Qed.

(** X15. The cache key is the table name alone, so a successful run
    leaves one entry for the two tables it saved: [dfs_map] holds exactly
    two tables, one per aggregation type, and the cache afterwards is the
    initial cache after a single save of the second one; the first
    table's entry is overwritten. The run returns the one spreadsheet key,
    dated by the latest reference date of the consolidated table. *)
Theorem gold_stage_caches_last_table_only
    (st st' : GoldStage.state) (silver_enriched_files_path out : list string) :
  gold_stage st silver_enriched_files_path = (st', Ok out) →
  ∃ a1 df1 a2 df2 consolidado_df d,
    fill_dfs_map st.1 silver_enriched_files_path = Ok [(a1, df1); (a2, df2)]
    ∧ a1 ≠ a2
    ∧ st'.2 = cached st.2 df2 a2
    ∧ Redis.data <$> Redis.get_from_cache gold_table_value st'.2 FINANCIALS_QUARTERLY
      = Some df2
    ∧ dict_get CONSOLIDADO [(a1, df1); (a2, df2)] = Some consolidado_df
    ∧ max_date (Quarterly.date <$> consolidado_df) = Some d
    ∧ out = [get_bucket_save_file_path GOLD_EXPORT CVM DEMONSTRATIVOS_FINANCEIROS_FINAL
               None (create_ref_date d) "xlsx" FINANCIALS_QUARTERLY].
Proof.
  intros (dfs_map & st1 & u & Hfill & Hsave & Hexport)%gold_stage_Ok.
  apply export_excel_Ok in Hexport as (Hcache & con & d & Hcon & Hind & Hd & ->).
  pose proof Hfill as (Hnd & _)%dfs_map_keys; [|constructor].
  destruct (two_aggregation_types dfs_map Hnd) as (a1 & df1 & a2 & df2 & -> & Hne).
  { by eapply dict_get_Some_key. }
  { destruct Hind as [ind Hind]. by eapply dict_get_Some_key. }
  apply for_each_save_gold_serving in Hsave as [_ Hlast]. cbn [last] in Hlast.
  exists a1, df1, a2, df2, con, d. rewrite Hcache, Hlast.
  repeat split; try done.
  unfold Redis.get_from_cache, Redis.save_to_cache. by rewrite lookup_insert_eq.
Qed.

(** X16. The run succeeds only on an input list that has a key of each
    kind, one that contains _INDIVIDUAL_ and one that does not, and only
    when no table it saves is empty. *)
Theorem gold_stage_needs_both_aggregation_types
    (st st' : GoldStage.state) (silver_enriched_files_path out : list string) :
  gold_stage st silver_enriched_files_path = (st', Ok out) →
  (∃ p, p ∈ silver_enriched_files_path ∧ PyStr.contains p "_INDIVIDUAL_" = true)
  ∧ (∃ p, p ∈ silver_enriched_files_path ∧ PyStr.contains p "_INDIVIDUAL_" = false)
  ∧ ∃ dfs_map, fill_dfs_map st.1 silver_enriched_files_path = Ok dfs_map
               ∧ Forall (λ item, item.2 ≠ []) dfs_map.
Proof.
  intros (dfs_map & st1 & u & Hfill & Hsave & Hexport)%gold_stage_Ok.
  apply export_excel_Ok in Hexport as (_ & con & d & Hcon & [ind Hind] & _).
  pose proof Hfill as (_ & Hkeys & _)%dfs_map_keys; [|constructor].
  apply for_each_save_gold_serving in Hsave as [Hne _].
  split; [|split; [|by exists dfs_map]].
  - destruct (Hkeys INDIVIDUAL) as [Hin|(p & Hp & Hagg)].
    + by eapply dict_get_Some_key.
    + by apply not_elem_of_nil in Hin.
    + exists p. split; [done|]. by destruct (PyStr.contains p "_INDIVIDUAL_").
  - destruct (Hkeys CONSOLIDADO) as [Hin|(p & Hp & Hagg)].
    + by eapply dict_get_Some_key.
    + by apply not_elem_of_nil in Hin.
    + exists p. split; [done|]. by destruct (PyStr.contains p "_INDIVIDUAL_").
Qed.

(** X17. A failure is not atomic: when every input key is of the
    consolidated kind, the run saves and caches the consolidated table
    and only then fails on the missing individual table, so the cache
    entry of the failed run stays. *)
Theorem gold_stage_fails_after_caching
    (st : GoldStage.state) (silver_enriched_files_path : list string)
    (dfs_map : list (CVMDocumentAggregationType * list Quarterly.t)) :
  silver_enriched_files_path ≠ [] →
  Forall (λ p, PyStr.contains p "_INDIVIDUAL_" = false) silver_enriched_files_path →
  fill_dfs_map st.1 silver_enriched_files_path = Ok dfs_map →
  Forall (λ item, item.2 ≠ []) dfs_map →
  ∃ consolidado_df st',
    dfs_map = [(CONSOLIDADO, consolidado_df)]
    ∧ gold_stage st silver_enriched_files_path
      = (st', Err (KeyError (agg_value INDIVIDUAL)))
    ∧ st'.2 = cached st.2 consolidado_df CONSOLIDADO.
Proof.
  intros Hpaths Hcon Hfill Hne.
  pose proof Hfill as (Hnd & Hkeys & _ & Hpresent)%dfs_map_keys; [|constructor].
  assert (∀ a, a ∈ dfs_map.*1 → a = CONSOLIDADO) as Hall.
  { intros a [Hin|(p & Hp & <-)]%Hkeys; [by apply not_elem_of_nil in Hin|].
    by rewrite (proj1 (Forall_forall _ _) Hcon p Hp). }
  assert (dfs_map ≠ []) as Hsome.
  { destruct silver_enriched_files_path as [|p paths]; [done|].
    intros ->. specialize (Hpresent p). eapply not_elem_of_nil, Hpresent. left. }
  destruct dfs_map as [|[a df] [|[a' df'] dfs_map]]; [done| |].
  - assert (a = CONSOLIDADO) as -> by (apply Hall; left).
    rewrite Forall_singleton in Hne. simpl in Hne.
    destruct (max_date_is_Some (Quarterly.date <$> df)) as [d Hd];
      [by intros ?%fmap_nil_inv|].
    destruct st as [s cache]. exists df. eexists. split; [done|].
    unfold GoldStage.calculate_detailed_financials_quarterly. rewrite Hfill.
    cbn [for_each]. unfold GoldStage.save_gold_serving.
    rewrite Hd. unfold GoldStage.export_excel. cbn [dict_get].
    rewrite decide_True by done. rewrite decide_False by done. split; reflexivity.
  - exfalso. cbn in Hnd. apply NoDup_cons in Hnd as [Hnd _].
    rewrite (Hall a), (Hall a') in Hnd; [|right; left|left]. apply Hnd. left.
Qed.

End GoldStageExtras.

Lemma gold_stage_caches_last_table_only_witness :
  ∃ st' out,
    example_gold_stage (example_enriched_bucket, ∅)
      ["silver/enriched/cvm/fs_INDIVIDUAL_2024-03-31.parquet";
       "silver/enriched/cvm/fs_CONSOLIDADO_2024-06-30.parquet"] = (st', Ok out)
    ∧ Redis.data <$> Redis.get_from_cache (λ _, "financials_quarterly") st'.2
                       FINANCIALS_QUARTERLY
      = Some (CVMETL.quarterly_results example_interest_group).
Proof.
  assert (is_Ok (example_gold_stage (example_enriched_bucket, ∅)
                   ["silver/enriched/cvm/fs_INDIVIDUAL_2024-03-31.parquet";
                    "silver/enriched/cvm/fs_CONSOLIDADO_2024-06-30.parquet"]).2 = true)
    as Hok by (vm_compute; reflexivity).
  destruct (example_gold_stage (example_enriched_bucket, ∅)
              ["silver/enriched/cvm/fs_INDIVIDUAL_2024-03-31.parquet";
               "silver/enriched/cvm/fs_CONSOLIDADO_2024-06-30.parquet"])
    as [st' [out|e]] eqn:E; [|discriminate Hok].
  exists st', out. split; [reflexivity|].
  destruct (gold_stage_caches_last_table_only _ _ _ _ _ _ _ _ _ _ _ _ _ _ E)
    as (a1 & df1 & a2 & df2 & con & d & Hfill & _ & _ & Hget & _).
  rewrite Hget. clear -Hfill.
  assert (CVMETL.calculate_detailed_financials_quarterly example_read_enriched_parquet
            example_enriched_bucket
            ["silver/enriched/cvm/fs_INDIVIDUAL_2024-03-31.parquet";
             "silver/enriched/cvm/fs_CONSOLIDADO_2024-06-30.parquet"]
          = Ok [(INDIVIDUAL, CVMETL.quarterly_results example_group);
                (CONSOLIDADO, CVMETL.quarterly_results example_interest_group)]) as Hrun
    by (vm_compute; reflexivity).
  cbn [fst] in Hfill. rewrite Hrun in Hfill. by injection Hfill as _ _ _ <-.
Defined.

Lemma gold_stage_needs_both_aggregation_types_witness :
  ∃ st' out,
    example_gold_stage (example_enriched_bucket, ∅)
      ["silver/enriched/cvm/fs_INDIVIDUAL_2024-03-31.parquet";
       "silver/enriched/cvm/fs_CONSOLIDADO_2024-06-30.parquet"] = (st', Ok out)
    ∧ ∃ p, p ∈ ["silver/enriched/cvm/fs_INDIVIDUAL_2024-03-31.parquet";
                "silver/enriched/cvm/fs_CONSOLIDADO_2024-06-30.parquet"]
           ∧ PyStr.contains p "_INDIVIDUAL_" = false.
Proof.
  assert (is_Ok (example_gold_stage (example_enriched_bucket, ∅)
                   ["silver/enriched/cvm/fs_INDIVIDUAL_2024-03-31.parquet";
                    "silver/enriched/cvm/fs_CONSOLIDADO_2024-06-30.parquet"]).2 = true)
    as Hok by (vm_compute; reflexivity).
  destruct (example_gold_stage (example_enriched_bucket, ∅)
              ["silver/enriched/cvm/fs_INDIVIDUAL_2024-03-31.parquet";
               "silver/enriched/cvm/fs_CONSOLIDADO_2024-06-30.parquet"])
    as [st' [out|e]] eqn:E; [|discriminate Hok].
  exists st', out. split; [reflexivity|].
  exact (proj1 (proj2 (gold_stage_needs_both_aggregation_types
                         _ _ _ _ _ _ _ _ _ _ _ _ _ _ E))).
Defined.

Lemma gold_stage_fails_after_caching_witness :
  ∃ st',
    example_gold_stage (example_enriched_bucket, ∅)
      ["silver/enriched/cvm/fs_CONSOLIDADO_2024-06-30.parquet"]
    = (st', Err (KeyError "Individual"))
    ∧ Redis.data <$> st'.2 !! "financials_quarterly"
      = Some (CVMETL.quarterly_results example_interest_group).
Proof.
  destruct (gold_stage_fails_after_caching
              example_digest "run-1" "2025-02-01T12:00:00" example_gold_path
              example_quarterly_to_bytes example_to_excel example_read_enriched_parquet
              example_ref_date (mk_date 2025 2 1) (λ _, "financials_quarterly")
              (example_enriched_bucket, ∅)
              ["silver/enriched/cvm/fs_CONSOLIDADO_2024-06-30.parquet"]
              [(CONSOLIDADO, CVMETL.quarterly_results example_interest_group)])
    as (con & st' & Hmap & Hrun & Hcache).
  - discriminate.
  - repeat constructor.
  - vm_compute. reflexivity.
  - repeat constructor. vm_compute. discriminate.
  - exists st'. split; [exact Hrun|]. rewrite Hcache. injection Hmap as <-.
    unfold Redis.save_to_cache. by rewrite lookup_insert_eq.
Defined.

(** ** Landing and unpacking *)

Lemma slash_free_app (s t : string) :
  slash_free s = true → slash_free t = true → slash_free (s +:+ t) = true.
Proof.
  induction s as [|c s IH]; [by rewrite app_empty_l|].
  rewrite app_cons. simpl. intros [Hc Hs]%andb_true_iff Ht.
  by rewrite Hc, IH.
Qed.

Lemma split_go_slash_free (s cur : string) :
  slash_free cur = true → Forall (λ p, slash_free p = true) (PyStr.split_go "/" cur s).
Proof.
  revert cur. induction s as [|c s IH]; intros cur Hcur; cbn [PyStr.split_go].
  - by constructor.
  - destruct (Ascii.eqb c "/") eqn:Hc.
    + constructor; [done|]. by apply IH.
    + apply IH, slash_free_app; [done|]. simpl. by rewrite Hc.
Qed.


Lemma List_last_cons {A} (x d : A) (l : list A) :
  l ≠ [] → List.last (x :: l) d = List.last l d.
Proof. by destruct l. Qed.

Lemma file_name_slash_free (member : string) :
  slash_free (CVMETL.file_name member) = true.
Proof.
  unfold CVMETL.file_name, PyStr.split.
  pose proof (split_go_slash_free member "" eq_refl) as Hall.
  induction Hall as [|p l Hp _ IH]; [done|].
  destruct l; [done|]. by rewrite List_last_cons.
Qed.



Section GatewayDomain.

Variable digest : list Byte.byte → string.

Lemma save_lookup_is_Some (s : gmap string Minio.object) path file_bytes ts tr dt ct src
    rd ag k :
  is_Some (s !! k) →
  is_Some ((Minio.save_file_to_bucket digest s path file_bytes ts tr dt ct src rd ag).1
             !! k).
Proof.
  intros Hk. unfold Minio.save_file_to_bucket.
  destruct (Minio.find_duplicate _ _ _); cbn [fst]; [done|].
  destruct (decide (path = k)) as [->|Hne].
  - rewrite lookup_insert_eq. eauto.
  - by rewrite lookup_insert_ne.
Qed.

End GatewayDomain.

Section LandingExtras.

Variable digest : list Byte.byte → string.
Variable trace_id ingest_ts : string.
Variable layer_path : MedallionLayer → string.
Variable source_value : DataSources → string.
Variable http_get : string → option (list Byte.byte).
Variable zip_namelist : list Byte.byte → option (list string).
Variable zip_read : list Byte.byte → string → option (list Byte.byte).
Variable CVM_check_for_updates : string → completion (option string).

Local Abbreviation upload_member :=
  (CVMLanding.upload_member digest trace_id ingest_ts layer_path zip_read).
Local Abbreviation CVM_download_and_upload_to_bucket :=
  (CVMLanding.CVM_download_and_upload_to_bucket digest trace_id ingest_ts layer_path
     http_get zip_namelist zip_read).
Local Abbreviation CVM_startup :=
  (CVMLanding.CVM_startup digest trace_id ingest_ts layer_path source_value http_get
     zip_namelist zip_read CVM_check_for_updates).
Local Abbreviation raw_key member := (layer_path BRONZE_RAW +:+ CVMETL.file_name member).
Local Abbreviation is_file member := (PurePath.nonempty (CVMETL.file_name member)).

(** What one pass of the loop over the members does to the bucket and to
    [uploaded_keys]. *)
Lemma upload_member_step zip_data doc_type (s s' : gmap string Minio.object)
    keys keys' member exc :
  upload_member zip_data doc_type (s, keys) member = ((s', keys'), exc) →
  (∀ k, PyStr.startswith k (layer_path BRONZE_RAW) = false → s' !! k = s !! k)
  ∧ (∀ k, is_Some (s !! k) → is_Some (s' !! k))
  ∧ (exc = None → keys' = (keys ++ if is_file member then [raw_key member] else [])%list).
Proof.
  unfold CVMLanding.upload_member.
  destruct (PurePath.nonempty (CVMETL.file_name member)); cbn [negb].
  - destruct (zip_read zip_data member) as [file_bytes|].
    + intros [= <- <- <-]. split; [|split; [|done]].
      * intros k Hk. apply (save_file_to_bucket_other digest).
        intros <-. by rewrite startswith_app in Hk.
      * intros k. apply save_lookup_is_Some.
    + intros [= <- <- <-]. done.
  - intros [= <- <- <-]. split; [done|]. split; [done|]. by rewrite app_nil_r.
Qed.

Lemma upload_members zip_data doc_type members :
  ∀ (s s' : gmap string Minio.object) keys keys' exc,
    for_each_raising (upload_member zip_data doc_type) (s, keys) members
    = ((s', keys'), exc) →
    (∀ k, PyStr.startswith k (layer_path BRONZE_RAW) = false → s' !! k = s !! k)
    ∧ (∀ k, is_Some (s !! k) → is_Some (s' !! k))
    ∧ (exc = None →
       keys' = (keys ++ ((λ member, raw_key member)
                           <$> List.filter (λ member, is_file member) members))%list).
Proof.
  induction members as [|member members IH]; intros s s' keys keys' exc;
    cbn [for_each_raising List.filter].
  - intros [= <- <- <-]. split; [done|]. split; [done|]. by rewrite app_nil_r.
  - destruct (upload_member zip_data doc_type (s, keys) member) as [[s1 keys1] [e|]] eqn:Hm.
    + intros [= <- <- <-]. apply upload_member_step in Hm as (Hother & Hdom & _).
      done.
    + intros Hrest. apply upload_member_step in Hm as (Hother & Hdom & Hkeys).
      apply IH in Hrest as (Hother' & Hdom' & Hkeys').
      split; [|split].
      * intros k Hk. rewrite Hother' by done. by apply Hother.
      * intros k Hk. by apply Hdom', Hdom.
      * intros ->. rewrite Hkeys', Hkeys by done.
        destruct (PurePath.nonempty (CVMETL.file_name member)); cbn [fmap list_fmap].
        -- by rewrite <- app_assoc.
        -- by rewrite app_nil_r.
Qed.

(** X18. Unpacking flattens the archive: when the download returns, its
    keys are the members of the archive that have a file name, in archive
    order, each put directly under the bronze/raw prefix with the last
    component of the member as name; directory entries give no key. *)
Theorem download_returns_flat_keys
    (last_update_date : option string) (s s' : gmap string Minio.object)
    (url bronze_landing_obj_name : string) (doc_type : DocumentTypes)
    (uploaded_keys : list string) :
  CVM_download_and_upload_to_bucket last_update_date s url bronze_landing_obj_name doc_type
  = (s', Returned uploaded_keys) →
  (∃ zip_data members,
     zip_namelist zip_data = Some members
     ∧ uploaded_keys = (λ member, raw_key member)
                         <$> List.filter (λ member, is_file member) members)
  ∧ Forall (λ key, ∃ name, key = layer_path BRONZE_RAW +:+ name
                           ∧ name ≠ "" ∧ slash_free name = true) uploaded_keys.
Proof.
  unfold CVMLanding.CVM_download_and_upload_to_bucket.
  destruct (http_get url) as [content|]; [|done].
  destruct (Minio.get_file_bytes_and_metadata _ _) as [[zip_data md]|]; [|done].
  destruct (zip_namelist zip_data) as [members|] eqn:Hnames; [|done].
  destruct (for_each_raising _ _ _) as [[s2 keys] [e|]] eqn:Hloop; [done|].
  intros [= <- <-]. apply upload_members in Hloop as (_ & _ & Hkeys).
  rewrite (Hkeys eq_refl), app_nil_l. split; [by exists zip_data, members|].
  apply Forall_fmap, Forall_forall. intros member Hm.
  apply list_elem_of_In, filter_In in Hm as [_ Hm].
  exists (CVMETL.file_name member). split; [done|].
  split; [by destruct (CVMETL.file_name member)|apply file_name_slash_free].
Qed.

(** X19. Whether the download returns or raises, it removes no object
    and leaves every key untouched that is neither the landing key nor
    under the bronze/raw prefix. *)
Theorem download_touches_landing_and_raw_only
    (last_update_date : option string) (s : gmap string Minio.object)
    (url bronze_landing_obj_name : string) (doc_type : DocumentTypes) :
  let s' := (CVM_download_and_upload_to_bucket last_update_date s url
               bronze_landing_obj_name doc_type).1 in
  (∀ k, k ≠ bronze_landing_obj_name →
        PyStr.startswith k (layer_path BRONZE_RAW) = false → s' !! k = s !! k)
  ∧ (∀ k, is_Some (s !! k) → is_Some (s' !! k)).
Proof.
  unfold CVMLanding.CVM_download_and_upload_to_bucket.
  destruct (http_get url) as [content|]; [|done].
  set (s1 := (Minio.save_file_to_bucket digest s bronze_landing_obj_name content ingest_ts
                trace_id doc_type ZIP CVMETL.data_source last_update_date None).1).
  assert ((∀ k, k ≠ bronze_landing_obj_name → s1 !! k = s !! k)
          ∧ (∀ k, is_Some (s !! k) → is_Some (s1 !! k))) as [Hother1 Hdom1].
  { split.
    - intros k Hk. by apply (save_file_to_bucket_other digest).
    - intros k. apply save_lookup_is_Some. }
  destruct (Minio.get_file_bytes_and_metadata s1 _) as [[zip_data md]|];
    [|by split; [intros k ? _; apply Hother1|]].
  destruct (zip_namelist zip_data) as [members|];
    [|by split; [intros k ? _; apply Hother1|]].
  destruct (for_each_raising _ _ _) as [[s2 keys] exc] eqn:Hloop.
  apply upload_members in Hloop as (Hother & Hdom & _).
  assert ((∀ k, k ≠ bronze_landing_obj_name →
                PyStr.startswith k (layer_path BRONZE_RAW) = false → s2 !! k = s !! k)
          ∧ (∀ k, is_Some (s !! k) → is_Some (s2 !! k))) as Hgoal.
  { split.
    - intros k ??. rewrite Hother by done. by apply Hother1.
    - intros k ?. by apply Hdom, Hdom1. }
  by destruct exc.
Qed.

Lemma list_objects_self (s : gmap string Minio.object) (name : string) :
  Minio.list_objects s name = [] ↔ ∀ k, PyStr.startswith k name = true → s !! k = None.
Proof.
  split.
  - intros Hnil k Hk. destruct (s !! k) as [o|] eqn:E; [|done].
    assert (k ∈ Minio.list_objects s name) as Hin
      by (apply elem_of_list_objects; eauto).
    rewrite Hnil in Hin. by apply not_elem_of_nil in Hin.
  - intros Hnone. destruct (Minio.list_objects s name) as [|k l] eqn:E; [done|].
    assert (k ∈ Minio.list_objects s name) as Hin by (rewrite E; left).
    apply elem_of_list_objects in Hin as [[o Ho] Hk].
    by rewrite (Hnone k Hk) in Ho.
Qed.

Lemma startswith_refl (s : string) : PyStr.startswith s s = true.
Proof. rewrite <- (app_empty_r s) at 1. apply startswith_app. Qed.

(** X20. A start-up that downloaded and returned keys is not repeated:
    the archive of the update is then stored under its landing key, so a
    second start-up for the same update returns [None] and leaves the
    bucket as it is. *)
Theorem startup_is_not_repeated
    (s s' : gmap string Minio.object) (landing_url download_zip_url : string)
    (doc_type : DocumentTypes) (file_year : string) (uploaded_csv_keys : list string) :
  CVM_startup s landing_url download_zip_url doc_type file_year
  = (s', Returned (Some uploaded_csv_keys)) →
  CVM_startup s' landing_url download_zip_url doc_type file_year = (s', Returned None).
Proof.
  unfold CVMLanding.CVM_startup.
  destruct (CVM_check_for_updates landing_url) as [last_update_date|]; [|done].
  destruct (dict_get doc_type CVMLanding.FILE_NAME_PART_MAPPING) as [part|]; [|done].
  set (name := CVMLanding.file_name_in_bucket layer_path source_value part file_year
                 last_update_date).
  destruct (Minio.list_objects s name) as [|k l]; [|done].
  destruct (CVM_download_and_upload_to_bucket last_update_date s download_zip_url name
              doc_type) as [s2 [keys|e]] eqn:Hdl; [|done].
  intros [= <- <-].
  assert (is_Some (s2 !! name)) as Hstored.
  { unfold CVMLanding.CVM_download_and_upload_to_bucket in Hdl.
    destruct (http_get download_zip_url) as [content|]; [|done].
    destruct (Minio.get_file_bytes_and_metadata _ name) as [[zip_data md]|] eqn:Hget;
      [|done].
    destruct (zip_namelist zip_data) as [members|]; [|done].
    destruct (for_each_raising _ _ _) as [[s3 keys3] [e|]] eqn:Hloop; [done|].
    injection Hdl as <- _. apply upload_members in Hloop as (_ & Hdom & _).
    apply Hdom. unfold Minio.get_file_bytes_and_metadata in Hget.
    destruct (_ !! name); [eauto|done]. }
  destruct (Minio.list_objects s2 name) as [|k l] eqn:Hlist; [|done].
  exfalso. destruct Hstored as [o Ho].
  rewrite (proj1 (list_objects_self s2 name) Hlist name (startswith_refl name)) in Ho.
  done.
Qed.

(** X21. A new update whose archive is byte-identical to an artifact
    already under the landing folder cannot be landed: the put is skipped
    as a duplicate, the landing key of the update does not exist, and the
    start-up raises the object-store error on reading it back, leaving
    the bucket unchanged. *)
Theorem startup_fails_on_identical_archive
    (s : gmap string Minio.object) (landing_url download_zip_url : string)
    (doc_type : DocumentTypes) (file_year part : string)
    (last_update_date : option string) (content : list Byte.byte) (dup : string) :
  let name := CVMLanding.file_name_in_bucket layer_path source_value part file_year
                last_update_date in
  CVM_check_for_updates landing_url = Returned last_update_date →
  dict_get doc_type CVMLanding.FILE_NAME_PART_MAPPING = Some part →
  Minio.list_objects s name = [] →
  http_get download_zip_url = Some content →
  dup ∈ Minio.artifacts_with_hash s (Minio.folder_prefix name) (digest content) →
  CVM_startup s landing_url download_zip_url doc_type file_year
  = (s, Raises (Raised (S3Error name))).
Proof.
  intros name Hcheck Hpart Hnew Hget Hdup.
  unfold CVMLanding.CVM_startup. rewrite Hcheck, Hpart. fold name. rewrite Hnew.
  unfold CVMLanding.CVM_download_and_upload_to_bucket. rewrite Hget.
  destruct (save_skips digest s name content ingest_ts trace_id doc_type ZIP
              CVMETL.data_source last_update_date None dup Hdup) as (dup' & -> & _).
  cbn [fst]. unfold Minio.get_file_bytes_and_metadata.
  by rewrite (proj1 (list_objects_self s name) Hnew name (startswith_refl name)).
Qed.


End LandingExtras.

Lemma download_returns_flat_keys_witness :
  ∃ s',
    example_CVM_download (Some "2025-01-01 09:00:00") ∅ "https://example.org/itr_2024.zip"
      "bronze/landing/cvm/cvm_itr-2024-2025-01-01 09:00:00.zip" ITR
    = (s', Returned ["bronze/raw/itr_cia_aberta_BPA_con_2024.csv";
                     "bronze/raw/itr_cia_aberta_DRE_con_2024.csv"])
    ∧ Forall (λ key, ∃ name, key = "bronze/raw/" +:+ name
                             ∧ name ≠ "" ∧ slash_free name = true)
        ["bronze/raw/itr_cia_aberta_BPA_con_2024.csv";
         "bronze/raw/itr_cia_aberta_DRE_con_2024.csv"].
Proof.
  assert ((example_CVM_download (Some "2025-01-01 09:00:00") ∅
             "https://example.org/itr_2024.zip"
             "bronze/landing/cvm/cvm_itr-2024-2025-01-01 09:00:00.zip" ITR).2
          = Returned ["bronze/raw/itr_cia_aberta_BPA_con_2024.csv";
                      "bronze/raw/itr_cia_aberta_DRE_con_2024.csv"]) as Hret
    by (vm_compute; reflexivity).
  destruct (example_CVM_download (Some "2025-01-01 09:00:00") ∅
              "https://example.org/itr_2024.zip"
              "bronze/landing/cvm/cvm_itr-2024-2025-01-01 09:00:00.zip" ITR)
    as [s' ret] eqn:E.
  cbn [snd] in Hret. subst ret. exists s'. split; [reflexivity|].
  exact (proj2 (download_returns_flat_keys
                  example_digest "run-1" "2025-01-01T09:00:00" example_layer_path
                  example_http_get example_zip_namelist example_zip_read
                  _ _ _ _ _ _ _ E)).
Defined.

Lemma startup_is_not_repeated_witness :
  ∃ s' uploaded_csv_keys,
    example_CVM_startup ∅ "https://example.org/itr" "https://example.org/itr_2024.zip"
      ITR "2024" = (s', Returned (Some uploaded_csv_keys))
    ∧ example_CVM_startup s' "https://example.org/itr" "https://example.org/itr_2024.zip"
        ITR "2024" = (s', Returned None).
Proof.
  assert ((example_CVM_startup ∅ "https://example.org/itr"
             "https://example.org/itr_2024.zip" ITR "2024").2
          = Returned (Some ["bronze/raw/itr_cia_aberta_BPA_con_2024.csv";
                            "bronze/raw/itr_cia_aberta_DRE_con_2024.csv"])) as Hret
    by (vm_compute; reflexivity).
  destruct (example_CVM_startup ∅ "https://example.org/itr"
              "https://example.org/itr_2024.zip" ITR "2024") as [s' ret] eqn:E.
  cbn [snd] in Hret. subst ret. eexists s', _. split; [reflexivity|].
  exact (startup_is_not_repeated
           example_digest "run-1" "2025-01-01T09:00:00" example_layer_path
           example_source_value example_http_get example_zip_namelist example_zip_read
           example_check_for_updates _ _ _ _ _ _ _ E).
Defined.

Lemma startup_fails_on_identical_archive_witness :
  example_CVM_startup example_landing_bucket "https://example.org/itr"
    "https://example.org/itr_2024.zip" ITR "2024"
  = (example_landing_bucket,
     Raises (Raised (S3Error "bronze/landing/cvm/cvm_itr-2024-2025-01-01 09:00:00.zip"))).
Proof.
  apply (startup_fails_on_identical_archive
           example_digest "run-1" "2025-01-01T09:00:00" example_layer_path
           example_source_value example_http_get example_zip_namelist example_zip_read
           example_check_for_updates example_landing_bucket "https://example.org/itr"
           "https://example.org/itr_2024.zip" ITR "2024" "cvm_itr"
           (Some "2025-01-01 09:00:00") (list_byte_of_string "zip-itr")
           "bronze/landing/cvm/cvm_itr-2024-2024-12-01 09:00:00.zip").
  - reflexivity.
  - reflexivity.
  - vm_compute. reflexivity.
  - vm_compute. reflexivity.
  - apply (bool_decide_unpack _). vm_compute. exact I.
Defined.


(** ** The whole ETL: no stage removes an object *)

Global Instance keeps_objects_refl : Reflexive keeps_objects.
Proof. by intros s k. Qed.

Global Instance keeps_objects_trans : Transitive keeps_objects.
Proof. intros s1 s2 s3 H12 H23 k Hk. by apply H23, H12. Qed.

Lemma list_objects_keeps (s s' : gmap string Minio.object) (prefix : string) :
  keeps_objects s s' →
  Minio.list_objects s prefix ≠ [] → Minio.list_objects s' prefix ≠ [].
Proof.
  intros Hkeeps Hfound Hnil.
  destruct (Minio.list_objects s prefix) as [|k l] eqn:E; [done|].
  assert (k ∈ Minio.list_objects s prefix) as Hin by (rewrite E; left).
  apply elem_of_list_objects in Hin as [Hk Hp].
  assert (k ∈ Minio.list_objects s' prefix) as Hin'
    by (apply elem_of_list_objects; split; [by apply Hkeeps|done]).
  rewrite Hnil in Hin'. by apply not_elem_of_nil in Hin'.
Qed.

Section StagesKeepObjects.

Variable digest : list Byte.byte → string.

Lemma save_keeps_objects (s : gmap string Minio.object) path file_bytes ts tr dt ct src
    rd ag :
  keeps_objects s
    (Minio.save_file_to_bucket digest s path file_bytes ts tr dt ct src rd ag).1.
Proof. intros k. apply save_lookup_is_Some. Qed.

Lemma FS_filter_and_clean_keeps_objects formatted_cnpj trace_id ingest_ts
    get_bucket_save_file_path get_document_schema_from_doc_type read_csv to_datetime
    convert_pandas_df_to_parquet_bytes (s s' : gmap string Minio.object)
    files_path years_to_process paths :
  CVMETL.FS_filter_and_clean digest formatted_cnpj trace_id ingest_ts
    get_bucket_save_file_path get_document_schema_from_doc_type read_csv to_datetime
    convert_pandas_df_to_parquet_bytes s files_path years_to_process = Ok (s', paths) →
  keeps_objects s s'.
Proof.
  unfold CVMETL.FS_filter_and_clean. intros H.
  apply (foldM_preserves (λ st, keeps_objects s st.1)) in H; [done| |done].
  intros st curr_year st' Hst Hyear.
  apply (foldM_preserves (λ st, keeps_objects s st.1)) in Hyear; [done| |done].
  intros st1 [curr_agg_part curr_agg] st1' Hst1 Hagg.
  apply (foldM_preserves (λ st, keeps_objects s st.1)) in Hagg; [done| |done].
  intros [s2 ps2] [part doc] [s3 ps3] Hst2. unfold CVMETL.clean_document_type.
  destruct (foldM _ DataFrame.empty _) as [joined_df|]; [|done].
  cbn [mbind result_bind mret result_ret]. intros [= <- <-]. cbn [fst] in *.
  etrans; [exact Hst2|]. apply save_keeps_objects.
Qed.

Lemma FS_enrich_keeps_objects trace_id formatted_last_update_date ingest_ts
    get_bucket_save_file_path to_datetime read_parquet enriched_to_parquet_bytes
    create_ref_date (s s' : gmap string Minio.object) silver_cleaned_files_path paths :
  CVMETL.FS_enrich digest trace_id formatted_last_update_date ingest_ts
    get_bucket_save_file_path to_datetime read_parquet enriched_to_parquet_bytes
    create_ref_date s silver_cleaned_files_path = Ok (s', paths) →
  keeps_objects s s'.
Proof.
  unfold CVMETL.FS_enrich.
  destruct (CVMETL.enrich_join _ _ _ _ _ _) as [[ind con]|]; [|done].
  cbn [mbind result_bind]. intros H.
  apply (foldM_preserves (λ st, keeps_objects s st.1)) in H; [done| |done].
  intros [s1 ps1] [curr_df curr_agg] [s2 ps2] Hst. unfold CVMETL.save_enriched.
  destruct (CVMETL.enriched_ref_date _ _) as [ref_date|]; [|done].
  cbn [mbind result_bind mret result_ret]. intros [= <- <-]. cbn [fst] in *.
  etrans; [exact Hst|]. apply save_keeps_objects.
Qed.

Lemma gold_stage_keeps_objects trace_id ingest_ts get_bucket_save_file_path
    convert_pandas_df_to_parquet_bytes to_excel read_enriched_parquet create_ref_date
    today gold_table_value (st st' : GoldStage.state) paths out :
  GoldStage.calculate_detailed_financials_quarterly digest trace_id ingest_ts
    get_bucket_save_file_path convert_pandas_df_to_parquet_bytes to_excel
    read_enriched_parquet create_ref_date today gold_table_value st paths
  = (st', Ok out) →
  keeps_objects st.1 st'.1.
Proof.
  unfold GoldStage.calculate_detailed_financials_quarterly.
  destruct (CVMETL.calculate_detailed_financials_quarterly _ _ _) as [dfs_map|]; [|done].
  destruct (for_each _ st dfs_map) as [st1 [u|]] eqn:Hloop; [|done].
  intros Hexport.
  assert (keeps_objects st.1 st1.1) as H1.
  { clear Hexport. revert st st1 u Hloop.
    induction dfs_map as [|[a df] dfs_map IH]; intros st st1 u; cbn [for_each].
    - by intros [= <-].
    - destruct (GoldStage.save_gold_serving _ _ _ _ _ _ _ _ st (a, df))
        as [st2 [u2|]] eqn:Hbody; [|done].
      intros Hrest%IH. etrans; [|exact Hrest].
      unfold GoldStage.save_gold_serving in Hbody. destruct st as [s cache].
      destruct (max_date _); [|done]. injection Hbody as <-. cbn [fst].
      apply save_keeps_objects. }
  etrans; [exact H1|].
  unfold GoldStage.export_excel in Hexport. destruct st1 as [s1 cache1].
  destruct (dict_get CONSOLIDADO dfs_map); [|done].
  destruct (dict_get INDIVIDUAL dfs_map); [|done].
  destruct (max_date _); [|done].
  injection Hexport as <- _. cbn [fst]. apply save_keeps_objects.
Qed.

End StagesKeepObjects.

Section FullETLExtras.

Variable digest : list Byte.byte → string.
Variable formatted_cnpj trace_id ingest_ts : string.
Variable get_formatted_last_update_date : option string → string.
Variable get_bucket_save_file_path :
  MedallionLayer → DataSources → DocumentTypes → option CVMDocumentAggregationType
  → string → option string → option GoldServingTableNames → string.
Variable get_document_schema_from_doc_type : DocumentTypes → list string.
Variable read_csv : list string → list Byte.byte → option DataFrame.t.
Variable to_datetime : cell → option date.
Variable convert_pandas_df_to_parquet_bytes : DataFrame.t → list Byte.byte.
Variable enriched_to_parquet_bytes : list Enriched.t → list Byte.byte.
Variable quarterly_to_parquet_bytes : list Quarterly.t → list Byte.byte.
Variable read_parquet : list Byte.byte → option (list Statement.t).
Variable read_enriched_parquet : list Byte.byte → option (list Enriched.t).
Variable to_excel : list Quarterly.t → list Quarterly.t → list Byte.byte.
Variable create_ref_date : date → string.
Variable today : date.
Variable str : Z → string.
Variable gold_table_value : GoldServingTableNames → string.
Variable layer_path : MedallionLayer → string.
Variable source_value : DataSources → string.
Variable http_get : string → option (list Byte.byte).
Variable zip_namelist : list Byte.byte → option (list string).
Variable zip_read : list Byte.byte → string → option (list Byte.byte).
Variable CVM_check_for_updates : string → completion (option string).
Variable CVM_ITR_LANDING_URL CVM_ITR_DOWNLOAD_RAW_URL : string.
Variable CVM_DFP_LANDING_URL CVM_DFP_DOWNLOAD_RAW_URL : string.
Variable replace_placeholder : string → string → string.

Local Abbreviation CVM_startup :=
  (CVMLanding.CVM_startup digest trace_id ingest_ts layer_path source_value http_get
     zip_namelist zip_read CVM_check_for_updates).
Local Abbreviation fetch :=
  (FullETL.fetch digest trace_id ingest_ts today str layer_path source_value http_get
     zip_namelist zip_read CVM_check_for_updates replace_placeholder).
Local Abbreviation FS_full_etl :=
  (FullETL.FS_full_etl digest formatted_cnpj trace_id ingest_ts
     get_formatted_last_update_date get_bucket_save_file_path
     get_document_schema_from_doc_type read_csv to_datetime
     convert_pandas_df_to_parquet_bytes enriched_to_parquet_bytes
     quarterly_to_parquet_bytes read_parquet read_enriched_parquet to_excel
     create_ref_date today str gold_table_value layer_path source_value http_get
     zip_namelist zip_read CVM_check_for_updates
     CVM_ITR_LANDING_URL CVM_ITR_DOWNLOAD_RAW_URL
     CVM_DFP_LANDING_URL CVM_DFP_DOWNLOAD_RAW_URL replace_placeholder).

Lemma download_keeps_objects (s : gmap string Minio.object) url name doc_type
    last_update_date :
  keeps_objects s
    (CVMLanding.CVM_download_and_upload_to_bucket digest trace_id ingest_ts layer_path
       http_get zip_namelist zip_read last_update_date s url name doc_type).1.
Proof.
  unfold CVMLanding.CVM_download_and_upload_to_bucket.
  destruct (http_get url) as [content|]; [|done].
  pose proof (save_keeps_objects digest s name content ingest_ts trace_id doc_type ZIP
                CVMETL.data_source last_update_date None) as H1.
  destruct (Minio.get_file_bytes_and_metadata _ name) as [[zip_data md]|]; [|done].
  destruct (zip_namelist zip_data) as [members|]; [|done].
  destruct (for_each_raising _ _ _) as [[s2 keys] exc] eqn:Hloop.
  apply (upload_members digest trace_id ingest_ts layer_path zip_read) in Hloop
    as (_ & Hdom & _).
  assert (keeps_objects s s2) by (etrans; [exact H1|exact Hdom]).
  by destruct exc.
Qed.

(** A start-up that returns leaves the archive of the update findable,
    and a start-up on a bucket where it is findable returns [None]. *)
Lemma startup_returned (s s' : gmap string Minio.object) landing_url url doc_type
    file_year r :
  CVM_startup s landing_url url doc_type file_year = (s', Returned r) →
  keeps_objects s s'
  ∧ (r = None → s' = s)
  ∧ ∀ s2 url2, keeps_objects s' s2 →
               CVM_startup s2 landing_url url2 doc_type file_year = (s2, Returned None).
Proof.
  unfold CVMLanding.CVM_startup.
  destruct (CVM_check_for_updates landing_url) as [last_update_date|]; [|done].
  destruct (dict_get doc_type CVMLanding.FILE_NAME_PART_MAPPING) as [part|]; [|done].
  set (name := CVMLanding.file_name_in_bucket layer_path source_value part file_year
                 last_update_date).
  assert (∀ s1 s2 url2, Minio.list_objects s1 name ≠ [] → keeps_objects s1 s2 →
            match Minio.list_objects s2 name with
            | [] => match CVMLanding.CVM_download_and_upload_to_bucket digest trace_id
                            ingest_ts layer_path http_get zip_namelist zip_read
                            last_update_date s2 url2 name doc_type with
                    | (s3, Returned keys) => (s3, Returned (Some keys))
                    | (s3, Raises e) => (s3, Raises e)
                    end
            | _ :: _ => (s2, Returned None)
            end = (s2, Returned None)) as Hfound.
  { intros s1 s2 url2 Hfound Hkeeps.
    pose proof (list_objects_keeps s1 s2 name Hkeeps Hfound).
    by destruct (Minio.list_objects s2 name). }
  destruct (Minio.list_objects s name) as [|k l] eqn:Hlist.
  - destruct (CVMLanding.CVM_download_and_upload_to_bucket _ _ _ _ _ _ _ _ s url name
                doc_type) as [s1 [keys|e]] eqn:Hdl; [|done].
    intros [= <- <-].
    pose proof (download_keeps_objects s url name doc_type last_update_date) as Hkeeps.
    rewrite Hdl in Hkeeps. cbn [fst] in Hkeeps.
    split; [done|]. split; [done|].
    intros s2 url2 Hs2. apply (Hfound s1); [|done].
    unfold CVMLanding.CVM_download_and_upload_to_bucket in Hdl.
    destruct (http_get url) as [content|]; [|done].
    destruct (Minio.get_file_bytes_and_metadata _ name) as [[zip_data md]|] eqn:Hget;
      [|done].
    destruct (zip_namelist zip_data) as [members|]; [|done].
    destruct (for_each_raising _ _ _) as [[s3 keys3] [e|]] eqn:Hloop; [done|].
    injection Hdl as <- _.
    apply (upload_members digest trace_id ingest_ts layer_path zip_read) in Hloop
      as (_ & Hdom & _).
    assert (is_Some (s3 !! name)) as [o Ho].
    { apply Hdom. unfold Minio.get_file_bytes_and_metadata in Hget.
      destruct (_ !! name); [eauto|done]. }
    intros Hnil.
    by rewrite (proj1 (list_objects_self s3 name) Hnil name (startswith_refl name)) in Ho.
  - intros [= <- <-]. split; [done|]. split; [done|].
    intros s2 url2 Hs2. apply (Hfound s); [by rewrite Hlist|done].
Qed.

Lemma fetch_keeps iterations :
  ∀ (s : gmap string Minio.object) all up lud,
    match fetch iterations s all up lud with
    | FullETL.FetchRaises _ => True
    | FullETL.NoNewData s1 | FullETL.Fetched s1 _ _ _ => keeps_objects s s1
    end.
Proof.
  induction iterations as [|[curr_year [landing raw]] rest IH]; intros s all up lud;
    cbn [FullETL.fetch]; [done|].
  destruct (_ && _); [apply IH|].
  unfold FullETL.CVM_startup.
  destruct (CVM_startup s landing (replace_placeholder raw curr_year) _ curr_year)
    as [s1 [r|e]] eqn:Hstart; [|done].
  apply startup_returned in Hstart as (Hkeeps & _ & _).
  destruct r as [[|key keys]|]; [done| |done].
  specialize (IH s1 (all ++ key :: keys)%list (Some (key :: keys))
                match CVM_check_for_updates landing with
                | Returned d => d
                | Raises _ => lud
                end).
  destruct (fetch rest s1 _ _ _); [by etrans|by etrans|done].
Qed.

(** What the loop over years and URL pairs leaves for a second run. *)
Lemma fetch_rerun iterations :
  ∀ (s : gmap string Minio.object) all up lud,
    match fetch iterations s all up lud with
    | FullETL.FetchRaises _ => True
    | FullETL.NoNewData s1 =>
        ∀ (s2 : gmap string Minio.object) (all' : list string)
          (up' : option (list string)) (lud' : option string),
          keeps_objects s1 s2 →
          fetch iterations s2 all' up' lud' = FullETL.NoNewData s2
    | FullETL.Fetched s1 all1 up1 lud1 =>
        up1 = up
        ∨ ∀ (s2 : gmap string Minio.object) (all' : list string)
            (up' : option (list string)) (lud' : option string),
            keeps_objects s1 s2 →
            fetch iterations s2 all' up' lud' = FullETL.NoNewData s2
    end.
Proof.
  induction iterations as [|[curr_year [landing raw]] rest IH]; intros s all up lud.
  { cbn [FullETL.fetch]. by left. }
  set (again := λ s1 : gmap string Minio.object,
         ∀ (s2 : gmap string Minio.object) (all' : list string)
           (up' : option (list string)) (lud' : option string),
           keeps_objects s1 s2 →
           fetch ((curr_year, (landing, raw)) :: rest) s2 all' up' lud'
           = FullETL.NoNewData s2).
  change (match fetch ((curr_year, (landing, raw)) :: rest) s all up lud with
          | FullETL.FetchRaises _ => True
          | FullETL.NoNewData s1 => again s1
          | FullETL.Fetched s1 all1 up1 lud1 => up1 = up ∨ again s1
          end).
  cbn [FullETL.fetch].
  destruct (String.eqb curr_year (str (year today))
            && bool_decide ((if PyStr.contains raw "ITR" then ITR else DFP) = DFP))
    eqn:Hskip.
  - specialize (IH s all up lud).
    destruct (fetch rest s all up lud) as [s1 all1 up1 lud1|s1|e]; [| |done].
    + destruct IH as [->|IH]; [by left|right].
      intros s2 all' up' lud' Hs2. cbn [FullETL.fetch]. rewrite Hskip. by apply IH.
    + intros s2 all' up' lud' Hs2. cbn [FullETL.fetch]. rewrite Hskip. by apply IH.
  - unfold FullETL.CVM_startup.
    destruct (CVM_startup s landing (replace_placeholder raw curr_year) _ curr_year)
      as [s1 [r|e]] eqn:Hstart; [|done].
    apply startup_returned in Hstart as (Hkeeps & _ & Hagain).
    assert (again s1) as Hrerun.
    { intros s2 all' up' lud' Hs2. cbn [FullETL.fetch]. rewrite Hskip.
      unfold FullETL.CVM_startup. by rewrite (Hagain s2 _ Hs2). }
    destruct r as [[|key keys]|]; [exact Hrerun| |exact Hrerun].
    pose proof (fetch_keeps rest s1 (all ++ key :: keys)%list (Some (key :: keys))
                  match CVM_check_for_updates landing with
                  | Returned d => d
                  | Raises _ => lud
                  end) as Hk.
    destruct (fetch rest s1 _ _ _) as [s3 all3 up3 lud3|s3|e]; [| |done].
    + right. intros s2 all' up' lud' Hs2. apply Hrerun. by etrans.
    + intros s2 all' up' lud' Hs2. apply Hrerun. by etrans.
Qed.

(** X23. A run of the whole ETL that returns, with or without results,
    is not resumed or repeated: its start-ups have landed their archives,
    so a second run on the state it left returns [None] at the first
    start-up and changes nothing, as long as the landing pages show the
    same update dates. Data landed by a run that stopped early is
    therefore never processed by a later run. *)
Theorem FS_full_etl_is_not_repeated
    (st st' : GoldStage.state) (uploaded_file_paths : option (list string)) :
  FS_full_etl st = Returned (st', uploaded_file_paths) →
  FS_full_etl st' = Returned (st', None).
Proof.
  destruct st as [s cache], st' as [s' cache'].
  unfold FullETL.FS_full_etl.
  pose proof (fetch_rerun
                (curr_year ← FullETL.years_to_fetch_data today str;
                 urls ← FullETL.urls_tuple CVM_ITR_LANDING_URL CVM_ITR_DOWNLOAD_RAW_URL
                          CVM_DFP_LANDING_URL CVM_DFP_DOWNLOAD_RAW_URL;
                 [(curr_year, urls)]) s [] None None) as Hrerun.
  destruct (fetch _ s [] None None) as [s1 all1 up1 lud1|s1|e]; [| |done].
  - destruct up1 as [[|key keys]|].
    + intros [= <- <- _]. destruct Hrerun as [?|Hrerun]; [done|].
      by rewrite Hrerun.
    + destruct Hrerun as [?|Hrerun]; [done|].
      destruct (FullETL.FS_filter_and_clean _ _ _ _ _ _ _ _ _ _ _ _)
        as [[s2 cleaned]|] eqn:Hclean; [|done].
      destruct (FullETL.FS_enrich _ _ _ _ _ _ _ _ _ _ _ _)
        as [[s3 enriched]|] eqn:Henrich; [|done].
      destruct (FullETL.calculate_detailed_financials_quarterly _ _ _ _ _ _ _ _ _ _ _ _)
        as [st4 [out|]] eqn:Hgold; [|done].
      intros [= -> _].
      apply FS_filter_and_clean_keeps_objects in Hclean.
      apply FS_enrich_keeps_objects in Henrich.
      apply gold_stage_keeps_objects in Hgold. cbn [fst] in Hgold.
      rewrite Hrerun; [done|]. by etrans; [|etrans].
    + done.
  - intros [= <- <- _]. by rewrite Hrerun.
Qed.

End FullETLExtras.

Lemma FS_full_etl_is_not_repeated_witness :
  ∃ st',
    example_FS_full_etl (example_landed_2023, ∅) = Returned (st', None)
    ∧ st'.1 !! "bronze/raw/itr_cia_aberta_BPA_con_2024.csv" ≠ None
    ∧ example_FS_full_etl st' = Returned (st', None).
Proof.
  assert (match example_FS_full_etl (example_landed_2023, ∅) with
          | Returned (st', None) =>
              st'.1 !! "bronze/raw/itr_cia_aberta_BPA_con_2024.csv" ≠ None
          | _ => False
          end) as Hrun by (vm_compute; discriminate).
  destruct (example_FS_full_etl (example_landed_2023, ∅)) as [[st' [out|]]|e] eqn:E;
    [destruct Hrun| |destruct Hrun].
  exists st'. split; [reflexivity|]. split; [exact Hrun|].
  unfold example_FS_full_etl in E |- *.
  exact (FS_full_etl_is_not_repeated _ _ _ _ _ _ _ _ _ _ _ _ _ _ _ _ _ _ _ _ _ _ _ _ _ _
           _ _ _ _ _ _ _ E).
Defined.
